(** * RVAI SDK tutorial notebooks: the code the notebooks define, and what it computes

    The notebooks import the closed-source [rvai] package and define, on top
    of it, a handful of cells, pipelines, datasets and one driver.  This file
    embeds those repository-defined pieces and proves what they compute.

    Modelling conventions:
    - [rvai.types.Float] wraps a Python [float]: an IEEE 754 binary64 number,
      here Rocq's primitive [float];
    - [rvai.types.Integer] wraps a Python [int]: unbounded, here [Z];
    - [rvai.types.Image] wraps a numpy array; the notebooks build images with
      three axes (rows, columns, channels) and, for FashionMNIST, with two;
    - a Python exception is the left summand of [result];
    - what the notebooks get from outside (the clock, the random generator,
      the SDK's processes) is a variable of the enclosing section. *)

From Stdlib Require Import ZArith List String Bool Lia.
From Stdlib Require Import Floats.
Import ListNotations.
Open Scope Z_scope.
Set Warnings "-inexact-float".

(** ** Exceptions *)

Inductive PyError : Type :=
| IndexError
| ValueError
| OverflowError
| NotImplementedError
| AssertionError
| DriverNotFoundError (msg : string)   (* rvai.base.exc *)
| FastAPIClientError (msg : string)    (* rvai.extensions.drivers.fast_api_driver *)
| OtherError (cls : string) (msg : string).

Definition result (A : Type) : Type := (PyError + A)%type.

Definition raise {A : Type} (e : PyError) : result A := inl e.
Definition ret {A : Type} (a : A) : result A := inr a.

Definition bind {A B : Type} (r : result A) (k : A -> result B) : result B :=
  match r with
  | inl e => inl e
  | inr a => k a
  end.

Notation "x <- r ;; k" := (bind r (fun x => k))
  (at level 61, r at next level, right associativity).

(** ** Python builtins used by the notebooks *)

Module Py.

(** [min(x, y)] on two arguments: CPython keeps the first argument and
    replaces it by the second only when [second < first]. *)
Definition min2 {A : Type} (lt : A -> A -> bool) (x y : A) : A :=
  if lt y x then y else x.

(** [min] on Python floats. *)
Definition fmin (x y : float) : float := min2 PrimFloat.ltb x y.

(** [range(n)]: empty for a negative [n]. *)
Definition range (n : Z) : list nat := seq 0 (Z.to_nat n).

(** [l[index]] on a list: a negative index counts from the end, an index
    outside [-len(l) .. len(l) - 1] raises [IndexError]. *)
Definition getitem {A : Type} (l : list A) (index : Z) : result A :=
  let n := Z.of_nat (List.length l) in
  let i := if index <? 0 then index + n else index in
  if (0 <=? i) && (i <? n) then
    match nth_error l (Z.to_nat i) with
    | Some a => ret a
    | None => raise IndexError
    end
  else raise IndexError.

End Py.

(** ** The SDK's data types, as far as the notebooks use them *)

Module Rvai.

Definition Float := float.
Definition Integer := Z.

(** A numpy array of samples of type [px], with two or three axes. *)
Inductive Image (px : Type) : Type :=
| Image2D (rows : list (list px))
| Image3D (rows : list (list (list px))).

Arguments Image2D {px} rows.
Arguments Image3D {px} rows.

Record Point := { x : Z; y : Z }.
Record BoundingBox := { p1 : Point; p2 : Point }.

(** What travels on a pipeline's wires. *)
Inductive Value (px : Type) : Type :=
| VFloat (f : Float)
| VInteger (z : Integer)
| VImage (i : Image px).

Arguments VFloat {px} f.
Arguments VInteger {px} z.
Arguments VImage {px} i.

End Rvai.

Import Rvai.

(** ** Pipelines as the notebooks declare them *)

Module Pipeline.

Definition CellRef := string.
Definition Field := string.
Definition Port : Type := CellRef * Field.

(** The cell classes the notebooks define. *)
Inductive CellClass : Type :=
| SummatorCell
| MultiplierCell
| BenchmarkCell
| ImageClassificationCell
| MeasurementsMyCell
| DriversMyCell.

(** The declared input fields of each cell class (its [Inputs] dataclass). *)
Definition input_fields (c : CellClass) : list Field :=
  match c with
  | SummatorCell => ["op_1"; "op_2"]
  | MultiplierCell => ["op_1"; "op_2"]
  | BenchmarkCell => ["image_in"; "counter_in"]
  | ImageClassificationCell => ["image"]
  | MeasurementsMyCell => ["dummy"]
  | DriversMyCell => ["integer"]
  end%string.

(** A declarative pipeline: [cells], [inputs] (a pipeline input feeds one or
    several cell inputs), [outputs], and [connections] from a cell output to
    a cell input. *)
Record t := {
  name : string;
  cells : list (CellRef * CellClass);
  inputs : list (string * list Port);
  outputs : list (string * Port);
  connections : list (Port * Port)
}.

Definition port_eqb (p q : Port) : bool :=
  (fst p =? fst q)%string && (snd p =? snd q)%string.

(** The connections that leave one cell and enter another one. *)
Definition cell_to_cell (p : t) : list (Port * Port) :=
  filter (fun c => negb (fst (fst c) =? fst (snd c))%string) (connections p).

(** [PipelineFactory]: the imperative way of declaring the same data.  The
    factory is SDK code; what is kept of it is the declaration each call
    records. *)
Module PipelineFactory.

Definition new (name : string) : t :=
  {| name := name; cells := []; inputs := []; outputs := [];
     connections := [] |}.

Definition add_cell (ref : CellRef) (cell : CellClass) (p : t) : t :=
  {| name := name p; cells := cells p ++ [(ref, cell)]; inputs := inputs p;
     outputs := outputs p; connections := connections p |}.

Fixpoint add_input (ref : string) (input : Port)
    (l : list (string * list Port)) : list (string * list Port) :=
  match l with
  | [] => [(ref, [input])]
  | (r, ports) :: l' =>
      if (r =? ref)%string then (r, ports ++ [input]) :: l'
      else (r, ports) :: add_input ref input l'
  end.

Definition declare_input (ref : string) (input : Port) (p : t) : t :=
  {| name := name p; cells := cells p; inputs := add_input ref input (inputs p);
     outputs := outputs p; connections := connections p |}.

Definition declare_output (ref : string) (output : Port) (p : t) : t :=
  {| name := name p; cells := cells p; inputs := inputs p;
     outputs := outputs p ++ [(ref, output)]; connections := connections p |}.

Definition build (p : t) : t := p.

End PipelineFactory.

(** The SDK's pipeline engine is not part of the repository; the section
    reads a declared pipeline as the computation graph the glossary speaks
    of, so that the pipelines of the notebooks can be run. *)
Section Engine.

Context {V : Type}.

(** How an inference task calls the cell at a reference: the cell's [call]
    with the parameters the task binds to that reference. *)
Variable call : CellRef -> CellClass -> list (Field * V) -> result (list (Field * V)).

Definition Wires : Type := list (Port * V).

Fixpoint lookup {K A : Type} (eqb : K -> K -> bool) (k : K)
    (l : list (K * A)) : option A :=
  match l with
  | [] => None
  | (k', a) :: l' => if eqb k k' then Some a else lookup eqb k l'
  end.

Definition feed_one (request : list (string * V))
    (input : string * list Port) : result Wires :=
  match lookup String.eqb (fst input) request with
  | Some v => ret (map (fun port => (port, v)) (snd input))
  | None => raise (OtherError "rvai" "missing pipeline input")
  end.

Fixpoint feed (request : list (string * V))
    (ins : list (string * list Port)) : result Wires :=
  match ins with
  | [] => ret []
  | input :: ins' =>
      w <- feed_one request input ;;
      w' <- feed request ins' ;;
      ret (w ++ w')
  end.

Fixpoint gather (w : Wires) (ref : CellRef) (fields : list Field)
  : option (list (Field * V)) :=
  match fields with
  | [] => Some []
  | f :: fields' =>
      match lookup port_eqb (ref, f) w, gather w ref fields' with
      | Some v, Some vs => Some ((f, v) :: vs)
      | _, _ => None
      end
  end.

(** The first pending cell whose inputs are all available, with its inputs
    and the cells that stay pending. *)
Fixpoint pick_ready (w : Wires) (pending : list (CellRef * CellClass))
  : option ((CellRef * CellClass) * list (Field * V) * list (CellRef * CellClass)) :=
  match pending with
  | [] => None
  | (ref, cls) :: pending' =>
      match gather w ref (input_fields cls) with
      | Some ins => Some ((ref, cls), ins, pending')
      | None =>
          match pick_ready w pending' with
          | Some (c, ins, rest) => Some (c, ins, (ref, cls) :: rest)
          | None => None
          end
      end
  end.

(** The values a cell's outputs send along the connections. *)
Fixpoint deliver (conns : list (Port * Port)) (ref : CellRef)
    (outs : list (Field * V)) : Wires :=
  match conns with
  | [] => []
  | (src, dst) :: conns' =>
      if (fst src =? ref)%string then
        match lookup String.eqb (snd src) outs with
        | Some v => (dst, v) :: deliver conns' ref outs
        | None => deliver conns' ref outs
        end
      else deliver conns' ref outs
  end.

(** [fuel] bounds the number of cell calls; the number of cells is enough,
    since a cell is called at most once. *)
Fixpoint run (fuel : nat) (p : t) (pending : list (CellRef * CellClass))
    (win wout : Wires) : result Wires :=
  match fuel with
  | O => ret wout
  | S fuel' =>
      match pick_ready win pending with
      | None => ret wout
      | Some ((ref, cls), ins, rest) =>
          outs <- call ref cls ins ;;
          run fuel' p rest
            (win ++ deliver (connections p) ref outs)
            (wout ++ map (fun o => ((ref, fst o), snd o)) outs)
      end
  end.

Fixpoint read (wout : Wires) (outs : list (string * Port))
  : result (list (string * V)) :=
  match outs with
  | [] => ret []
  | (name, port) :: outs' =>
      match lookup port_eqb port wout with
      | Some v => vs <- read wout outs' ;; ret ((name, v) :: vs)
      | None => raise (OtherError "rvai" "pipeline output not produced")
      end
  end.

(** Modelled from the spec: the SDK's pipeline engine ([InferenceProcess.predict]),
    which is not part of the repository.  The glossary calls a Pipeline a
    composition of Cells into a computation graph with declared external
    inputs and outputs; [predict] evaluates that graph: a request's values
    are fed to the cell inputs the pipeline input names, a cell is called
    once all its declared inputs are available, its outputs travel along
    the connections, and the declared outputs are read at the end.  What
    the SDK does when a cell raises, or when a request lacks an input, is
    not known from the repository: the prediction ends here with that
    exception, and the properties of the pipelines are stated for the
    requests on which every cell returns. *)
Definition predict (p : t) (request : list (string * V))
  : result (list (string * V)) :=
  win <- feed request (inputs p) ;;
  wout <- run (List.length (cells p)) p (cells p) win [] ;;
  read wout (outputs p).

End Engine.

End Pipeline.

(** ** Getting started notebook: SummatorCell, MultiplierCell, MyPipeline *)

Module GettingStarted.

Local Open Scope string_scope.

Module SummatorInputs.
Record t := { op_1 : Float; op_2 : Float }.
End SummatorInputs.

Module SummatorOutputs.
Record t := { sum : Float }.
End SummatorOutputs.

Module SummatorParameters.
Record t := { threshold : Float }.
(** [threshold: Float = Parameters.field(default=Float(100.0), ...)] *)
Definition default : t := {| threshold := 100%float |}.
End SummatorParameters.

Module SummatorCell.

Definition process_parameters (parameters : SummatorParameters.t)
  : SummatorParameters.t := parameters.

(** [return SummatorOutputs(sum=Float(min(inputs.op_1 + inputs.op_2,
                                          parameters.threshold)))] *)
Definition call (parameters : SummatorParameters.t) (inputs : SummatorInputs.t)
  : SummatorOutputs.t :=
  {| SummatorOutputs.sum :=
       Py.fmin (SummatorInputs.op_1 inputs + SummatorInputs.op_2 inputs)%float
               (SummatorParameters.threshold parameters) |}.

End SummatorCell.

Module MultiplierInputs.
Record t := { op_1 : Float; op_2 : Float }.
End MultiplierInputs.

Module MultiplierOutputs.
Record t := { product : Float }.
End MultiplierOutputs.

Module MultiplierParameters.
(** [class MultiplierParameters(Parameters): pass] *)
Record t := { }.
Definition default : t := Build_t.
End MultiplierParameters.

Module MultiplierCell.

Definition process_parameters (parameters : MultiplierParameters.t)
  : MultiplierParameters.t := parameters.

(** [return MultiplierOutputs(product=Float(inputs.op_1 * inputs.op_2))] *)
Definition call (parameters : MultiplierParameters.t)
    (inputs : MultiplierInputs.t) : MultiplierOutputs.t :=
  {| MultiplierOutputs.product :=
       (MultiplierInputs.op_1 inputs * MultiplierInputs.op_2 inputs)%float |}.

End MultiplierCell.

Import Pipeline.

(** [generate_pipeline()]: the imperative declaration. *)
Definition generate_pipeline : Pipeline.t :=
  let p := PipelineFactory.new "MyPipeline" in
  let p := PipelineFactory.add_cell "sum" SummatorCell p in
  let p := PipelineFactory.add_cell "mul" MultiplierCell p in
  let p := PipelineFactory.declare_input "a" ("sum", "op_1") p in
  let p := PipelineFactory.declare_input "b" ("sum", "op_2") p in
  let p := PipelineFactory.declare_input "a" ("mul", "op_1") p in
  let p := PipelineFactory.declare_input "b" ("mul", "op_2") p in
  let p := PipelineFactory.declare_output "sum" ("sum", "sum") p in
  let p := PipelineFactory.declare_output "product" ("mul", "product") p in
  PipelineFactory.build p.

(** [class MyPipeline(DeclarativePipeline)]: the declarative one. *)
Definition MyPipeline : Pipeline.t :=
  {| name := "MyPipeline";
     cells := [("sum", SummatorCell); ("mult", MultiplierCell)];
     inputs := [("a", [("sum", "op_1"); ("mult", "op_1")]);
                ("b", [("sum", "op_2"); ("mult", "op_2")])];
     outputs := [("sum", ("sum", "sum")); ("product", ("mult", "product"))];
     connections := [] |}%string.

(** [Inference(pipeline=pipeline)] with the parameters of the summator: how
    the task calls a cell on the values of its input wires. *)
Definition Inference {px : Type} (parameters : SummatorParameters.t)
    (ref : CellRef) (cls : CellClass) (ins : list (Field * Value px))
  : result (list (Field * Value px)) :=
  match cls, lookup String.eqb "op_1"%string ins,
             lookup String.eqb "op_2"%string ins with
  | SummatorCell, Some (VFloat a), Some (VFloat b) =>
      let o := SummatorCell.call (SummatorCell.process_parameters parameters)
                 {| SummatorInputs.op_1 := a; SummatorInputs.op_2 := b |} in
      ret [("sum"%string, VFloat (SummatorOutputs.sum o))]
  | MultiplierCell, Some (VFloat a), Some (VFloat b) =>
      let o := MultiplierCell.call
                 (MultiplierCell.process_parameters MultiplierParameters.default)
                 {| MultiplierInputs.op_1 := a; MultiplierInputs.op_2 := b |} in
      ret [("product"%string, VFloat (MultiplierOutputs.product o))]
  | _, _, _ => raise (OtherError "rvai" "cell inputs do not fit the cell")
  end.

End GettingStarted.

(** ** Ray runtime notebook: BenchmarkCell and the two benchmark pipelines *)

Module RayRuntime.

Local Open Scope string_scope.

Module BenchmarkInputs.
Record t (px : Type) := { image_in : Image px; counter_in : Integer }.
Arguments image_in {px} _.
Arguments counter_in {px} _.
End BenchmarkInputs.

Module BenchmarkOutputs.
Record t (px : Type) := { image_out : Image px; counter_out : Integer }.
Arguments image_out {px} _.
Arguments counter_out {px} _.
End BenchmarkOutputs.

Module BenchmarkParameters.
Record t := { delay : Float }.
(** [delay: Float = Parameters.field(default=Float(0.1), ...)] *)
Definition default : t := {| delay := 0.1%float |}.
End BenchmarkParameters.

Module BenchmarkCell.

Section Call.

(** The samples of an image, and what [sample / 2] stored back into the
    array gives for them. *)
Context {px : Type} (half : px -> px).

(** [time.sleep]: returns after the delay, or raises for a delay it does not
    accept (a negative one, a NaN, one too large for the clock). *)
Variable sleep : Float -> result unit.

(** [outimage[0, 0, :] = outimage[0, 0, :] / 2] on a copy of the image: the
    channels of the pixel in row 0, column 0 are halved.  numpy raises
    [IndexError] when the array has no such slice: no row, no column, or
    only two axes. *)
Definition halve_first_pixel (image : Image px) : result (Image px) :=
  match image with
  | Image3D ((pixel :: row) :: rows) =>
      ret (Image3D ((map half pixel :: row) :: rows))
  | _ => raise IndexError
  end.

(** The images [halve_first_pixel] accepts: three axes, at least one row
    and one column. *)
Definition has_first_pixel (image : Image px) : bool :=
  match image with
  | Image3D ((_ :: _) :: _) => true
  | _ => false
  end.

(** [[
    time.sleep(parameters.delay)
    outimage = inputs.image_in.copy()
    outimage[0, 0, :] = outimage[0, 0, :] / 2
    return BenchmarkOutputs(image_out=Image(outimage),
                            counter_out=Integer(int(inputs.counter_in)+1))
    ]] *)
Definition call (parameters : BenchmarkParameters.t)
    (inputs : BenchmarkInputs.t px) : result (BenchmarkOutputs.t px) :=
  _ <- sleep (BenchmarkParameters.delay parameters) ;;
  outimage <- halve_first_pixel (BenchmarkInputs.image_in inputs) ;;
  ret {| BenchmarkOutputs.image_out := outimage;
         BenchmarkOutputs.counter_out :=
           (BenchmarkInputs.counter_in inputs + 1)%Z |}.

End Call.

End BenchmarkCell.

Import Pipeline.

(** [class BenchmarkingPipelineCells(PipelineCells)] *)
Definition BenchmarkingPipelineCells : list (CellRef * CellClass) :=
  [("a", BenchmarkCell); ("b", BenchmarkCell); ("c", BenchmarkCell);
   ("d", BenchmarkCell)]%string.

Definition SingleInputPipeline : Pipeline.t :=
  {| name := "SingleInputPipeline";
     cells := BenchmarkingPipelineCells;
     inputs := [("image", [("a", "image_in"); ("b", "image_in");
                           ("c", "image_in"); ("d", "image_in")]);
                ("counter", [("a", "counter_in")])];
     outputs := [("counter", ("d", "counter_out"))];
     connections :=
       [(("a", "counter_out"), ("b", "counter_in"));
        (("b", "counter_out"), ("c", "counter_in"));
        (("c", "counter_out"), ("d", "counter_in"))] |}%string.

Definition ChainedPipeline : Pipeline.t :=
  {| name := "ChainedPipeline";
     cells := BenchmarkingPipelineCells;
     inputs := [("image", [("a", "image_in")]);
                ("counter", [("a", "counter_in")])];
     outputs := [("counter", ("d", "counter_out"))];
     connections :=
       [(("a", "counter_out"), ("b", "counter_in"));
        (("a", "image_out"), ("b", "image_in"));
        (("b", "counter_out"), ("c", "counter_in"));
        (("b", "image_out"), ("c", "image_in"));
        (("c", "counter_out"), ("d", "counter_in"));
        (("c", "image_out"), ("d", "image_in"))] |}%string.

Section Benchmark.

Context {px : Type} (half : px -> px).
Variable sleep : Float -> result unit.

(** [Inference(pipeline=pipeline, parameters={"a": ..., "b": ..., ...})]:
    every cell of the benchmark pipelines is a [BenchmarkCell], called with
    the parameters bound to its reference. *)
Definition Inference (parameters : CellRef -> BenchmarkParameters.t)
    (ref : CellRef) (cls : CellClass) (ins : list (Field * Value px))
  : result (list (Field * Value px)) :=
  match cls, lookup String.eqb "image_in"%string ins,
             lookup String.eqb "counter_in"%string ins with
  | BenchmarkCell, Some (VImage image), Some (VInteger counter) =>
      o <- BenchmarkCell.call half sleep (parameters ref)
             {| BenchmarkInputs.image_in := image;
                BenchmarkInputs.counter_in := counter |} ;;
      ret [("image_out"%string, VImage (BenchmarkOutputs.image_out o));
           ("counter_out"%string, VInteger (BenchmarkOutputs.counter_out o))]
  | _, _, _ => raise (OtherError "rvai" "cell inputs do not fit the cell")
  end.

(** The clock sleeps through the delay of each of the four cells. *)
Definition delays_accepted (parameters : CellRef -> BenchmarkParameters.t)
  : Prop :=
  forall ref, In ref (map fst BenchmarkingPipelineCells) ->
    sleep (BenchmarkParameters.delay (parameters ref)) = ret tt.

(** The parameters [benchmark] binds: cell [b] is the bottleneck. *)
Definition benchmark_parameters (default_fps bottleneck_fps : Float)
    (ref : CellRef) : BenchmarkParameters.t :=
  if (ref =? "b")%string
  then {| BenchmarkParameters.delay := (1 / bottleneck_fps)%float |}
  else {| BenchmarkParameters.delay := (1 / default_fps)%float |}.

(** [proc.predict({"image": image, "counter": Integer(counter)}).result()] *)
Definition predict (pipeline : Pipeline.t)
    (parameters : CellRef -> BenchmarkParameters.t)
    (image : Image px) (counter : Integer)
  : result (list (string * Value px)) :=
  Pipeline.predict (Inference parameters) pipeline
    [("image"%string, VImage image); ("counter"%string, VInteger counter)].

(** The counter a prediction returns: [int(out["counter"])]. *)
Definition counter_of (out : list (string * Value px)) : result Integer :=
  match lookup String.eqb "counter"%string out with
  | Some (VInteger z) => ret z
  | _ => raise (OtherError "KeyError" "counter")
  end.

(** The warm-up loop of [benchmark_task]:
    [[
    for i in range(5):
        out = proc.predict({"image": benchmark_images[i],
                            "counter": Integer(0)}).result()
        assert int(out["counter"]) == 4
    ]]
    [benchmark_task] starts the process (and sets its replicas) before the
    loop, and measures throughput and latency on the clock after it; those
    parts are calls of the SDK and readings of the clock, and are left
    out. *)
Fixpoint warmup (pipeline : Pipeline.t)
    (parameters : CellRef -> BenchmarkParameters.t)
    (benchmark_images : list (Image px)) (indices : list nat) : result unit :=
  match indices with
  | [] => ret tt
  | i :: indices' =>
      image <- Py.getitem benchmark_images (Z.of_nat i) ;;
      out <- predict pipeline parameters image 0 ;;
      counter <- counter_of out ;;
      if (counter =? 4)%Z then warmup pipeline parameters benchmark_images indices'
      else raise AssertionError
  end.

Definition benchmark_task_warmup (pipeline : Pipeline.t)
    (parameters : CellRef -> BenchmarkParameters.t)
    (benchmark_images : list (Image px)) : result unit :=
  warmup pipeline parameters benchmark_images (Py.range 5).

End Benchmark.

End RayRuntime.

(** ** Measurements notebook: MyCell logs the detections of a dummy detector *)

Module Measurements.

Module MyInputs.
Record t := { dummy : Integer }.
End MyInputs.

Module MyOutputs.
Record t := { dummy : Integer }.
End MyOutputs.

Module MyParameters.
Record t := { }.
End MyParameters.

(** The options of the two indexed fields: [["zone1", "zone2"]] and
    [["car", "truck", "motorbike"]]. *)
Inductive Zone : Type := zone1 | zone2.
Inductive VehicleType : Type := car | truck | motorbike.

Definition Zone_eqb (a b : Zone) : bool :=
  match a, b with
  | zone1, zone1 | zone2, zone2 => true
  | _, _ => false
  end.

(** [class Detection(Measurement)] and [class Detections(Measurement)] *)
Inductive Measurement : Type :=
| Detection (zone_id : Zone) (vehicle_type : VehicleType) (speed : Float)
| Detections (zone_id : Zone) (num_detections : Integer).

(** One turn of the detector loop draws, in this order, the zone
    ([random.choice]), a number in [[0, 1)] ([random.random]) and the
    vehicle type ([random.choice]). *)
Record Draw := {
  draw_zone : Zone;
  draw_random : Float;
  draw_type : VehicleType
}.

(** The dictionary [{"speed": ..., "type": ...}] of one detection. *)
Record DetectionDict := { speed : Float; type : VehicleType }.

(** [detections[zone].append(d)] on a [defaultdict(list)]: a zone enters
    the dictionary, after the zones already there, when it is first used. *)
Fixpoint append_to (zone : Zone) (d : DetectionDict)
    (detections : list (Zone * list DetectionDict))
  : list (Zone * list DetectionDict) :=
  match detections with
  | [] => [(zone, [d])]
  | (z, ds) :: detections' =>
      if Zone_eqb z zone then (z, ds ++ [d]) :: detections'
      else (z, ds) :: append_to zone d detections'
  end.

(** The detector loop; [draws] has [random.randint(2, 4)] elements. *)
Definition run_dummy_detector (draws : list Draw)
  : list (Zone * list DetectionDict) :=
  fold_left
    (fun detections dr =>
       append_to (draw_zone dr)
         {| speed := (draw_random dr * 100)%float; type := draw_type dr |}
         detections)
    draws [].

(** What the cell logs for one zone: its detections, then their number. *)
Definition log_zone (entry : Zone * list DetectionDict) : list Measurement :=
  map (fun d => Detection (fst entry) (type d) (speed d)) (snd entry)
  ++ [Detections (fst entry) (Z.of_nat (List.length (snd entry)))].

(** Reading a log: the [Detection] measurements, and the sum of the
    [num_detections] fields of the [Detections] measurements. *)
Definition is_detection (m : Measurement) : bool :=
  match m with
  | Detection _ _ _ => true
  | Detections _ _ => false
  end.

Definition total_detections (log : list Measurement) : Z :=
  fold_right
    (fun m total =>
       match m with
       | Detection _ _ _ => total
       | Detections _ n => n + total
       end)
    0 log.

(** The number of detections a dictionary of zones holds. *)
Definition group_sizes (detections : list (Zone * list DetectionDict)) : nat :=
  fold_right (fun entry n => (List.length (snd entry) + n)%nat) O detections.

Module MyCell.

(** [call]: the measurements passed to [context.log_measurement], in order,
    and the outputs [MyOutputs(inputs.dummy)]. *)
Definition call (draws : list Draw) (parameters : MyParameters.t)
    (inputs : MyInputs.t) : list Measurement * MyOutputs.t :=
  (flat_map log_zone (run_dummy_detector draws),
   {| MyOutputs.dummy := MyInputs.dummy inputs |}).

End MyCell.

Import Pipeline.
Local Open Scope string_scope.

(** [PipelineFactory.from_cell(cell=MyCell())]: the SDK links the inputs and
    outputs of the single cell to the pipeline's source and sink; the
    notebook feeds the input ["dummy"].  The SDK picks the name of the
    pipeline and the reference of the cell, which the notebook never uses;
    they stand here as ["from_cell"] and ["cell"]. *)
Definition pipeline : Pipeline.t :=
  {| name := "from_cell";
     cells := [("cell", MeasurementsMyCell)];
     inputs := [("dummy", [("cell", "dummy")])];
     outputs := [("dummy", ("cell", "dummy"))];
     connections := [] |}.

End Measurements.

(** ** Flows notebook: DummyDataset *)

Module Flows.

Module DummySamples.
Record t (px : Type) := { image : Image px }.
Arguments image {px} _.
End DummySamples.

Module DummyAnnotations.
Record t := { bbox : BoundingBox }.
End DummyAnnotations.

Module DummyDataset.

Section Dataset.

Context {px : Type}.

(** The i-th [Image(np.random.random((100, 50, 3)))] a constructor draws. *)
Variable random : nat -> Image px.

Record t := {
  images : list (Image px);
  bounding_boxes : list BoundingBox
}.

(** [[
    self.images = [Image(np.random.random((100, 50, 3))) for i in range(length)]
    self.bounding_boxes = [BoundingBox(p1=Point(x=0, y=0), p2=Point(x=1, y=1))
                           for i in range(length)]
    ]] *)
Definition __init__ (length : Z) : t :=
  {| images := map random (Py.range length);
     bounding_boxes :=
       map (fun _ => {| p1 := {| x := 0; y := 0 |};
                        p2 := {| x := 1; y := 1 |} |})
           (Py.range length) |}.

Definition __getitem__ (self : t) (index : Z)
  : result (DummySamples.t px * DummyAnnotations.t) :=
  image <- Py.getitem (images self) index ;;
  bbox <- Py.getitem (bounding_boxes self) index ;;
  ret ({| DummySamples.image := image |}, {| DummyAnnotations.bbox := bbox |}).

Definition __len__ (self : t) : Z := Z.of_nat (List.length (images self)).

End Dataset.

Arguments t px : clear implicits.

End DummyDataset.

End Flows.

(** ** Drivers notebook: the stateful MyCell, CustomDriver, and the cells
       that catch the SDK's exceptions *)

Module Drivers.

Module MyInputs.
Record t := { integer : Integer }.
End MyInputs.

Module MyOutputs.
Record t := { integer : Integer; counter : Integer }.
End MyOutputs.

Module MyParameters.
Record t := { adder : Integer }.
(** [adder: Integer = Parameters.field(default=Integer(1), name="Adder")] *)
Definition default : t := {| adder := 1 |}.
End MyParameters.

Module MyState.
Record t := { counter : Integer }.
(** [counter: Integer = State.field(default=Integer(0))] *)
Definition default : t := {| counter := 0 |}.
End MyState.

Module MyCell.

(** [[
    state: MyState = context.state
    state.counter = Integer(state.counter + 1)
    return MyOutputs(
        integer=Integer(inputs.integer + parameters.adder),
        counter=state.counter,
    )
    ]]
    The state object of the context is threaded through: [call] takes the
    state before and returns the state after. *)
Definition call (state : MyState.t) (parameters : MyParameters.t)
    (inputs : MyInputs.t) : MyOutputs.t * MyState.t :=
  let state := {| MyState.counter := MyState.counter state + 1 |} in
  ({| MyOutputs.integer := MyInputs.integer inputs + MyParameters.adder parameters;
      MyOutputs.counter := MyState.counter state |},
   state).

(** Successive invocations on one state, each with its own parameters and
    inputs; the outputs are returned in the order of the invocations. *)
Fixpoint calls (state : MyState.t)
    (requests : list (MyParameters.t * MyInputs.t))
  : list MyOutputs.t * MyState.t :=
  match requests with
  | [] => ([], state)
  | (parameters, inputs) :: requests' =>
      let (outputs, state') := call state parameters inputs in
      let (rest, state'') := calls state' requests' in
      (outputs :: rest, state'')
  end.

End MyCell.

Import Pipeline.
Local Open Scope string_scope.

(** [[
    pf = PipelineFactory(name="MyPipeline")
    my_cell = MyCell()
    pf.add_cell(ref="my-cell", cell=my_cell)
    pf.declare_input(ref="input", input=my_cell.inputs.integer)
    pf.declare_output(ref="output", output=my_cell.outputs.integer)
    pf.declare_output(ref="counter", output=my_cell.outputs.counter)
    pipeline = pf.build()
    ]] *)
Definition pipeline : Pipeline.t :=
  let pf := PipelineFactory.new "MyPipeline" in
  let pf := PipelineFactory.add_cell "my-cell" DriversMyCell pf in
  let pf := PipelineFactory.declare_input "input" ("my-cell", "integer") pf in
  let pf := PipelineFactory.declare_output "output" ("my-cell", "integer") pf in
  let pf := PipelineFactory.declare_output "counter" ("my-cell", "counter") pf in
  PipelineFactory.build pf.

Local Close Scope string_scope.

Module CustomDriverParameters.
Record t := { param : Integer }.
(** [param: Integer = field(default=Integer(0))] *)
Definition default : t := {| param := 0 |}.
End CustomDriverParameters.

Module CustomDriver.

Record t := {
  _predictions : Z;
  _params : CustomDriverParameters.t;
  _running : bool
}.

(** [[
    def __init__(self, predictions: int = 10,
                 params: Optional[CustomDriverParameters] = None):
        self._predictions = predictions
        self._params = params or CustomDriverParameters()
        self._running = False
    ]] *)
Definition __init__ (predictions : option Z)
    (params : option CustomDriverParameters.t) : t :=
  {| _predictions := match predictions with Some n => n | None => 10 end;
     _params := match params with
                | Some p => p
                | None => CustomDriverParameters.default
                end;
     _running := false |}.

(** [return DriverResourcesRequest(ports=["dummy-port"])] *)
Definition resources_request (self : t) : list string := ["dummy-port"%string].

Definition stop (self : t) : t :=
  {| _predictions := _predictions self; _params := _params self;
     _running := false |}.

Definition get_parameters (self : t) : CustomDriverParameters.t := _params self.

Definition set_parameters (self : t) (parameters : CustomDriverParameters.t)
  : t :=
  {| _predictions := _predictions self; _params := parameters;
     _running := _running self |}.

Section Run.

(** What a prediction returns, and the ports the runtime assigned. *)
Context {Prediction Ports : Type}.

(** The i-th [inference.predict(inputs={"input": v}, sid=state_id).result()]
    of the run. *)
Variable predict : nat -> Integer -> result Prediction.

(** The i-th [Integer.fake()]. *)
Variable fake : nat -> Integer.

(** Whether the runtime has called [stop], from outside the loop, by the
    time turn i tests [self._running]. *)
Variable stop_called : nat -> bool.

(** What [run] prints; the average time is read from the clock, its line
    keeps the number of predictions it is taken over. *)
Inductive Line : Type :=
| Starting_custom_driver
| Assigned_ports (ports : Ports)
| Prematurely_stopping_test
| First_result (r : Prediction)
| Second_result (r : Prediction)
| Average_time_over (predictions : nat).

(** The [for _ in range(self._predictions)] loop of [run]. *)
Fixpoint loop (turns : list nat) (self : t) (results : list Prediction)
  : result (t * list Prediction * list Line) :=
  match turns with
  | [] => ret (self, results, [])
  | i :: turns' =>
      let self := if stop_called i then stop self else self in
      if negb (_running self)
      then ret (self, results, [Prematurely_stopping_test])
      else
        r <- predict i (fake i) ;;
        loop turns' self (results ++ [r])
  end.

Definition first_two (results : list Prediction) : list Line :=
  match results with
  | r0 :: r1 :: _ => [First_result r0; Second_result r1]
  | _ => []
  end.

Definition run (self : t) (resources : Ports) : result (t * list Line) :=
  let self := {| _predictions := _predictions self; _params := _params self;
                 _running := true |} in
  out <- loop (Py.range (_predictions self)) self [] ;;
  let '(self, results, lines) := out in
  ret (self,
       [Starting_custom_driver; Assigned_ports resources] ++ lines
       ++ first_two results ++ [Average_time_over (List.length results)]).

End Run.

End CustomDriver.

(** The cell that removes the FastAPI driver and shows that its client no
    longer answers:
    [[
    try:
        proc.remove_driver(fast_api_driver_proc.pid)
    except DriverNotFoundError as e:
        print('Could not remove driver:', e)
    print('* manual inference still possible:',
          proc.predict({"input": Integer(1)}).result())
    print("* client not responding (as expected):")
    try:
        client.predict({"input": Integer(1)})
    except FastAPIClientError as e:
        print(e)
    try:
        client.wait(timeout=1)
    except FastAPIClientError as e:
        print("Can also be tested via `client.wait()`:", e)
    ]] *)
Module RemoveDriverCell.

Section Cell.

Context {Prediction : Type}.

(** The outcomes of the four SDK calls of the cell. *)
Variable remove_driver : result unit.
Variable proc_predict : result Prediction.
Variable client_predict : result Prediction.
Variable client_wait : result unit.

Inductive Line : Type :=
| Could_not_remove_driver (e : string)
| Manual_inference_still_possible (r : Prediction)
| Client_not_responding
| Client_error (e : string)
| Can_also_be_tested_via_wait (e : string).

(** A cell prints lines and ends normally or with an uncaught exception. *)
Definition Run : Type := list Line * result unit.

Definition seq_run (r1 r2 : Run) : Run :=
  match snd r1 with
  | inl e => (fst r1, inl e)
  | inr _ => (fst r1 ++ fst r2, snd r2)
  end.

(** [try: body  except <class> as e: handler]: [handler] answers with the
    lines it prints for an exception of the class, and with [None] for any
    other exception, which then propagates. *)
Definition try_except {A : Type} (body : result A)
    (handler : PyError -> option (list Line)) : Run :=
  match body with
  | inr _ => ([], ret tt)
  | inl e =>
      match handler e with
      | Some lines => (lines, ret tt)
      | None => ([], raise e)
      end
  end.

Definition except_DriverNotFoundError (e : PyError) : option (list Line) :=
  match e with
  | DriverNotFoundError msg => Some [Could_not_remove_driver msg]
  | _ => None
  end.

Definition except_FastAPIClientError (print : string -> Line) (e : PyError)
  : option (list Line) :=
  match e with
  | FastAPIClientError msg => Some [print msg]
  | _ => None
  end.

Definition print_prediction : Run :=
  match proc_predict with
  | inr r => ([Manual_inference_still_possible r], ret tt)
  | inl e => ([], raise e)
  end.

Definition run : Run :=
  seq_run (try_except remove_driver except_DriverNotFoundError)
 (seq_run print_prediction
 (seq_run ([Client_not_responding], ret tt)
 (seq_run (try_except client_predict (except_FastAPIClientError Client_error))
          (try_except client_wait
             (except_FastAPIClientError Can_also_be_tested_via_wait))))).

End Cell.

End RemoveDriverCell.

End Drivers.

(** ** TensorRT notebook: FashionMNISTDataset and the classifier's pipelines *)

Module Trtis.

Module ImageClassificationInputs.
Record t (px : Type) := { image : Image px }.
Arguments image {px} _.
End ImageClassificationInputs.

Module ImageClassificationOutputs.
Record t := { label : Integer }.
End ImageClassificationOutputs.

(** [ImageClassificationSamples] inherits the fields of the inputs and
    [ImageClassificationAnnotations] those of the outputs. *)
Definition ImageClassificationSamples := ImageClassificationInputs.t.
Definition ImageClassificationAnnotations := ImageClassificationOutputs.t.

Module ImageClassificationParameters.
Record t := { epochs : Integer; batch_size : Integer }.
Definition default : t := {| epochs := 2; batch_size := 4 |}.
End ImageClassificationParameters.

Module FashionMNISTDataset.

Section Dataset.

Context {px : Type}.

(** [images] holds arrays of two axes (28 x 28 for FashionMNIST). *)
Record t := {
  images : list (list (list px));
  labels : list Integer
}.

Definition __init__ (images : list (list (list px))) (labels : list Integer)
  : t := {| images := images; labels := labels |}.

(** [[
    return (
        ImageClassificationSamples(image=Image(self.images[index])),
        ImageClassificationAnnotations(label=Integer(self.labels[index])),
    )
    ]] *)
Definition __getitem__ (self : t) (index : Z)
  : result (ImageClassificationSamples px * ImageClassificationAnnotations) :=
  image <- Py.getitem (images self) index ;;
  label <- Py.getitem (labels self) index ;;
  ret ({| ImageClassificationInputs.image := Image2D image |},
       {| ImageClassificationOutputs.label := label |}).

Definition __len__ (self : t) : Z := Z.of_nat (List.length (images self)).

End Dataset.

Arguments t px : clear implicits.

End FashionMNISTDataset.

Module ImageClassificationCell.

Section Cell.

Context {px : Type}.

(** [np.atleast_3d]: an array of two axes gets a third one of length 1. *)
Definition atleast_3d (image : Image px) : Image px :=
  match image with
  | Image2D rows => Image3D (map (map (fun sample => [sample])) rows)
  | Image3D rows => Image3D rows
  end.

(** [[
    samples = example[0]
    annotations = example[1]
    image = np.atleast_3d(samples.image)
    label = int(annotations.label)
    return image, label
    ]] *)
Definition _unpack_example
    (example : ImageClassificationSamples px * ImageClassificationAnnotations)
  : Image px * Z :=
  (atleast_3d (ImageClassificationInputs.image (fst example)),
   ImageClassificationOutputs.label (snd example)).

(** [def test(...): raise NotImplementedError] *)
Definition test {Metrics : Type} : result Metrics := raise NotImplementedError.

End Cell.

End ImageClassificationCell.

Import Pipeline.
Local Open Scope string_scope.

(** A [DeclarativeTrainingPipeline] names the cell to train and the ports of
    its samples and annotations; it declares no connections. *)
Record TrainingPipeline := {
  training_cells : list (CellRef * CellClass);
  train : CellRef;
  samples : list Port;
  annotations : list Port
}.

Definition ImageClassificationTrainingPipeline : TrainingPipeline :=
  {| training_cells := [("classifier", ImageClassificationCell)];
     train := "classifier";
     samples := [("classifier", "image")];
     annotations := [("classifier", "label")] |}.

Definition ImageClassificationPipeline : Pipeline.t :=
  {| name := "ImageClassificationPipeline";
     cells := [("classifier", ImageClassificationCell)];
     inputs := [("image", [("classifier", "image")])];
     outputs := [("label", ("classifier", "label"))];
     connections := [] |}.

End Trtis.

(** ** The notebooks as a whole *)

Module Notebooks.

Local Open Scope string_scope.

(** Every pipeline with inputs, outputs and connections that the notebooks
    declare ([DummySDKPipeline] of the flows notebook is imported). *)
Definition pipelines : list Pipeline.t :=
  [GettingStarted.generate_pipeline; GettingStarted.MyPipeline;
   RayRuntime.SingleInputPipeline; RayRuntime.ChainedPipeline;
   Trtis.ImageClassificationPipeline; Measurements.pipeline;
   Drivers.pipeline].

(** The methods each class of the notebooks defines: the notebook (its
    file under src/, and its title where a file holds two notebooks), the
    class, and the names of the [def]s of its body. *)
Definition defined_methods : list (string * string * list string) :=
  [("unnamed/part_000", "SummatorCell", ["process_parameters"; "call"]);
   ("unnamed/part_000", "MultiplierCell", ["process_parameters"; "call"]);
   ("4_ray_runtime.ipynb", "BenchmarkCell", ["call"]);
   ("3_trtis_inference.ipynb", "ImageClassificationCell",
      ["load_model"; "_do_load_model"; "_unpack_example"; "_collate_batch";
       "train"; "test"; "predict"; "convert_to_trtis_model"; "trtis_predict"]);
   ("3_trtis_inference.ipynb", "FashionMNISTDataset",
      ["__init__"; "__getitem__"; "__len__"]);
   ("6_measurements.ipynb", "MyCell", ["call"]);
   ("7_flows.ipynb: SDK Flows", "DummyDataset",
      ["__init__"; "__getitem__"; "__len__"]);
   ("7_flows.ipynb: Pipeline drivers", "MyCell", ["call"]);
   ("7_flows.ipynb: Pipeline drivers", "CustomDriver",
      ["__init__"; "resources_request"; "run"; "stop"; "get_parameters";
       "set_parameters"])].

(** The classes of the notebooks that define a method of a given name. *)
Definition classes_defining (method : string) : list (string * string) :=
  map fst
    (filter (fun c => existsb (String.eqb method) (snd c)) defined_methods).

(** The top-level statements of a notebook that concern the runtime and
    what runs on it: the imports from [rvai.base.runtime], [rvai.base.exc]
    and the FastAPI driver's module, the construction of tasks, flows and
    clients, the calls on runtimes, processes, flows, drivers and clients,
    and the [try] statements around them, in the order of the notebook.  A
    call keeps the variable it is assigned to, its receiver, the function,
    its string literals and the names it passes. *)
Inductive Simple : Type :=
| ImportFrom (module : string) (names : list string)
| Call (target : option string) (receiver : string) (function : string)
       (literals : list string) (names : list string)
| Raise (exc : string).

Inductive Stmt : Type :=
| Do (s : Simple)
| TryExcept (body : list Simple) (exc : string) (handler : list Simple).

Definition import_from (module : string) (names : list string) : Stmt :=
  Do (ImportFrom module names).

Definition call (target : option string) (receiver function : string)
    (literals names : list string) : Stmt :=
  Do (Call target receiver function literals names).

(** src/unnamed/part_000, "Getting started with the RVAI SDK". *)
Definition getting_started : list Stmt :=
  [import_from "rvai.base.runtime" ["Inference"; "init"];
   call (Some "rt") "" "init" ["ray"] [];
   call (Some "inference") "" "Inference" [] ["pipeline"];
   call (Some "proc") "rt" "start_inference" [] ["inference"];
   call (Some "pred") "proc" "predict" [] [];
   call (Some "pred") "proc" "predict" [] [];
   call None "proc" "set_parameters" [] ["SummatorParameters"];
   call None "proc" "set_parameters" ["stream-1"] ["SummatorParameters"];
   call (Some "pred") "proc" "predict" [] [];
   call (Some "pred") "proc" "predict" ["stream-1"] [];
   call None "proc" "stop" [] [];
   call None "rt" "stop" [] []].

(** src/4_ray_runtime.ipynb. *)
Definition ray_runtime : list Stmt :=
  [import_from "rvai.base.runtime" ["Inference"];
   import_from "rvai.base.runtime" ["init"];
   call (Some "debug_rt") "" "init" ["debug"] [];
   call (Some "debug_results") "" "benchmark" []
        ["debug_rt"; "pipeline"; "n_loops"];
   call None "debug_rt" "stop" [] [];
   call (Some "ray_rt") "" "init" ["ray"] [];
   call (Some "ray_results") "" "benchmark" [] ["ray_rt"; "pipeline"; "n_loops"];
   call None "ray_rt" "stop" [] [];
   call None "ray" "shutdown" [] [];
   call (Some "ray_rt") "" "init" ["ray"] [];
   call (Some "scaled_results") "" "benchmark" []
        ["ray_rt"; "pipeline"; "n_loops"; "replicas"];
   call None "ray_rt" "stop" [] []].

(** src/3_trtis_inference.ipynb. *)
Definition trtis_inference : list Stmt :=
  [import_from "rvai.base.runtime" ["init"; "Training"; "Inference"];
   call (Some "runtime") "" "init" ["debug"] [];
   call (Some "training") "" "Training" []
        ["training_pipeline"; "ImageClassificationParameters";
         "train_dataset"; "validation_dataset"];
   call (Some "training_loop") "runtime" "start_training" [] ["training"];
   call None "training_loop" "updates" [] [];
   call (Some "trained_model_path") "training_loop" "result" [] [];
   call None "training_loop" "stop" [] [];
   call (Some "inference") "" "Inference" []
        ["inference_pipeline"; "trained_model_path";
         "ImageClassificationParameters"];
   call (Some "proc") "runtime" "start_inference" [] ["inference"];
   call (Some "pred") "proc" "predict" [] ["sample"];
   call None "proc" "stop" [] [];
   call (Some "inference") "" "Inference" []
        ["inference_pipeline"; "trained_model_path";
         "ImageClassificationParameters"; "TRTISResources"];
   call (Some "proc") "runtime" "start_inference" [] ["inference"];
   call (Some "pred") "proc" "predict" [] ["sample"];
   call None "proc" "stop" [] [];
   call None "runtime" "stop" [] []].

(** src/6_measurements.ipynb. *)
Definition measurements : list Stmt :=
  [import_from "rvai.base.runtime" ["Inference"; "init"];
   call (Some "rt") "" "init" ["debug"] ["hooks"];
   call (Some "inference") "" "Inference" [] ["pipeline"];
   call (Some "proc") "rt" "start_inference" [] ["inference"];
   call None "proc" "predict" [] [];
   call None "proc" "stop" [] [];
   call None "rt" "stop" [] []].

(** src/7_flows.ipynb, "SDK Flows". *)
Definition flows : list Stmt :=
  [import_from "rvai.base.runtime" ["init"];
   call (Some "rt") "" "init" ["ray"] [];
   call (Some "flow") "" "TrainTestEvalFlow" []
        ["rt"; "training_pipeline"; "trainable_cell_ref"; "parameters";
         "train_dataset"; "validation_dataset"; "test_dataset"];
   call None "flow" "start" [] [];
   call None "flow" "updates" [] [];
   call (Some "flow") "" "KFoldTrainTestEvalFlow" []
        ["rt"; "training_pipeline"; "trainable_cell_ref"; "parameters";
         "train_dataset"; "validation_dataset"; "test_dataset"];
   call None "flow" "start" [] [];
   call None "flow" "updates" [] [];
   call None "rt" "stop" [] []].

(** src/7_flows.ipynb, "Pipeline drivers". *)
Definition drivers : list Stmt :=
  [import_from "rvai.base.runtime" ["Inference"; "init"];
   call (Some "rt") "" "init" ["debug"] [];
   call (Some "inference") "" "Inference" [] ["pipeline"];
   call (Some "proc") "rt" "start_inference" [] ["inference"];
   import_from "rvai.extensions.drivers.fast_api_driver" ["FastAPIDriver"];
   call (Some "fast_api_driver_proc") "proc" "add_driver" ["webapi"]
        ["FastAPIDriver"];
   call None "proc" "get_driver" ["webapi"] [];
   call None "fast_api_driver_proc" "list_services" [] [];
   call (Some "http_service") "fast_api_driver_proc" "get_service" ["http"] [];
   import_from "rvai.extensions.drivers.fast_api_driver"
     ["FastAPIClient"; "FastAPIClientError"];
   call (Some "client") "" "FastAPIClient" [] ["fast_api_driver_proc"];
   call None "client" "wait" [] [];
   call None "client" "predict" [] [];
   call (Some "task_id") "client" "predict_task" [] [];
   call None "client" "task_result" [] ["task_id"];
   import_from "rvai.base.exc" ["DriverNotFoundError"];
   TryExcept
     [Call None "proc" "remove_driver" [] ["fast_api_driver_proc"]]
     "DriverNotFoundError" [];
   call None "proc" "predict" [] [];
   TryExcept [Call None "client" "predict" [] []] "FastAPIClientError" [];
   TryExcept [Call None "client" "wait" [] []] "FastAPIClientError" [];
   call (Some "fast_api_driver_proc") "proc" "add_driver" ["webapi"]
        ["FastAPIDriver"];
   call (Some "client") "" "FastAPIClient" [] ["fast_api_driver_proc"];
   call None "client" "wait" [] [];
   call (Some "fast_api_params") "fast_api_driver_proc" "get_parameters" [] [];
   call None "fast_api_driver_proc" "set_parameters" [] ["fast_api_params"];
   call None "fast_api_driver_proc" "get_parameters" [] [];
   call (Some "driver_proc") "proc" "add_driver" ["dummy-stream"]
        ["create_source_sink_driver"];
   call None "driver_proc" "get_parameters" [] [];
   call None "driver_proc" "list_services" [] [];
   call None "proc" "remove_driver" [] ["driver_proc"];
   call (Some "driver_proc") "proc" "add_driver" ["custom"] ["CustomDriver"];
   call None "proc" "stop" [] [];
   call None "rt" "stop" [] []].

Definition notebooks : list (list Stmt) :=
  [getting_started; ray_runtime; trtis_inference; measurements; flows; drivers].

(** The simple statements of a script, those inside [try] and [except]
    included. *)
Definition simple_stmts (script : list Stmt) : list Simple :=
  flat_map
    (fun s =>
       match s with
       | Do x => [x]
       | TryExcept body _ handler => (body ++ handler)%list
       end)
    script.

(** The first string literal of every [init(...)] call. *)
Definition init_literals (script : list Stmt) : list (option string) :=
  flat_map
    (fun s =>
       match s with
       | Call _ "" "init" literals _ => [hd_error literals]
       | _ => []
       end)
    (simple_stmts script).

(** The statement that last bound a variable among the first [n]. *)
Fixpoint binding_site (var : string) (script : list Stmt) (n : nat)
    (pos : nat) (site : option nat) : option nat :=
  match n, script with
  | S n', s :: script' =>
      let site' :=
        match s with
        | Do (Call (Some target) _ _ _ _) =>
            if target =? var then Some pos else site
        | _ => site
        end in
      binding_site var script' n' (S pos) site'
  | _, _ => site
  end.

(** The [add_driver] calls of a script: the statement that bound the
    receiving process, and the driver reference passed. *)
Definition add_driver_calls (script : list Stmt)
  : list (option nat * option string) :=
  flat_map
    (fun ns =>
       match snd ns with
       | Do (Call _ receiver "add_driver" literals _) =>
           [(binding_site receiver script (fst ns) 0 None, hd_error literals)]
       | _ => []
       end)
    (combine (seq 0 (List.length script)) script).

End Notebooks.

(** ** The code of the notebooks, line by line *)

Module Source.

Import Stdlib.Strings.Ascii.
Local Open Scope string_scope.

(** A line of a code cell: its line number in the file under src/ and its
    text, without the quoting of the notebook format.  Blank lines are left
    out, and Python's double quote is written as a single quote.  The
    markdown cells are prose, not code, and are not part of it. *)
Definition Line : Type := Z * string.

(** The code cells of src/unnamed/part_000. *)
Definition part_000 : list Line :=
 [(27, "!pip install rvai==1.1.0rc51 pygraphviz");
   (45, "# import base classes");
   (46, "from dataclasses import dataclass, field");
   (47, "from rvai.base.cell import Cell, TrainableCell, cell");
   (48, "from rvai.base.data import (");
   (49, "    Annotations,");
   (50, "    Inputs,");
   (51, "    Outputs,");
   (52, "    Parameters,");
   (53, "    ProcessedParameters,");
   (54, ")");
   (55, "from rvai.base.context import InferenceContext, ParameterContext");
   (56, "from rvai.types import Float");
   (72, "# Inputs");
   (73, "@dataclass");
   (74, "class SummatorInputs(Inputs):");
   (75, "    op_1: Float = Inputs.field(");
   (76, "        name='Operand 1', description='A floating point.'");
   (77, "    )");
   (78, "    op_2: Float = Inputs.field(");
   (79, "        name='Operand 2', description='A floating point.'");
   (80, "    )");
   (82, "# Outputs");
   (83, "@dataclass");
   (84, "class SummatorOutputs(Outputs):");
   (85, "    sum: Float = Outputs.field(");
   (86, "        name='Sum', description='Sum of operand 1 and 2.'");
   (87, "    )");
   (89, "# Parameters");
   (90, "@dataclass");
   (91, "class SummatorParameters(Parameters):");
   (92, "    threshold: Float = Parameters.field(");
   (93, "        default=Float(100.0),");
   (94, "        name='Threshold', description='Threshold of the sum.'");
   (95, "    )");
   (97, "# Cell");
   (98, "@cell");
   (99, "class SummatorCell(Cell):");
   (101, "    @classmethod");
   (102, "    def process_parameters(");
   (103, "        cls, context: ParameterContext, parameters: SummatorParameters");
   (104, "    ) -> SummatorParameters:");
   (105, "        return parameters");
   (107, "    @classmethod");
   (108, "    def call(");
   (109, "        cls, context: InferenceContext, parameters: SummatorParameters, inputs: SummatorInputs,");
   (110, "    ) -> SummatorOutputs:");
   (111, "        return SummatorOutputs(sum=Float(min(inputs.op_1 + inputs.op_2, parameters.threshold)))");
   (127, "# Inputs");
   (128, "@dataclass");
   (129, "class MultiplierInputs(Inputs):");
   (130, "    op_1: Float = Inputs.field(");
   (131, "        name='Operand 1', description='A floating point.'");
   (132, "    )");
   (133, "    op_2: Float = Inputs.field(");
   (134, "        name='Operand 2', description='A floating point.'");
   (135, "    )");
   (137, "# Outputs");
   (138, "@dataclass");
   (139, "class MultiplierOutputs(Outputs):");
   (140, "    product: Float = Outputs.field(");
   (141, "        name='Product', description='Product of operand 1 and 2.'");
   (142, "    )");
   (144, "# Parameters");
   (145, "@dataclass");
   (146, "class MultiplierParameters(Parameters):");
   (147, "    pass");
   (149, "# Cell");
   (150, "@cell");
   (151, "class MultiplierCell(Cell):");
   (153, "    @classmethod");
   (154, "    def process_parameters(");
   (155, "        cls, context: ParameterContext, parameters: MultiplierParameters");
   (156, "    ) -> MultiplierParameters:");
   (157, "        return parameters");
   (159, "    @classmethod");
   (160, "    def call(");
   (161, "        cls, context: InferenceContext, parameters: MultiplierParameters, inputs: MultiplierInputs,");
   (162, "    ) -> MultiplierOutputs:");
   (163, "        return MultiplierOutputs(product=Float(inputs.op_1 * inputs.op_2))");
   (179, "from rvai.base.pipeline import DeclarativePipeline, PipelineCells, PipelineFactory, pipeline");
   (188, "# imperative");
   (189, "def generate_pipeline():");
   (190, "    # create pipeline");
   (191, "    p = PipelineFactory(name='MyPipeline')");
   (193, "    # create cells and add them to pipeline");
   (194, "    sum_cell = SummatorCell()    ");
   (195, "    mul_cell = MultiplierCell()    ");
   (196, "    p.add_cell(ref='sum', cell=sum_cell)");
   (197, "    p.add_cell(ref='mul', cell=mul_cell)");
   (199, "    # setup connections");
   (200, "    p.declare_input(ref='a', input=sum_cell.inputs.op_1)");
   (201, "    p.declare_input(ref='b', input=sum_cell.inputs.op_2)");
   (202, "    p.declare_input(ref='a', input=mul_cell.inputs.op_1)");
   (203, "    p.declare_input(ref='b', input=mul_cell.inputs.op_2)");
   (205, "    p.declare_output(ref='sum', output=sum_cell.outputs.sum)");
   (206, "    p.declare_output(ref='product', output=mul_cell.outputs.product)");
   (208, "    return p.build()");
   (210, "# declarative");
   (211, "class MyPipelineCells(PipelineCells):");
   (212, "    sum: SummatorCell");
   (213, "    mult: MultiplierCell");
   (215, "@pipeline");
   (216, "class MyPipeline(DeclarativePipeline):");
   (218, "    cells = MyPipelineCells");
   (219, "    inputs = {");
   (220, "        'a': [cells.sum.inputs.op_1, cells.mult.inputs.op_1],");
   (221, "        'b': [cells.sum.inputs.op_2, cells.mult.inputs.op_2],");
   (222, "    }");
   (223, "    outputs = {");
   (224, "        'sum': cells.sum.outputs.sum,");
   (225, "        'product': cells.mult.outputs.product,");
   (226, "    }");
   (235, "pipeline = MyPipeline.build()");
   (236, "# %matplotlib inline");
   (237, "pipeline.show()");
   (257, "from rvai.base.runtime import Inference, init");
   (259, "# init debug runtime");
   (260, "rt = init('ray')");
   (262, "# create inference task");
   (263, "inference = Inference(pipeline=pipeline)");
   (264, "proc = rt.start_inference(inference)");
   (280, "# get prediction");
   (281, "pred = proc.predict({'a': Float(2.0), 'b': Float(3.0)})");
   (282, "print(pred.result())");
   (283, "pred = proc.predict({'a': Float(4.0), 'b': Float(5.0)})");
   (284, "print(pred.result())");
   (300, "# update parameters for a certain state id");
   (301, "proc.set_parameters(parameters={'sum': SummatorParameters(threshold=Float(1.0))})");
   (302, "proc.set_parameters(parameters={'sum': SummatorParameters(threshold=Float(10.0))}, sid='stream-1')");
   (304, "# get prediction on default state");
   (305, "pred = proc.predict({'a': Float(10.0), 'b': Float(30.0)})");
   (306, "print('default parameters:', pred.result())");
   (308, "# get prediction on 'stream-1' state");
   (309, "pred = proc.predict({'a': Float(10.0), 'b': Float(30.0)}, sid='stream-1')");
   (310, "print('stream-1 parameters:', pred.result())");
   (327, "proc.stop()");
   (328, "rt.stop()")].

(** The code cells of src/3_trtis_inference.ipynb. *)
Definition trtis_inference : list Line :=
 [(30, "!pip install -qqq rvai==1.1.0rc51 pygraphviz");
   (39, "# some global notebook configuration");
   (40, "%matplotlib inline");
   (41, "import os");
   (42, "os.environ['CUDA_VISIBLE_DEVICES'] = ''");
   (43, "os.environ['TF_CPP_MIN_LOG_LEVEL'] = '3'");
   (65, "from dataclasses import dataclass");
   (66, "from typing import Optional");
   (67, "from rvai.base.data import Inputs, Outputs, Samples, Annotations, Parameters, Metrics");
   (68, "from rvai.types import Float, Image, Integer");
   (77, "# Inference mode IO");
   (79, "@dataclass");
   (80, "class ImageClassificationInputs(Inputs):");
   (81, "    image: Image = Inputs.field(");
   (82, "        name='Image', description='The image to be classified.')");
   (84, "@dataclass");
   (85, "class ImageClassificationOutputs(Outputs):");
   (86, "    label: Integer = Outputs.field(");
   (87, "        name='Class', description='The class of the image.')");
   (89, "# Training mode IO");
   (91, "@dataclass");
   (92, "class ImageClassificationSamples(Samples, ImageClassificationInputs):");
   (93, "    '''Inherits from ImageClassificationInputs because the Samples this Cell expects during training are the same as its inputs.'''");
   (95, "@dataclass");
   (96, "class ImageClassificationAnnotations(Annotations, ImageClassificationOutputs):");
   (97, "    '''Inherits from ImageClassificationOutputs because the Annotations this Cell expects during training are the same as its outputs.'''");
   (99, "@dataclass");
   (100, "class ImageClassificationMetrics(Metrics):");
   (101, "    acc: Float = Metrics.field(name='Accuracy', short_name='acc', performance=True)");
   (102, "    loss: Float = Metrics.field(name='Loss')");
   (103, "    val_acc: Optional[Float] = Metrics.field(");
   (104, "        name='Validation Accuracy', default=None");
   (105, "    )");
   (106, "    val_loss: Optional[Float] = Metrics.field(");
   (107, "        name='Validation Loss', default=None");
   (108, "    )");
   (110, "# Parameters");
   (112, "@dataclass");
   (113, "class ImageClassificationParameters(Parameters):");
   (114, "    epochs: Integer = Parameters.field(default=Integer(2), name='Epochs', description='The amount of times the training loop should process the data.')");
   (115, "    batch_size: Integer = Parameters.field(default=Integer(4), name='Batch Size', description='SGD mini-batch size.')");
   (132, "# necessary RVAI imports:");
   (133, "from rvai.base.cell import cell # used as a decorator to register a cell in RVAI");
   (134, "# ==================");
   (135, "# BEGIN TRTIS UPDATE");
   (136, "from rvai.base.trtis.cell import TRTISCell # base class, defines main functionality");
   (137, "from rvai.base.trtis.model import TRTISModel # wrapper for TRTIS compatible model");
   (138, "from rvai.base.trtis.client import TRTISClient # client that allows us to use the deployed models");
   (139, "from rvai.base.trtis.utils import keras_to_trtismodel # helper function to convert a keras model");
   (140, "# END TRTIS UPDATE");
   (141, "# ================");
   (144, "# used for typing:");
   (145, "from rvai.base.cell import CellMode # enum, defines what mode the cell is running in");
   (146, "from rvai.base.data import Example, Dataset, DatasetConfig, Metrics");
   (147, "from rvai.base.context import InferenceContext, ModelContext, ParameterContext, TestContext, TrainingContext # required argument for most cell methods");
   (148, "from rvai.base.training import Model, ModelConfig, ModelPath");
   (149, "from typing import Optional, Tuple, Sequence");
   (151, "# used in implementation:");
   (152, "# ==================");
   (153, "# BEGIN TRTIS UPDATE");
   (154, "import cv2  # image manipulation");
   (155, "import tempfile  # needed to create temporary conversion folders");
   (156, "# END TRTIS UPDATE");
   (157, "# ================");
   (158, "import numpy as np");
   (159, "import tensorflow as tf");
   (160, "tf.autograph.set_verbosity(1)");
   (161, "tf.logging.set_verbosity(tf.logging.ERROR)");
   (162, "from rvai.base import compat");
   (163, "from rvai.base.training import TrainingSession");
   (164, "from rvai.base.test import TestSession");
   (173, "@cell");
   (174, "class ImageClassificationCell(TRTISCell):");
   (176, "    # ==================");
   (177, "    # BEGIN TRTIS UPDATE");
   (178, "    @classmethod");
   (179, "    def load_model(");
   (180, "        cls,");
   (181, "        context: ModelContext,");
   (182, "        parameters: ImageClassificationParameters,");
   (183, "        model_path: Optional[str],");
   (184, "        dataset_config: Optional[DatasetConfig],");
   (185, "    ) -> Tuple[tf.keras.models.Model, ModelConfig]:");
   (186, "        # When we load the model for TRTIS mode, we try to avoid using a GPU");
   (187, "        # because the model will only be used for conversion");
   (188, "        if context.trtis_mode:");
   (189, "            with tf.device('/cpu:0'):");
   (190, "                model = cls._do_load_model(model_path=model_path)");
   (191, "        else:");
   (192, "            model = cls._do_load_model(model_path=model_path)");
   (193, "        return model, None");
   (195, "    @classmethod");
   (196, "    def _do_load_model(cls, model_path: Optional[str]) -> tf.keras.models.Model:");
   (197, "        if model_path is not None:");
   (198, "            return tf.keras.models.load_model(model_path)");
   (199, "        else:");
   (200, "            model = tf.keras.Sequential()");
   (201, "            model.add(tf.keras.layers.Conv2D(filters=64, kernel_size=2, padding='same', activation='relu', input_shape=(28,28,1)))");
   (202, "            model.add(tf.keras.layers.MaxPooling2D(pool_size=2))");
   (203, "            model.add(tf.keras.layers.Dropout(0.3))");
   (204, "            model.add(tf.keras.layers.Conv2D(filters=32, kernel_size=2, padding='same', activation='relu'))");
   (205, "            model.add(tf.keras.layers.MaxPooling2D(pool_size=2))");
   (206, "            model.add(tf.keras.layers.Dropout(0.3))");
   (207, "            model.add(tf.keras.layers.Flatten())");
   (208, "            model.add(tf.keras.layers.Dense(256, activation='relu'))");
   (209, "            model.add(tf.keras.layers.Dropout(0.5))");
   (210, "            model.add(tf.keras.layers.Dense(10, activation='softmax'))");
   (211, "            model.compile(loss='categorical_crossentropy',");
   (212, "                          optimizer='adam',");
   (213, "                          metrics=['accuracy'])");
   (215, "        return model");
   (216, "    # END TRTIS UPDATE");
   (217, "    # ================");
   (219, "    @classmethod");
   (220, "    def _unpack_example(");
   (221, "        cls,");
   (222, "        example: Example[ImageClassificationSamples, ImageClassificationAnnotations],");
   (223, "    ) -> Tuple[np.ndarray, int]:");
   (225, "        samples: ImageClassificationSamples = example[0]");
   (226, "        annotations: ImageClassificationAnnotations = example[1]");
   (228, "        # standardize image input");
   (229, "        image = np.atleast_3d(samples.image)");
   (230, "        label = int(annotations.label)");
   (232, "        return image, label");
   (234, "    @classmethod");
   (235, "    def _collate_batch(");
   (236, "        cls,");
   (237, "        examples: Sequence[Tuple[np.ndarray, np.ndarray]],");
   (238, "    ) -> Tuple[np.ndarray, np.ndarray]:");
   (240, "        x, y = zip(*examples)");
   (242, "        images: np.ndarray = np.stack(arrays=x, axis=0)");
   (243, "        labels: np.ndarray = tf.keras.utils.to_categorical(");
   (244, "            y=y, num_classes=10, dtype=np.float32");
   (245, "        )");
   (247, "        return images, labels");
   (249, "    @classmethod");
   (250, "    def train(");
   (251, "        cls,");
   (252, "        context: TrainingContext,");
   (253, "        parameters: ImageClassificationParameters,");
   (254, "        model: tf.keras.models.Model,");
   (255, "        model_config: ModelConfig,");
   (256, "        train_dataset: Dataset[");
   (257, "            ImageClassificationSamples, ImageClassificationAnnotations");
   (258, "        ],");
   (259, "        validation_dataset: Dataset[");
   (260, "            ImageClassificationSamples, ImageClassificationAnnotations");
   (261, "        ],");
   (262, "        dataset_config: Optional[DatasetConfig]");
   (263, "    ) -> TrainingSession[ImageClassificationMetrics]:");
   (264, "        # Integer -> int");
   (265, "        batch_size = int(parameters.batch_size)");
   (267, "        train_generator = compat.keras.as_generator(");
   (268, "            train_dataset,");
   (269, "            batch_size=batch_size,");
   (270, "            process_example=cls._unpack_example,");
   (271, "            process_batch=cls._collate_batch,");
   (272, "        )");
   (274, "        validation_generator = compat.keras.as_generator(");
   (275, "            validation_dataset,");
   (276, "            batch_size=batch_size,");
   (277, "            process_example=cls._unpack_example,");
   (278, "            process_batch=cls._collate_batch,");
   (279, "        )");
   (281, "        nb_epochs = int(parameters.epochs)");
   (282, "        nb_training_batches = int(len(train_dataset) // batch_size)");
   (283, "        nb_validation_batches = int(len(validation_dataset) // batch_size)");
   (285, "        model.fit_generator(");
   (286, "            generator=train_generator,");
   (287, "            steps_per_epoch=nb_training_batches,");
   (288, "            validation_data=validation_generator,");
   (289, "            validation_steps=nb_validation_batches,");
   (290, "            epochs=nb_epochs,");
   (291, "            verbose=0,");
   (292, "            callbacks=[compat.keras.training_update_callback(");
   (293, "                context=context,");
   (294, "                metrics=ImageClassificationMetrics,");
   (295, "            )],");
   (296, "        )");
   (298, "        model_path = context.get_model_path()");
   (300, "        tf.keras.models.save_model(model=model, filepath=model_path)");
   (302, "        return model_path");
   (304, "    @classmethod");
   (305, "    def test(");
   (306, "        cls,");
   (307, "        context: TestContext,");
   (308, "        parameters: ImageClassificationParameters,");
   (309, "        model: tf.keras.models.Model,");
   (310, "        model_config: ModelConfig,");
   (311, "        test_dataset: Dataset[");
   (312, "            ImageClassificationSamples, ImageClassificationAnnotations");
   (313, "        ],");
   (314, "        dataset_config: Optional[DatasetConfig]");
   (315, "    ) -> TestSession[ImageClassificationMetrics]:");
   (316, "        raise NotImplementedError");
   (318, "    # ==================");
   (319, "    # BEGIN TRTIS UPDATE ");
   (320, "    @classmethod");
   (321, "    def predict(");
   (322, "        cls,");
   (323, "        context: InferenceContext,");
   (324, "        parameters: ImageClassificationParameters,");
   (325, "        model: tf.keras.models.Model,");
   (326, "        model_config: ModelConfig,");
   (327, "        inputs: ImageClassificationInputs,");
   (328, "    ) -> ImageClassificationOutputs:");
   (329, "        image = inputs.image");
   (330, "        # Get the required input size");
   (331, "        input_shape = model.inputs[0].get_shape().as_list()");
   (332, "        h, w = input_shape[1], input_shape[2]");
   (333, "        # Resize the input image");
   (334, "        inp = cv2.resize(image, (w, h))");
   (335, "        # Make sure that the input still has 3 dimensions");
   (336, "        inp = np.atleast_3d(inp)");
   (337, "        # Perform prediction");
   (338, "        predictions = model.predict(np.array([inp]))");
   (339, "        print(f'Prediction done')");
   (340, "        # Get the label");
   (341, "        label = predictions[0].argmax()");
   (342, "        # Return output");
   (343, "        return ImageClassificationOutputs(label=Integer(label))");
   (345, "    @classmethod");
   (346, "    def convert_to_trtis_model(");
   (347, "        cls,");
   (348, "        context: ModelContext,");
   (349, "        parameters: ImageClassificationParameters,");
   (350, "        model: tf.keras.models.Model,");
   (351, "        model_config: ModelConfig,");
   (352, "    ) -> TRTISModel:");
   (353, "        # Create a temp directory where to put the converted model");
   (354, "        outfolder = tempfile.mkdtemp()");
   (355, "        return keras_to_trtismodel(");
   (356, "            model=model,  # keras model to convert");
   (357, "            model_path=outfolder,  # output folder where to converted model data can be stored");
   (358, "            max_batch_size=16  # maximum allowed batch size for the model");
   (359, "        )");
   (361, "    @classmethod");
   (362, "    def trtis_predict(");
   (363, "        cls,");
   (364, "        context: InferenceContext,");
   (365, "        parameters: ImageClassificationParameters,");
   (366, "        trtis_client: TRTISClient,");
   (367, "        model_config: ModelConfig,");
   (368, "        inputs: ImageClassificationInputs,");
   (369, "    ) -> ImageClassificationOutputs:");
   (370, "        image = inputs.image");
   (371, "        # Get the input and output layer of the model");
   (372, "        input_layer = trtis_client.get_model_spec().input_layers[0]");
   (373, "        output_layer = trtis_client.get_model_spec().output_layers[0]");
   (374, "        # Get the input shape");
   (375, "        h, w = input_layer.dims[0], input_layer.dims[1]  # dims don't have batch dimension");
   (376, "        # Resize the input and convert to required data format");
   (377, "        inp = cv2.resize(image, (w, h)).astype(input_layer.data_type.to_np())");
   (378, "        # Make sure that the input still has 3 dimensions");
   (379, "        inp = np.atleast_3d(inp)");
   (380, "        # Perform inference. This takes a mapping from layer name to input data");
   (381, "        result = trtis_client.infer({input_layer.name: inp})");
   (382, "        # Get the output data");
   (383, "        predictions = result.get(output_layer.name)");
   (384, "        # Get the label");
   (385, "        label = predictions.argmax()");
   (386, "        # Return output");
   (387, "        return ImageClassificationOutputs(label=Integer(label))");
   (388, "    # END TRTIS UPDATE");
   (389, "    # ================");
   (424, "from rvai.base.pipeline import DeclarativePipeline, PipelineCells, DeclarativeTrainingPipeline, pipeline");
   (440, "class TrainingCells(PipelineCells):");
   (441, "    classifier: ImageClassificationCell");
   (443, "@pipeline");
   (444, "class ImageClassificationTrainingPipeline(DeclarativeTrainingPipeline):");
   (445, "    cells = TrainingCells");
   (446, "    train = cells.classifier");
   (447, "    samples = [cells.classifier.samples.image]");
   (448, "    annotations = [cells.classifier.annotations.label]");
   (464, "class InferenceCells(PipelineCells):");
   (465, "    classifier: ImageClassificationCell");
   (467, "@pipeline");
   (468, "class ImageClassificationPipeline(DeclarativePipeline):");
   (469, "    cells = InferenceCells");
   (470, "    inputs = {'image': cells.classifier.inputs.image}");
   (471, "    outputs = {'label': cells.classifier.outputs.label}");
   (472, "    training_pipelines = {");
   (473, "        cells.classifier: ImageClassificationTrainingPipeline");
   (474, "    }");
   (483, "inference_pipeline = ImageClassificationPipeline.build()");
   (484, "training_pipeline = inference_pipeline.get_training_pipeline('classifier')");
   (501, "# required RVAI base class");
   (502, "from rvai.base.data import Dataset");
   (504, "# used for typing");
   (505, "from rvai.types import Image, Integer");
   (506, "from typing import Sequence, Tuple");
   (507, "import numpy as np");
   (509, "# actual data");
   (510, "from tensorflow.keras.datasets import fashion_mnist");
   (512, "# some imports for displaying data");
   (513, "from IPython.display import display, HTML");
   (514, "import PIL");
   (523, "class FashionMNISTDataset(");
   (524, "    Dataset[ImageClassificationSamples, ImageClassificationAnnotations]");
   (525, "):");
   (526, "    def __init__(");
   (527, "        self, images: Sequence[np.ndarray], labels: Sequence[np.ndarray]");
   (528, "    ):");
   (529, "        self.images = images");
   (530, "        self.labels = labels");
   (532, "    def __getitem__(");
   (533, "        self, index");
   (534, "    ) -> Tuple[ImageClassificationSamples, ImageClassificationAnnotations]:");
   (535, "        return (");
   (536, "            ImageClassificationSamples(image=Image(self.images[index])),");
   (537, "            ImageClassificationAnnotations(label=Integer(self.labels[index])),");
   (538, "        )");
   (540, "    def __len__(self):");
   (541, "        return len(self.images)");
   (543, "# Class names for FashionMNIST");
   (544, "class_names = [");
   (545, "    'T-shirt/top', 'Trouser', 'Pullover', 'Dress', 'Coat',");
   (546, "    'Sandal', 'Shirt', 'Sneaker', 'Bag', 'Ankle boot'");
   (547, "]");
   (549, "train_dataset, validation_dataset = (FashionMNISTDataset(images=images, labels=labels) for images, labels in fashion_mnist.load_data())");
   (551, "# display an example image and its label");
   (552, "samples, annotations = train_dataset[0]");
   (553, "display(PIL.Image.fromarray(samples.image)); print(class_names[annotations.label])");
   (562, "from rvai.base.runtime import init, Training, Inference");
   (563, "from rvai.base.training import Tensorboard");
   (572, "# create a runtime, we choose the debug runtime");
   (573, "runtime = init('debug')");
   (575, "# generate a training pipeline");
   (576, "training_pipeline = inference_pipeline.get_training_pipeline('classifier')");
   (578, "# configure a training task");
   (579, "training = Training(");
   (580, "    pipeline=training_pipeline,");
   (581, "    models={}, # no previous models yet");
   (582, "    parameters={'classifier': ImageClassificationParameters()}, # defaults are fine for us ");
   (583, "    train_dataset=train_dataset,");
   (584, "    validation_dataset=validation_dataset,");
   (585, ")");
   (588, "training_loop = runtime.start_training(training)");
   (590, "print('Starting training')");
   (591, "for update in training_loop.updates():");
   (592, "    print(f'\r[{update.progress * 100:.3}%] - accuracy: {update.metrics.acc}', end='')    ");
   (593, "trained_model_path = training_loop.result()");
   (594, "print('\nTraining done. Model can be found at:', trained_model_path)");
   (595, "# Stop the training process");
   (596, "training_loop.stop()");
   (615, "# create inference task");
   (616, "inference = Inference(");
   (617, "    pipeline=inference_pipeline, ");
   (618, "    models={'classifier': trained_model_path},  # use the trained model");
   (619, "    parameters={'classifier': ImageClassificationParameters()},  # defaults are fine for us ");
   (620, ")");
   (621, "proc = runtime.start_inference(inference)");
   (630, "# Get a random sample from the validation dataset. Run this cell multiple times to get different samples");
   (631, "idx = np.random.randint(len(validation_dataset))");
   (632, "sample, annotation = validation_dataset[idx]");
   (633, "# Perform inference and get the result");
   (634, "pred = proc.predict({'image': sample.image})");
   (635, "result = pred.result()");
   (637, "# Display the image and the label vs prediction");
   (638, "display(PIL.Image.fromarray(sample.image))");
   (639, "print(f'Label: {class_names[annotation.label]}, prediction: {class_names[result.get('label')]}')");
   (648, "# Stop the inference process");
   (649, "proc.stop()");
   (666, "from rvai.base.trtis.resources import TRTISResources");
   (668, "# create inference task, similar as before, but enable TRTIS by providing an TRTISResources object with required cpus and gpus");
   (669, "inference = Inference(");
   (670, "    pipeline=inference_pipeline, ");
   (671, "    models={'classifier': trained_model_path},  # use the trained model");
   (672, "    parameters={'classifier': ImageClassificationParameters()},  # defaults are fine for us ");
   (673, "    trtis_resources=TRTISResources(gpus=1.0),  # enable TensorRT Inference Server mode");
   (674, ")");
   (675, "proc = runtime.start_inference(inference)");
   (684, "# Get a random sample from the validation dataset. Run this cell multiple times to get different samples");
   (685, "idx = np.random.randint(len(validation_dataset))");
   (686, "sample, annotation = validation_dataset[idx]");
   (687, "# Perform inference and get the result");
   (688, "pred = proc.predict({'image': sample.image})");
   (689, "result = pred.result()");
   (691, "# Display the image and the label vs prediction");
   (692, "display(PIL.Image.fromarray(sample.image))");
   (693, "print(f'Label: {class_names[annotation.label]}, prediction: {class_names[result.get('label')]}')");
   (702, "# Stop the inference process and runtime");
   (703, "proc.stop()");
   (704, "runtime.stop()")].

(** The code cells of src/4_ray_runtime.ipynb. *)
Definition ray_runtime : list Line :=
 [(16, "!pip install -qqq rvai==1.1.0rc51 pygraphviz");
   (34, "import time");
   (35, "# import base classes");
   (36, "from dataclasses import dataclass");
   (37, "from typing import Type");
   (38, "from rvai.base.cell import Cell, cell");
   (39, "from rvai.base.data import (");
   (40, "    Annotations,");
   (41, "    Inputs,");
   (42, "    Outputs,");
   (43, "    Parameters,");
   (44, "    ProcessedParameters,");
   (45, ")");
   (46, "from rvai.base.context import InferenceContext");
   (47, "from rvai.types import Float, Image, Integer");
   (63, "# Inputs");
   (64, "@dataclass");
   (65, "class BenchmarkInputs(Inputs):");
   (66, "    image_in: Image = Inputs.field(");
   (67, "        name='Image', description='An input image.'");
   (68, "    )");
   (69, "    counter_in: Integer = Inputs.field(");
   (70, "        name='Counter', description='Counter input value.'");
   (71, "    )");
   (73, "# Outputs");
   (74, "@dataclass");
   (75, "class BenchmarkOutputs(Outputs):");
   (76, "    image_out: Image = Outputs.field(");
   (77, "        name='Image', description='An input image.'");
   (78, "    )");
   (79, "    counter_out: Integer = Outputs.field(");
   (80, "        name='Counter', description='Counter output value.'");
   (81, "    )");
   (83, "# Parameters");
   (84, "@dataclass");
   (85, "class BenchmarkParameters(Parameters):");
   (86, "    delay: Float = Parameters.field(");
   (87, "        default=Float(0.1),");
   (88, "        name='Processing delay', description='Processing delay in seconds'");
   (89, "    )");
   (91, "# Cell");
   (92, "@cell");
   (93, "class BenchmarkCell(Cell):");
   (95, "    @classmethod");
   (96, "    def call(");
   (97, "        cls, context: InferenceContext, parameters: BenchmarkParameters, inputs: BenchmarkInputs,");
   (98, "    ) -> BenchmarkOutputs:");
   (99, "        # Sleep to mimmick processing");
   (100, "        time.sleep(parameters.delay)");
   (101, "        outimage = inputs.image_in.copy()");
   (102, "        outimage[0, 0, :] = outimage[0, 0, :] / 2");
   (103, "        return BenchmarkOutputs(image_out=Image(outimage), counter_out=Integer(int(inputs.counter_in)+1))");
   (119, "from rvai.base.pipeline import DeclarativePipeline, PipelineCells, pipeline");
   (137, "class BenchmarkingPipelineCells(PipelineCells):");
   (138, "    a: BenchmarkCell");
   (139, "    b: BenchmarkCell");
   (140, "    c: BenchmarkCell");
   (141, "    d: BenchmarkCell");
   (143, "@pipeline");
   (144, "class SingleInputPipeline(DeclarativePipeline):");
   (146, "    cells = BenchmarkingPipelineCells");
   (147, "    inputs = {");
   (148, "        'image': [cells.a.inputs.image_in, cells.b.inputs.image_in, cells.c.inputs.image_in, cells.d.inputs.image_in],");
   (149, "        'counter': cells.a.inputs.counter_in,");
   (150, "    }");
   (151, "    outputs = {'counter': cells.d.outputs.counter_out}");
   (153, "    connections = [");
   (154, "        (cells.a.outputs.counter_out, cells.b.inputs.counter_in),");
   (155, "        (cells.b.outputs.counter_out, cells.c.inputs.counter_in),");
   (156, "        (cells.c.outputs.counter_out, cells.d.inputs.counter_in),");
   (157, "    ]");
   (159, "@pipeline");
   (160, "class ChainedPipeline(DeclarativePipeline):");
   (162, "    cells = BenchmarkingPipelineCells");
   (163, "    inputs = {");
   (164, "        'image': cells.a.inputs.image_in,");
   (165, "        'counter': cells.a.inputs.counter_in,");
   (166, "    }");
   (167, "    outputs = {'counter': cells.d.outputs.counter_out}");
   (169, "    connections = [");
   (170, "        (cells.a.outputs.counter_out, cells.b.inputs.counter_in),");
   (171, "        (cells.a.outputs.image_out, cells.b.inputs.image_in),");
   (172, "        (cells.b.outputs.counter_out, cells.c.inputs.counter_in),");
   (173, "        (cells.b.outputs.image_out, cells.c.inputs.image_in),");
   (174, "        (cells.c.outputs.counter_out, cells.d.inputs.counter_in),");
   (175, "        (cells.c.outputs.image_out, cells.d.inputs.image_in),");
   (176, "    ]");
   (185, "singleinput_pipeline = SingleInputPipeline.build()");
   (186, "# %matplotlib inline");
   (187, "singleinput_pipeline.show()");
   (196, "chained_pipeline = ChainedPipeline.build()");
   (197, "# %matplotlib inline");
   (198, "chained_pipeline.show()");
   (221, "image_sizes = {");
   (222, "    'dummy': (1, 1, 3),");
   (223, "    '480p': (480, 852, 3),");
   (224, "    '720p': (720, 1280, 3),");
   (225, "    '1080p': (1080, 1920, 3),");
   (226, "}");
   (227, "pipeline_fps = [(20, 10), (40, 20), (100, 50), (200, 100)]");
   (243, "import numpy as np");
   (244, "import timeit");
   (245, "from collections import defaultdict");
   (246, "from rvai.base.runtime import Inference");
   (247, "import matplotlib.pyplot as plt ");
   (249, "def benchmark_task(runtime, task, benchmark_images, replicas=None):");
   (250, "    # Start an inference process for the task");
   (251, "    proc = runtime.start_inference(task)");
   (253, "    # Scale if needed");
   (254, "    if replicas is not None:");
   (255, "        proc.set_replicas(replicas)");
   (256, "    # Do a couple of predictions or warmup");
   (257, "    for i in range(5):");
   (258, "        out = proc.predict({'image': benchmark_images[i], 'counter': Integer(0)}).result()");
   (259, "        # Check that output is valid");
   (260, "        assert int(out['counter']) == 4");
   (262, "    # Do throughput measurements");
   (263, "    n_iter = len(benchmark_images)");
   (264, "    start = time.time()");
   (265, "    # Do prediction requests");
   (266, "    for i in range(n_iter):");
   (267, "        fut = proc.predict({'image': benchmark_images[i], 'counter': Integer(0)})");
   (268, "    # Get the last result");
   (269, "    fut.result()");
   (270, "    stop = time.time()");
   (272, "    # Estimate throughput");
   (273, "    throughput = n_iter/(stop-start)");
   (275, "    # Measure the latency");
   (276, "    latency = timeit.timeit(proc.predict({'image': benchmark_images[0], 'counter': Integer(0)}).result, number=n_iter)");
   (278, "    # Stop the process");
   (279, "    proc.stop()");
   (281, "    return throughput, latency");
   (284, "def benchmark(runtime, pipeline, n_iter, replicas=None):");
   (285, "    results = defaultdict(dict)");
   (286, "    for img_name, image_size in image_sizes.items():");
   (287, "        # Prepare data for testing");
   (288, "        images = [Image(np.random.randint(255, size=image_size, dtype=np.uint8)) for _ in range(n_iter)]");
   (289, "        results[img_name] = {}");
   (290, "        for default_fps, bottleneck_fps in pipeline_fps:");
   (291, "            # Construct inference task");
   (292, "            inference = Inference(pipeline=pipeline, parameters={");
   (293, "                'a': BenchmarkParameters(delay=Float(1./default_fps)),");
   (294, "                'b': BenchmarkParameters(delay=Float(1./bottleneck_fps)),");
   (295, "                'c': BenchmarkParameters(delay=Float(1./default_fps)),");
   (296, "                'd': BenchmarkParameters(delay=Float(1./default_fps)),");
   (297, "            })");
   (298, "            # Calculate theoretical performance");
   (299, "            theoretical_latency = (3./default_fps + 1./bottleneck_fps)");
   (300, "            sequence_fps = 1./theoretical_latency");
   (302, "            # Perform benchmarking");
   (303, "            res = benchmark_task(runtime, inference, images, replicas=replicas)");
   (304, "            results[img_name][(default_fps, bottleneck_fps)] = res");
   (305, "    return results");
   (308, "def print_results(results):");
   (309, "    for img_name, img_results in results.items():");
   (310, "        image = images[img_name]");
   (311, "        print(f'Results for {img_name} image ({'x'.join([str(i) for i in image.shape])})')");
   (312, "        for (default_fps, bottleneck_fps), (throughput, latency) in img_results.items():");
   (313, "            # Calculate theoretical performance");
   (314, "            theoretical_latency = (3./default_fps + 1./bottleneck_fps)");
   (315, "            sequence_fps = 1./theoretical_latency");
   (317, "            print(f'  * Default cell {default_fps:.2f}FPS - bottleneck {bottleneck_fps:.2f}FPS')");
   (318, "            print(f'    - Throughput {throughput:.2f}FPS ({sequence_fps:.2f}FPS - {bottleneck_fps:.2f}FPS)')");
   (319, "            print(f'    - Latency {latency:.3f}s ({theoretical_latency:.3f}s)')");
   (322, "def print_combined(debug_results, ray_results, scaled_results):");
   (323, "    plot_theoretical = {img_name: [] for img_name in debug_results}");
   (324, "    plot_debug = {img_name: [] for img_name in debug_results}");
   (325, "    plot_ray = {img_name: [] for img_name in debug_results}");
   (326, "    plot_scaled = {img_name: [] for img_name in debug_results}");
   (327, "    plt.figure(figsize=(20, 5))");
   (328, "    subplot = 141");
   (329, "    for img_name in debug_results:");
   (330, "        image_size = image_sizes[img_name]");
   (331, "        print(f'Results for {img_name} image ({'x'.join([str(i) for i in image_size])})')");
   (332, "        for default_fps, bottleneck_fps in debug_results[img_name]:");
   (333, "            # Calculate theoretical performance");
   (334, "            theoretical_latency = (3./default_fps + 1./bottleneck_fps)");
   (335, "            sequence_fps = 1./theoretical_latency");
   (337, "            # Get results");
   (338, "            debug_throughput, debug_latency = debug_results[img_name][(default_fps, bottleneck_fps)]");
   (339, "            ray_throughput, ray_latency = ray_results[img_name][(default_fps, bottleneck_fps)]");
   (340, "            scaled_throughput, scaled_latency = scaled_results[img_name][(default_fps, bottleneck_fps)]");
   (342, "            print(f'  * Default cell {default_fps:.2f}FPS - bottleneck {bottleneck_fps:.2f}FPS')");
   (343, "            print(f'    - Throughput:')");
   (344, "            print(f'      - Theoretical         {bottleneck_fps:03.2f}FPS ({sequence_fps:03.2f}FPS sequential)')");
   (345, "            print(f'      - Debug runtime       {debug_throughput:03.2f}FPS')");
   (346, "            print(f'      - Ray runtime         {ray_throughput:03.2f}FPS')");
   (347, "            print(f'      - Scaled bottleneck   {scaled_throughput:03.2f}FPS')");
   (348, "            print(f'    - Latency:')");
   (349, "            print(f'      - Theoretical         {theoretical_latency:.3f}s')");
   (350, "            print(f'      - Debug runtime       {debug_latency:.3f}s')");
   (351, "            print(f'      - Ray runtime         {ray_latency:.3f}s')");
   (352, "            print(f'      - Scaled bottleneck   {scaled_latency:.3f}s')        ");
   (353, "            plot_theoretical[img_name].append(bottleneck_fps)");
   (354, "            plot_debug[img_name].append(debug_throughput)");
   (355, "            plot_ray[img_name].append(ray_throughput)");
   (356, "            plot_scaled[img_name].append(scaled_throughput)");
   (357, "        # plotting the points");
   (358, "        plt.subplot(subplot)");
   (359, "        plt.plot(plot_theoretical[img_name], plot_theoretical[img_name], label=f'Theoretic',linestyle='dotted')");
   (360, "        plt.plot(plot_theoretical[img_name], plot_debug[img_name], label=f'Debug')");
   (361, "        plt.plot(plot_theoretical[img_name], plot_ray[img_name], label=f'Ray') ");
   (362, "        plt.plot(plot_theoretical[img_name], plot_scaled[img_name], label=f'Ray Scaled') ");
   (363, "        subplot += 1");
   (365, "        # naming the x axis ");
   (366, "        plt.xlabel('Theoretical Bottleneck FPS') ");
   (367, "        # naming the y axis ");
   (368, "        plt.ylabel('Experimental Pipeline FPS') ");
   (370, "        # giving a title to my graph ");
   (371, "        plt.title(f'Runtime Benchmarks FPS - {img_name}') ");
   (372, "        plt.legend()");
   (373, "        plt.grid(True)");
   (375, "    # function to show the plot ");
   (376, "    plt.show() ");
   (392, "from rvai.base.runtime import init");
   (394, "# Benchmark size");
   (395, "n_loops = 10");
   (397, "# Choose which pipeline to benchmark");
   (398, "chained = True");
   (399, "if chained:");
   (400, "    pipeline = chained_pipeline");
   (401, "else:");
   (402, "    pipeline = singleinput_pipeline");
   (418, "%%capture");
   (419, "# init debug runtime");
   (420, "debug_rt = init('debug')");
   (422, "# Perform benchmarking");
   (423, "debug_results = benchmark(debug_rt, pipeline, n_loops)");
   (424, "# Stop the runtime");
   (425, "debug_rt.stop()");
   (441, "#%%capture");
   (442, "# init debug runtime");
   (443, "ray_rt = init('ray')");
   (445, "# Perform benchmarking");
   (446, "ray_results = benchmark(ray_rt, pipeline, n_loops)");
   (447, "# Stop the runtime");
   (448, "ray_rt.stop()");
   (464, "%%capture");
   (465, "# shutdown ray to be sure");
   (466, "import ray");
   (467, "ray.shutdown()");
   (469, "# init debug runtime");
   (470, "ray_rt = init('ray')");
   (472, "# scale bottleneck to 2");
   (473, "replicas = {'b': 2}  # cell b is the bottleneck");
   (475, "# Perform benchmarking");
   (476, "scaled_results = benchmark(ray_rt, pipeline, n_loops, replicas=replicas)");
   (478, "# Stop the runtime");
   (479, "ray_rt.stop()");
   (495, "print_combined(debug_results, ray_results, scaled_results)")].

(** The code cells of src/6_measurements.ipynb. *)
Definition measurements : list Line :=
 [(28, "!pip install -qqq rvai==1.1.0rc51 pygraphviz");
   (37, "from dataclasses import dataclass");
   (38, "from typing import Type");
   (39, "from rvai.base.cell import Cell, cell");
   (40, "from rvai.base.data import (");
   (41, "    Inputs,");
   (42, "    Outputs,");
   (43, "    Parameters,");
   (44, "    State,");
   (45, ")");
   (46, "from rvai.base.pipeline import PipelineFactory");
   (47, "from rvai.types import Integer");
   (49, "# Cell");
   (50, "@dataclass");
   (51, "class MyInputs(Inputs):");
   (52, "    dummy: Integer = Inputs.field(name='Dummy input', description='Some dummy input')");
   (55, "@dataclass");
   (56, "class MyOutputs(Outputs):");
   (57, "    dummy: Integer = Outputs.field(name='Dummy output', description='Some dummy output')");
   (60, "@dataclass");
   (61, "class MyParameters(Parameters):");
   (62, "    pass");
   (78, "from rvai.base.data import Measurement");
   (79, "from rvai.types import Float, Integer, String");
   (81, "@dataclass");
   (82, "class Detection(Measurement):");
   (83, "    '''Information about a specific detection.'''");
   (84, "    zone_id: String = Measurement.field(");
   (85, "        name='Zone',");
   (86, "        description='Zone where object was detected',");
   (87, "        options=list(map(String, ['zone1', 'zone2'])),");
   (88, "        index=True)");
   (89, "    vehicle_type: String = Measurement.field(");
   (90, "        name='Vehicle type',");
   (91, "        description='Type of the vehicle',");
   (92, "        options=list(map(String, ['car', 'truck', 'motorbike'])),");
   (93, "        index=True");
   (94, "    )    ");
   (95, "    speed: Float = Measurement.field(");
   (96, "        name='Vehicle speed',");
   (97, "        description='Speed of the vehicle',");
   (98, "        default=Float(0.0)");
   (99, "    )");
   (101, "# although it's better to give a proper name and description to a measurement, it's completely optional");
   (102, "@dataclass");
   (103, "class Detections(Measurement):");
   (104, "    '''Information about all detections in some zone.'''");
   (105, "    zone_id: String = Measurement.field(name='Zone ID', index=True)");
   (106, "    num_detections: Integer = Measurement.field(name='Detection count', default=Integer(0))");
   (124, "import random");
   (125, "from collections import defaultdict");
   (127, "from rvai.base.data import Measurements");
   (128, "from rvai.base.context import Context");
   (130, "@dataclass");
   (131, "class MyMeasurements(Measurements):");
   (132, "    '''Collection of my measurements.'''");
   (133, "    detection: Type[Detection]");
   (134, "    detections: Type[Detections]");
   (136, "@cell(measurements=MyMeasurements)");
   (137, "class MyCell(Cell):");
   (139, "    @classmethod");
   (140, "    def call(");
   (141, "        cls, context: Context, parameters: MyParameters, inputs: MyInputs,");
   (142, "    ) -> MyOutputs:");
   (143, "        # run dummy detector");
   (144, "        detections = defaultdict(list)");
   (145, "        for x in range(random.randint(2, 4)):");
   (146, "            detections[random.choice(['zone1', 'zone2'])].append({");
   (147, "                'speed': random.random() * 100,");
   (148, "                'type': random.choice(['car', 'truck', 'motorbike']),");
   (149, "            })");
   (150, "        # log measurements");
   (151, "        for zone, zone_detections in detections.items():");
   (152, "            for detection in zone_detections:");
   (154, "                context.log_measurement(Detection(");
   (155, "                    zone_id=String(zone),");
   (156, "                    vehicle_type=String(detection['type']),");
   (157, "                    speed=Float(detection['speed'])))");
   (159, "            context.log_measurement(Detections(");
   (160, "                    zone_id=String(zone),");
   (161, "                    num_detections=Integer(len(zone_detections))))");
   (163, "        return MyOutputs(inputs.dummy)");
   (179, "pipeline = PipelineFactory.from_cell(cell=MyCell())");
   (180, "pipeline.show()");
   (196, "from rvai.base.pipeline import CellRef, Pipeline");
   (197, "from rvai.base.runtime import ProcessID");
   (198, "from rvai.types import Timestamp");
   (200, "def handle_measurements(");
   (201, "        pid: ProcessID,");
   (202, "        pipeline: Pipeline,");
   (203, "        cell_ref: CellRef,");
   (204, "        measurement: Measurement,");
   (205, "        timestamp: Timestamp,");
   (206, "    ):");
   (207, "        print(f'=={measurement.name()}==')");
   (208, "        for field_key, field in measurement.items():");
   (209, "            index = '(index)' if field.index else ''");
   (210, "            print(f'--{index}{field.name}: {field.value}')");
   (226, "from rvai.base.hooks import Hooks");
   (227, "from rvai.base.runtime import Inference, init");
   (229, "hooks = Hooks()");
   (230, "hooks.on_measurement.append(handle_measurements)");
   (232, "rt = init('debug', hooks=hooks)");
   (233, "inference = Inference(pipeline=pipeline)");
   (235, "proc = rt.start_inference(inference=inference)");
   (237, "for x in range(2):");
   (238, "    print(f'FRAME {x}')");
   (239, "    proc.predict(inputs={'dummy': Integer(x)}).result()");
   (255, "proc.stop()");
   (271, "rt.stop()")].

(** The code cells of src/7_flows.ipynb. *)
Definition flows : list Line :=
 [(28, "!pip install -qqq rvai==1.1.0rc51 pygraphviz rvai.pipelines.dummy_sdk_pipeline==1.1.0rc13");
   (46, "# required RVAI base class");
   (47, "from rvai.base.data import Dataset");
   (49, "# used for typing");
   (50, "from rvai.types import Image, BoundingBox, Point");
   (51, "from typing import Sequence, Tuple");
   (52, "import numpy as np");
   (54, "from rvai.pipelines.dummy_sdk_pipeline.dummy_cells import DummySamples, DummyAnnotations");
   (63, "class DummyDataset(");
   (64, "    Dataset[DummySamples, DummyAnnotations]");
   (65, "):");
   (66, "    def __init__(");
   (67, "        self, length: int");
   (68, "    ):");
   (69, "        # create random data");
   (70, "        self.images = [Image(np.random.random((100, 50, 3))) for i in range(length)]");
   (71, "        self.bounding_boxes = [BoundingBox(p1=Point(x=0, y=0), p2=Point(x=1, y=1)) for i in range(length)]");
   (73, "    def __getitem__(");
   (74, "        self, index");
   (75, "    ) -> Tuple[DummySamples, DummyAnnotations]:");
   (76, "        return (");
   (77, "            DummySamples(image=self.images[index]),");
   (78, "            DummyAnnotations(bbox=self.bounding_boxes[index]),");
   (79, "        )");
   (81, "    def __len__(self):");
   (82, "        return len(self.images)");
   (85, "train_dataset = DummyDataset(80)");
   (86, "validation_dataset = DummyDataset(10)");
   (87, "test_dataset = DummyDataset(1)");
   (89, "# display an example image and its label");
   (90, "samples, annotations = train_dataset[0]");
   (91, "print(annotations)");
   (108, "from rvai.base.runtime import init");
   (109, "from rvai.base.inference import PredictionResult");
   (111, "from rvai.base.flows import KFoldTrainTestEvalFlow, TrainTestEvalFlow");
   (112, "from rvai.pipelines.dummy_sdk_pipeline.dummy_sdk_pipeline import DummySDKPipeline");
   (113, "from rvai.pipelines.dummy_sdk_pipeline.dummy_cells import DummyTrainingParameters");
   (122, "rt = init('ray')");
   (124, "# Get the training pipeline");
   (125, "inference_pipeline = DummySDKPipeline.build()");
   (126, "cell_ref, cell_base = inference_pipeline.trainable_cells[0]");
   (128, "training_pipeline = inference_pipeline.get_training_pipeline(cell_base)");
   (129, "trainable_cell_ref = training_pipeline.get_cell_ref(training_pipeline.trainable_cell)");
   (130, "parameters = DummyTrainingParameters(epochs=5)");
   (132, "# define the flow");
   (133, "flow = TrainTestEvalFlow(");
   (134, "        runtime=rt,");
   (135, "        pipeline=training_pipeline,");
   (136, "        models={},");
   (137, "        parameters={trainable_cell_ref: parameters},");
   (138, "        train_dataset=train_dataset,");
   (139, "        validation_dataset=validation_dataset,");
   (140, "        test_dataset=test_dataset,");
   (141, ")");
   (143, "# Start the flow & follow up on updates");
   (144, "flow.start()");
   (145, "async for update in flow.updates():");
   (146, "    print(update)");
   (148, "# Finally get the result, containing metrics and model_path");
   (149, "result = await flow");
   (150, "print(result)");
   (170, "# define the flow");
   (171, "flow = KFoldTrainTestEvalFlow(");
   (172, "        runtime=rt,");
   (173, "        pipeline=training_pipeline,");
   (174, "        models={},");
   (175, "        parameters={trainable_cell_ref: parameters},");
   (176, "        train_dataset=train_dataset,");
   (177, "        validation_dataset=validation_dataset,");
   (178, "        test_dataset=test_dataset,");
   (179, "        folds=3,");
   (180, ")");
   (182, "# Start the flow & follow up on updates");
   (183, "flow.start()");
   (184, "async for update in flow.updates():");
   (185, "    # filter so the output is not flood");
   (186, "    if not isinstance(update, PredictionResult):");
   (187, "        print(update)");
   (189, "# Finally get the result, containing metrics and model_path");
   (190, "result = await flow");
   (191, "print(result)");
   (200, "rt.stop()");
   (295, "!pip install -qqq rvai==1.1.0rc51 pygraphviz");
   (304, "from dataclasses import dataclass");
   (305, "from rvai.base.cell import Cell, cell");
   (306, "from rvai.base.data import (");
   (307, "    Inputs,");
   (308, "    Outputs,");
   (309, "    Parameters,");
   (310, "    State,");
   (311, ")");
   (312, "from rvai.base.context import InferenceContext");
   (313, "from rvai.base.pipeline import PipelineFactory");
   (314, "from rvai.types import Integer");
   (316, "# Cell");
   (317, "@dataclass");
   (318, "class MyInputs(Inputs):");
   (319, "    integer: Integer = Inputs.field(name='Dummy input', description='Some dummy input')");
   (322, "@dataclass");
   (323, "class MyOutputs(Outputs):");
   (324, "    integer: Integer = Outputs.field(name='Dummy output', description='Some dummy output')");
   (325, "    counter: Integer = Outputs.field(name='Counter', description='Prediction counter')");
   (328, "@dataclass");
   (329, "class MyParameters(Parameters):");
   (330, "    adder: Integer = Parameters.field(default=Integer(1), name='Adder')");
   (333, "@dataclass");
   (334, "class MyState(State):");
   (335, "    counter: Integer = State.field(default=Integer(0))");
   (338, "@cell(state=MyState)");
   (339, "class MyCell(Cell):");
   (341, "    @classmethod");
   (342, "    def call(");
   (343, "        cls, context: InferenceContext, parameters: MyParameters, inputs: MyInputs,");
   (344, "    ) -> MyOutputs:");
   (345, "        state: MyState = context.state");
   (346, "        state.counter = Integer(state.counter + 1)");
   (347, "        return MyOutputs(");
   (348, "            integer=Integer(inputs.integer + parameters.adder),");
   (349, "            counter=state.counter,");
   (350, "        )");
   (352, "# Pipeline");
   (353, "pf = PipelineFactory(name='MyPipeline')");
   (354, "my_cell = MyCell()");
   (355, "pf.add_cell(ref='my-cell', cell=my_cell)");
   (356, "pf.declare_input(ref='input', input=my_cell.inputs.integer)");
   (357, "pf.declare_output(ref='output', output=my_cell.outputs.integer)");
   (358, "pf.declare_output(ref='counter', output=my_cell.outputs.counter)");
   (360, "pipeline = pf.build()");
   (361, "pipeline.show()");
   (380, "from rvai.base.runtime import Inference, init");
   (382, "rt = init('debug')");
   (383, "inference = Inference(pipeline=pipeline)");
   (385, "proc = rt.start_inference(inference=inference)");
   (403, "from rvai.extensions.drivers.fast_api_driver import FastAPIDriver");
   (405, "fast_api_driver_proc = proc.add_driver('webapi', FastAPIDriver)");
   (406, "assert fast_api_driver_proc == proc.get_driver('webapi')");
   (428, "# get accesspoints of this driver");
   (429, "print('FastAPIDriver services:', ', '.join([s['name'] for s in fast_api_driver_proc.list_services()]))");
   (431, "http_service = fast_api_driver_proc.get_service('http')");
   (432, "host = http_service['taggedAddresses']['wan']['address']");
   (433, "port = http_service['taggedAddresses']['wan']['port']");
   (434, "fast_api_url = f'http://{host}:{port}'");
   (435, "print(f'The API server should be available on {fast_api_url}')");
   (444, "from IPython.display import IFrame");
   (445, "IFrame(fast_api_url, width=1000, height=500)");
   (461, "from rvai.extensions.drivers.fast_api_driver import FastAPIClient, FastAPIClientError");
   (463, "client = FastAPIClient(process=fast_api_driver_proc)");
   (465, "# wait for api server te be online");
   (466, "client.wait()");
   (468, "# regular predict");
   (469, "print('HTTP predict result:', client.predict({'input': Integer(1)}))");
   (471, "# prediction task");
   (472, "task_id = client.predict_task({'input': Integer(1)})");
   (473, "print('HTTP prediction task:', task_id)");
   (474, "print('HTTP prediction task result:', client.task_result(task_id))");
   (490, "from rvai.base.exc import DriverNotFoundError");
   (491, "from rvai.types import Integer");
   (493, "try:");
   (494, "    # stop the driver");
   (495, "    proc.remove_driver(fast_api_driver_proc.pid)");
   (496, "except DriverNotFoundError as e:");
   (497, "    print('Could not remove driver:', e)");
   (499, "print('* manual inference still possible:', proc.predict({'input': Integer(1)}).result())");
   (501, "print('* client not responding (as expected):')");
   (502, "try:");
   (503, "    client.predict({'input': Integer(1)})");
   (504, "except FastAPIClientError as e:");
   (505, "    print(e)");
   (507, "try:");
   (508, "    client.wait(timeout=1)");
   (509, "except FastAPIClientError as e:");
   (510, "    print('Can also be tested via `client.wait()`:', e)");
   (519, "fast_api_driver_proc = proc.add_driver('webapi', FastAPIDriver)");
   (520, "client = FastAPIClient(process=fast_api_driver_proc)");
   (521, "client.wait()");
   (522, "print('Server back online!')");
   (540, "fast_api_params = fast_api_driver_proc.get_parameters()");
   (541, "print(f'Current FastAPI parameters: {fast_api_params}')");
   (542, "fast_api_params.task_ttl = Integer(10)");
   (543, "fast_api_driver_proc.set_parameters(fast_api_params)");
   (544, "print(f'Updated FastAPI parameters: {fast_api_driver_proc.get_parameters()}')");
   (568, "import time");
   (569, "from rvai.extensions.drivers.source_sink_driver import SourceSinkDriver");
   (570, "from rvai.extensions.sources.dummy_source import DummySource");
   (571, "from rvai.extensions.sinks.dummy_sink import DummySink");
   (572, "from rvai.types import FloatRange");
   (574, "# create driver");
   (575, "def create_source_sink_driver():");
   (576, "    driver = SourceSinkDriver()");
   (578, "    dummy_source = DummySource(format={'input': Integer}, params=DummySource.parameters(rate=FloatRange(10)))");
   (579, "    dummy_sink = DummySink(drain=lambda x: print('\rdraining ', x, end=''))");
   (581, "    driver.add_source(ref='source', source=dummy_source)");
   (582, "    driver.add_sink(ref='sink', sink=dummy_sink)");
   (583, "    return driver");
   (585, "# add to inference process");
   (586, "driver_proc = proc.add_driver('dummy-stream', create_source_sink_driver)");
   (587, "print(f'SourceSinkDriver parameters: {driver_proc.get_parameters()}')");
   (588, "print(f'SourceSinkDriver services:', ', '.join([s['name'] for s in driver_proc.list_services()]))");
   (589, "time.sleep(5)");
   (590, "print('')");
   (591, "print('Stopping source sink driver')");
   (592, "proc.remove_driver(driver_proc.pid)");
   (629, "import time");
   (630, "import numpy as np");
   (631, "from dataclasses import dataclass, field");
   (632, "from uuid import uuid4");
   (633, "from typing import Optional");
   (634, "from rvai.base.drivers import DriverParameters, PipelineDriver");
   (635, "from rvai.base.resources import DriverResources, DriverResourcesRequest");
   (636, "from rvai.base.runtime import RestrictedInferenceProcess");
   (637, "from rvai.types import Integer");
   (639, "@dataclass");
   (640, "class CustomDriverParameters(DriverParameters):");
   (641, "    param: Integer = field(default=Integer(0))");
   (643, "class CustomDriver(PipelineDriver):");
   (644, "    '''");
   (645, "        Stress test the inference process and print the average execution time.");
   (646, "    '''");
   (647, "    def __init__(self, predictions: int = 10, params: Optional[CustomDriverParameters] = None):");
   (648, "        self._predictions = predictions");
   (649, "        self._params = params or CustomDriverParameters()");
   (650, "        self._running = False");
   (652, "    def resources_request(self) -> DriverResourcesRequest:  ");
   (653, "        # Optionally request resources");
   (654, "        return DriverResourcesRequest(ports=['dummy-port'])    ");
   (656, "    def run(self, inference: RestrictedInferenceProcess, resources: DriverResources):");
   (657, "        print('Starting custom driver')");
   (658, "        print('Assigned ports:', resources.ports)");
   (659, "        self._running = True");
   (661, "        # create new state id");
   (662, "        state_id = str(uuid4())   ");
   (664, "        times = []");
   (665, "        results = []");
   (666, "        for _ in range(self._predictions):");
   (667, "            if not self._running:");
   (668, "                # respect the `stop` action and stop the loop");
   (669, "                print('Prematurely stopping test!')");
   (670, "                break");
   (671, "            start = time.time()");
   (672, "            result = inference.predict(inputs={'input': Integer.fake()}, sid=state_id).result()");
   (673, "            times.append(time.time() - start)");
   (674, "            results.append(result)");
   (676, "        if len(results) >= 2:");
   (677, "            print(f'First result: {results[0]}')");
   (678, "            print(f'Second result: {results[1]}')");
   (679, "        print(f'Average time over {len(times)} predictions: {np.round(np.mean(times) * 1000, 1)}ms')    ");
   (681, "    def stop(self):");
   (682, "        self._running = False");
   (684, "    def get_parameters(self) -> CustomDriverParameters:");
   (685, "        '''Get parameters.'''");
   (686, "        return self._params");
   (688, "    def set_parameters(self, parameters: CustomDriverParameters):");
   (689, "        '''Set parameters.'''");
   (690, "        self._params = parameters");
   (692, "driver_proc = proc.add_driver('custom', CustomDriver, predictions=1000)");
   (693, "# test premature stop");
   (694, "# time.sleep(0.1)");
   (695, "# proc.remove_driver(driver_proc.pid)");
   (711, "proc.stop()");
   (727, "rt.stop()")].

(** The files under src/, with their code. *)
Definition files : list (string * list Line) :=
  [("unnamed/part_000", part_000);
   ("3_trtis_inference.ipynb", trtis_inference);
   ("4_ray_runtime.ipynb", ray_runtime);
   ("6_measurements.ipynb", measurements);
   ("7_flows.ipynb", flows)].

(** [needle in hay] on Python strings. *)
Fixpoint contains (needle hay : string) : bool :=
  match hay with
  | EmptyString => String.prefix needle hay
  | String _ hay' => String.prefix needle hay || contains needle hay'
  end.


Fixpoint lstrip (text : string) : string :=
  match text with
  | String " "%char text' => lstrip text'
  | _ => text
  end.

(** The lines of the code that mention a name, with their file. *)
Definition lines_with (name : string) : list (string * Line) :=
  flat_map
    (fun f =>
       map (fun l => (fst f, l))
         (filter (fun l => contains name (snd l)) (snd f)))
    files.

(** The statement a line opens, as far as exceptions are concerned: an
    import, an [except] clause, a [raise] statement, or another one. *)
Inductive Statement : Type :=
| ImportStatement
| ExceptClause
| RaiseStatement
| OtherStatement.

Definition statement_of (text : string) : Statement :=
  let body := lstrip text in
  if String.prefix "from " body || String.prefix "import " body
  then ImportStatement
  else if String.prefix "except " body then ExceptClause
  else if String.prefix "raise" body then RaiseStatement
  else OtherStatement.

(** The name a [class] or [def] line introduces: the text between the
    keyword and the first parenthesis or colon. *)
Fixpoint name_of (text : string) : string :=
  match text with
  | String "("%char _ | String ":"%char _ | EmptyString => EmptyString
  | String c text' => String c (name_of text')
  end.

Definition after (keyword text : string) : option string :=
  if String.prefix keyword text
  then Some (name_of (substring (String.length keyword)
                        (String.length text - String.length keyword) text))
  else None.









End Source.

(** ** Notions used to state what the notebooks' code does *)



(** A relation between inputs and outputs that a test can check, that the
    function always satisfies, and that not every output satisfies. *)
Definition testable_property {I O : Type} (f : I -> O)
    (R : I -> O -> bool) : Prop :=
  (forall i, R i (f i) = true) /\ (exists i o, R i o = false).

(** An invariant a constructor establishes: every value it builds satisfies
    it, and some value of the record type does not. *)
Definition establishes_invariant {A T : Type} (init : A -> T)
    (Inv : T -> Prop) : Prop :=
  (forall a, Inv (init a)) /\ (exists t, ~ Inv t).

(** The one output of SummatorCell and of MultiplierCell, as a function of
    the parameters and inputs of the call. *)
Definition sum_of (p : GettingStarted.SummatorParameters.t)
    (i : GettingStarted.SummatorInputs.t) : Float :=
  GettingStarted.SummatorOutputs.sum (GettingStarted.SummatorCell.call p i).


(** Relations between the request and the outcome of a call.  *)

(** The sum never exceeds the threshold. *)
Definition sum_within_threshold
    (request : GettingStarted.SummatorParameters.t * GettingStarted.SummatorInputs.t)
    (outputs : GettingStarted.SummatorOutputs.t) : bool :=
  negb (GettingStarted.SummatorParameters.threshold (fst request)
        <? GettingStarted.SummatorOutputs.sum outputs)%float.

(** The product is the product of the operands, as one binary64 number. *)
Definition product_of_operands
    (request : GettingStarted.MultiplierParameters.t * GettingStarted.MultiplierInputs.t)
    (outputs : GettingStarted.MultiplierOutputs.t) : bool :=
  PrimFloat.Leibniz.eqb (GettingStarted.MultiplierOutputs.product outputs)
    (GettingStarted.MultiplierInputs.op_1 (snd request)
     * GettingStarted.MultiplierInputs.op_2 (snd request))%float.

(** A benchmark cell that returns has added one to the counter. *)
Definition counter_incremented {px : Type}
    (request : RayRuntime.BenchmarkParameters.t * RayRuntime.BenchmarkInputs.t px)
    (outcome : result (RayRuntime.BenchmarkOutputs.t px)) : bool :=
  match outcome with
  | inl _ => true
  | inr outputs =>
      RayRuntime.BenchmarkOutputs.counter_out outputs
      =? RayRuntime.BenchmarkInputs.counter_in (snd request) + 1
  end.


(** The stateful cell adds the adder and counts the call. *)
Definition added_and_counted
    (request : Drivers.MyState.t * Drivers.MyParameters.t * Drivers.MyInputs.t)
    (outcome : Drivers.MyOutputs.t * Drivers.MyState.t) : bool :=
  let '(state, parameters, inputs) := request in
  (Drivers.MyOutputs.integer (fst outcome)
   =? Drivers.MyInputs.integer inputs + Drivers.MyParameters.adder parameters)
  && (Drivers.MyOutputs.counter (fst outcome)
      =? Drivers.MyState.counter state + 1)
  && (Drivers.MyState.counter (snd outcome)
      =? Drivers.MyState.counter state + 1).

(** A clock for the delays of the notebooks, which lie between 0 and 1
    second: it sleeps through those and refuses every other delay. *)
Definition sleep_up_to_one_second (secs : Float) : result unit :=
  if ((0 <=? secs) && (secs <=? 1))%float then ret tt else raise ValueError.

(** ** Notions used to state further properties of the code *)

(** The bounding box of every item of a [DummyDataset]. *)
Definition unit_box : BoundingBox :=
  {| p1 := {| x := 0; y := 0 |}; p2 := {| x := 1; y := 1 |} |}.

(** The number of axes of an image, and its samples in row-major order. *)
Definition axes {px : Type} (image : Image px) : nat :=
  match image with
  | Image2D _ => 2
  | Image3D _ => 3
  end.

Definition samples_of {px : Type} (image : Image px) : list px :=
  match image with
  | Image2D rows => List.concat rows
  | Image3D rows => List.concat (List.concat rows)
  end.

(** The zone a measurement is indexed by. *)
Definition zone_of (m : Measurements.Measurement) : Measurements.Zone :=
  match m with
  | Measurements.Detection zone _ _ => zone
  | Measurements.Detections zone _ => zone
  end.

Definition in_zone (zone : Measurements.Zone) (m : Measurements.Measurement)
  : bool :=
  Measurements.Zone_eqb (zone_of m) zone.

(** The draws of the detector that fell into a zone, in the order drawn. *)
Definition zone_draws (zone : Measurements.Zone)
    (draws : list Measurements.Draw) : list Measurements.Draw :=
  filter (fun dr => Measurements.Zone_eqb (Measurements.draw_zone dr) zone)
    draws.

(** The [Detection] measurement of one draw. *)
Definition logged_detection (dr : Measurements.Draw)
  : Measurements.Measurement :=
  Measurements.Detection (Measurements.draw_zone dr)
    (Measurements.draw_type dr) (Measurements.draw_random dr * 100)%float.

(** The dictionary the detector loop builds for one draw. *)
Definition detected (dr : Measurements.Draw) : Measurements.DetectionDict :=
  {| Measurements.speed := (Measurements.draw_random dr * 100)%float;
     Measurements.type := Measurements.draw_type dr |}.

(** What a log should hold for a zone: nothing when no draw fell into the
    zone, and else the detections of the zone, in the order drawn, followed
    by their number. *)
Definition zone_log (zone : Measurements.Zone)
    (draws : list Measurements.Draw) : list Measurements.Measurement :=
  match zone_draws zone draws with
  | [] => []
  | ds =>
      (map logged_detection ds
       ++ [Measurements.Detections zone (Z.of_nat (List.length ds))])%list
  end.

(** The [Detections] measurements of a log: the per-zone summaries. *)
Definition summaries (log : list Measurements.Measurement)
  : list Measurements.Measurement :=
  filter (fun m => negb (Measurements.is_detection m)) log.








(** A pipeline with the reference of one cell replaced by another one. *)
Definition rename_ref (old new : Pipeline.CellRef) (ref : Pipeline.CellRef)
  : Pipeline.CellRef :=
  if String.eqb ref old then new else ref.

Definition rename_port (old new : Pipeline.CellRef) (port : Pipeline.Port)
  : Pipeline.Port :=
  (rename_ref old new (fst port), snd port).

Definition rename_cell (old new : Pipeline.CellRef) (p : Pipeline.t)
  : Pipeline.t :=
  {| Pipeline.name := Pipeline.name p;
     Pipeline.cells :=
       map (fun c => (rename_ref old new (fst c), snd c)) (Pipeline.cells p);
     Pipeline.inputs :=
       map (fun i => (fst i, map (rename_port old new) (snd i)))
         (Pipeline.inputs p);
     Pipeline.outputs :=
       map (fun o => (fst o, rename_port old new (snd o)))
         (Pipeline.outputs p);
     Pipeline.connections :=
       map (fun c => (rename_port old new (fst c),
                      rename_port old new (snd c)))
         (Pipeline.connections p) |}.

(** * Properties *)

(** ** Comparison of binary64 numbers *)

Section FloatOrder.

Lemma SFcompare_antisym (x y : spec_float) :
  SFcompare y x = option_map CompOpp (SFcompare x y).
Proof.
  destruct x as [sx|sx| |sx mx ex], y as [sy|sy| |sy my ey]; simpl;
    try reflexivity;
    try (destruct sx; reflexivity);
    try (destruct sy; reflexivity);
    try (destruct sx, sy; reflexivity).
  destruct sx, sy; simpl; try reflexivity;
    rewrite (Z.compare_antisym ey ex);
    destruct (ey ?= ex)%Z; simpl; try reflexivity;
    fold (Pos.compare mx my); fold (Pos.compare my mx);
    rewrite (Pos.compare_antisym my mx);
    destruct (my ?= mx)%positive; reflexivity.
Qed.

Lemma ltb_irrefl (x : float) : (x <? x)%float = false.
Proof.
  rewrite ltb_spec. unfold SFltb.
  pose proof (SFcompare_antisym (Prim2SF x) (Prim2SF x)) as H.
  destruct (SFcompare (Prim2SF x) (Prim2SF x)) as [[]|]; simpl in H;
    try reflexivity; discriminate.
Qed.

Lemma leb_not_gtb (x y : float) :
  (x <=? y)%float = true -> (y <? x)%float = false.
Proof.
  rewrite leb_spec, ltb_spec. unfold SFleb, SFltb.
  rewrite (SFcompare_antisym (Prim2SF x) (Prim2SF y)).
  destruct (SFcompare (Prim2SF x) (Prim2SF y)) as [[]|]; simpl;
    intros H; try reflexivity; discriminate.
Qed.

(** Two numbers that are not NaN are comparable. *)
Lemma not_gtb_leb (x y : float) :
  is_nan x = false -> is_nan y = false ->
  (y <? x)%float = false -> (x <=? y)%float = true.
Proof.
  unfold is_nan. rewrite !eqb_spec, leb_spec, ltb_spec.
  unfold SFeqb, SFleb, SFltb.
  rewrite (SFcompare_antisym (Prim2SF x) (Prim2SF y)).
  destruct (Prim2SF x) as [sx|sx| |sx mx ex], (Prim2SF y) as [sy|sy| |sy my ey];
    simpl; try discriminate;
    try (destruct sx; simpl; congruence);
    try (destruct sy; simpl; congruence);
    try (destruct sx, sy; simpl; congruence).
  intros _ _.
  destruct sx, sy; simpl; try congruence;
    destruct (ex ?= ey)%Z; simpl; try congruence;
    destruct (Pos.compare_cont Eq mx my); simpl; congruence.
Qed.

(** Python's [min] never returns more than its second argument. *)
Lemma fmin_not_above (x y : float) : (y <? Py.fmin x y)%float = false.
Proof.
  unfold Py.fmin, Py.min2.
  destruct (y <? x)%float eqn:E; [apply ltb_irrefl | exact E].
Qed.

Lemma fmin_left (x y : float) :
  (x <=? y)%float = true -> Py.fmin x y = x.
Proof.
  intros H. unfold Py.fmin, Py.min2. now rewrite (leb_not_gtb _ _ H).
Qed.


End FloatOrder.

(** ** SummatorCell *)

Section Summator.

Import GettingStarted.

(** C2: the sum output of SummatorCell.call is Python's [min] of
    [op_1 + op_2] and the threshold parameter; it is never greater than the
    threshold, it is [op_1 + op_2] whenever [op_1 + op_2 <= threshold], and
    it is at most the threshold in the sense of [<=] as soon as neither
    number is a NaN. *)
Theorem SummatorCell_call_min (parameters : SummatorParameters.t)
    (inputs : SummatorInputs.t) :
  let a := SummatorInputs.op_1 inputs in
  let b := SummatorInputs.op_2 inputs in
  let t := SummatorParameters.threshold parameters in
  let s := SummatorOutputs.sum (SummatorCell.call parameters inputs) in
  s = Py.fmin (a + b)%float t
  /\ (t <? s)%float = false
  /\ ((a + b <=? t)%float = true -> s = (a + b)%float)
  /\ (is_nan (a + b)%float = false -> is_nan t = false ->
      (s <=? t)%float = true /\ (s <=? a + b)%float = true).
Proof.
  cbv zeta. unfold SummatorCell.call. simpl.
  split; [reflexivity|].
  split; [apply fmin_not_above|].
  split; [apply fmin_left|].
  intros Hs Ht. unfold Py.fmin, Py.min2.
  destruct (SummatorParameters.threshold parameters
            <? SummatorInputs.op_1 inputs + SummatorInputs.op_2 inputs)%float
    eqn:E.
  - split.
    + apply not_gtb_leb; auto using ltb_irrefl.
    + apply not_gtb_leb; auto.
      destruct (_ + _ <? _)%float eqn:E'; [|reflexivity].
      rewrite ltb_spec in E, E'. unfold SFltb in E, E'.
      rewrite (SFcompare_antisym
                 (Prim2SF (SummatorParameters.threshold parameters))) in E'.
      destruct (SFcompare _ _) as [[]|]; simpl in *; discriminate.
  - split.
    + apply not_gtb_leb; auto.
    + apply not_gtb_leb; auto using ltb_irrefl.
Qed.

(** The requests of the notebook: 2.0 + 3.0 under the default threshold,
    and 10.0 + 30.0 under the thresholds 1.0 and 10.0 set afterwards. *)
Lemma SummatorCell_notebook_requests :
  sum_of SummatorParameters.default
    {| SummatorInputs.op_1 := 2%float; SummatorInputs.op_2 := 3%float |}
  = 5%float
  /\ sum_of {| SummatorParameters.threshold := 1%float |}
       {| SummatorInputs.op_1 := 10%float; SummatorInputs.op_2 := 30%float |}
     = 1%float
  /\ sum_of {| SummatorParameters.threshold := 10%float |}
       {| SummatorInputs.op_1 := 10%float; SummatorInputs.op_2 := 30%float |}
     = 10%float.
Proof. repeat split. Qed.

End Summator.

(** ** The stateful MyCell of the drivers notebook *)

Section StatefulCell.

Import Drivers.

Lemma MyCell_call_step (state : MyState.t) (parameters : MyParameters.t)
    (inputs : MyInputs.t) :
  MyState.counter (snd (MyCell.call state parameters inputs))
    = MyState.counter state + 1
  /\ MyOutputs.integer (fst (MyCell.call state parameters inputs))
    = MyInputs.integer inputs + MyParameters.adder parameters
  /\ MyOutputs.counter (fst (MyCell.call state parameters inputs))
    = MyState.counter (snd (MyCell.call state parameters inputs)).
Proof. repeat split. Qed.

(** After the requests, the counter has advanced by their number, and the
    outputs carry the successive values of the counter. *)
Lemma MyCell_calls_from (requests : list (MyParameters.t * MyInputs.t)) :
  forall state,
    MyState.counter (snd (MyCell.calls state requests))
      = MyState.counter state + Z.of_nat (List.length requests)
    /\ map MyOutputs.counter (fst (MyCell.calls state requests))
      = map (fun k => MyState.counter state + Z.of_nat k)
            (seq 1 (List.length requests)).
Proof.
  induction requests as [|[parameters inputs] requests IH]; intros state.
  - simpl. split; [lia | reflexivity].
  - cbn [MyCell.calls List.length].
    destruct (MyCell.call state parameters inputs) as [outputs state'] eqn:Ecall.
    pose proof (MyCell_call_step state parameters inputs) as (Hc & _ & Ho).
    rewrite Ecall in Hc, Ho. cbn [fst snd] in Hc, Ho.
    specialize (IH state'). destruct (MyCell.calls state' requests) as [rest state''].
    cbn [fst snd] in *. destruct IH as [IHc IHo]. split.
    + rewrite IHc, Hc. lia.
    + cbn [map seq].
      rewrite Ho, IHo, <- (seq_shift (List.length requests) 1), map_map.
      f_equal; [lia|]. apply map_ext. intros k. lia.
Qed.

(** C6: every invocation of MyCell.call adds exactly one to the counter of
    the state and returns [inputs.integer + parameters.adder] together with
    the updated counter; so after n invocations from the default state the
    counter is n, the returned counters are 1, 2, ..., n, and the k-th
    returned counter is k. *)
Theorem MyCell_call_counts :
  (forall state parameters inputs,
      MyState.counter (snd (MyCell.call state parameters inputs))
        = MyState.counter state + 1
      /\ MyOutputs.integer (fst (MyCell.call state parameters inputs))
        = MyInputs.integer inputs + MyParameters.adder parameters
      /\ MyOutputs.counter (fst (MyCell.call state parameters inputs))
        = MyState.counter (snd (MyCell.call state parameters inputs)))
  /\ (forall requests,
      let n := List.length requests in
      let outputs := fst (MyCell.calls MyState.default requests) in
      let state := snd (MyCell.calls MyState.default requests) in
      MyState.counter state = Z.of_nat n
      /\ map MyOutputs.counter outputs = map Z.of_nat (seq 1 n)
      /\ forall k, (k < n)%nat ->
           option_map MyOutputs.counter (nth_error outputs k)
             = Some (Z.of_nat (S k))).
Proof.
  split; [exact MyCell_call_step|].
  intros requests. cbv zeta.
  destruct (MyCell_calls_from requests MyState.default) as [Hc Ho].
  cbn [MyState.default MyState.counter] in Hc, Ho.
  assert (Hmap : map MyOutputs.counter (fst (MyCell.calls MyState.default requests))
                 = map Z.of_nat (seq 1 (List.length requests))).
  { rewrite Ho. apply map_ext. intros k. lia. }
  repeat split; [lia | exact Hmap |].
  intros k Hk.
  rewrite <- nth_error_map, Hmap, nth_error_map.
  rewrite (nth_error_nth' _ O) by (rewrite length_seq; exact Hk).
  rewrite seq_nth by exact Hk. reflexivity.
Qed.

End StatefulCell.

(** ** Python list indexing *)

Section Indexing.

Context {A : Type}.

Lemma getitem_in_range (l : list A) (index : Z) :
  - Z.of_nat (List.length l) <= index < Z.of_nat (List.length l) ->
  exists a, Py.getitem l index = ret a.
Proof.
  intros H. unfold Py.getitem. cbv zeta.
  set (n := Z.of_nat (List.length l)) in *.
  set (i := if index <? 0 then index + n else index).
  assert (Hi : 0 <= i < n).
  { subst i. destruct (Z.ltb_spec index 0); lia. }
  replace ((0 <=? i) && (i <? n)) with true
    by (symmetry; apply andb_true_iff; split;
        [apply Z.leb_le | apply Z.ltb_lt]; lia).
  destruct (nth_error l (Z.to_nat i)) as [a|] eqn:E; [now exists a|].
  apply nth_error_None in E. lia.
Qed.

Lemma getitem_out_of_range (l : list A) (index : Z) :
  ~ (- Z.of_nat (List.length l) <= index < Z.of_nat (List.length l)) ->
  Py.getitem l index = raise IndexError.
Proof.
  intros H. unfold Py.getitem. cbv zeta.
  set (n := Z.of_nat (List.length l)) in *.
  destruct (Z.ltb_spec index 0) as [Hneg|Hpos].
  - destruct (Z.leb_spec 0 (index + n)); [lia | reflexivity].
  - destruct (Z.leb_spec 0 index); [|lia].
    destruct (Z.ltb_spec index n); [lia | reflexivity].
Qed.

Lemma getitem_nat (l : list A) (i : nat) (a : A) :
  nth_error l i = Some a -> Py.getitem l (Z.of_nat i) = ret a.
Proof.
  intros E. unfold Py.getitem. cbv zeta.
  assert (Hlt : (i < List.length l)%nat) by (apply nth_error_Some; congruence).
  destruct (Z.ltb_spec (Z.of_nat i) 0); [lia|].
  destruct (Z.leb_spec 0 (Z.of_nat i)); [|lia].
  destruct (Z.ltb_spec (Z.of_nat i) (Z.of_nat (List.length l))); [|lia].
  cbn [andb]. rewrite Nat2Z.id, E. reflexivity.
Qed.

(** Indexing raises nothing but [IndexError]. *)
Lemma getitem_raises (l : list A) (index : Z) (e : PyError) :
  Py.getitem l index = raise e -> e = IndexError.
Proof.
  unfold Py.getitem. cbv zeta.
  destruct (_ && _); [destruct (nth_error _ _)|]; unfold raise, ret;
    congruence.
Qed.

End Indexing.

(** ** BenchmarkCell and the benchmark pipelines *)

Section Benchmarks.

Import RayRuntime Pipeline.

Context {px : Type} (half : px -> px).
Variable sleep : Float -> result unit.

Lemma halve_first_pixel_ok (image : Image px) :
  BenchmarkCell.has_first_pixel image = true ->
  exists image', BenchmarkCell.halve_first_pixel half image = ret image'
                 /\ BenchmarkCell.has_first_pixel image' = true.
Proof.
  destruct image as [rows|[|[|pixel row] rows]]; try discriminate.
  intros _. eexists. split; reflexivity.
Qed.

Lemma halve_first_pixel_fails (image : Image px) :
  BenchmarkCell.has_first_pixel image = false ->
  BenchmarkCell.halve_first_pixel half image = raise IndexError.
Proof.
  destruct image as [rows|[|[|pixel row] rows]]; try discriminate;
    reflexivity.
Qed.

(** Whenever the cell returns, its counter output is its counter input plus
    one and its image output is the input with the first pixel halved. *)
Lemma BenchmarkCell_call_returns (parameters : BenchmarkParameters.t)
    (inputs : BenchmarkInputs.t px) (outputs : BenchmarkOutputs.t px) :
  BenchmarkCell.call half sleep parameters inputs = ret outputs ->
  BenchmarkOutputs.counter_out outputs = BenchmarkInputs.counter_in inputs + 1
  /\ BenchmarkCell.halve_first_pixel half (BenchmarkInputs.image_in inputs)
     = ret (BenchmarkOutputs.image_out outputs).
Proof.
  unfold BenchmarkCell.call, bind, ret.
  destruct (sleep _) as [e|[]]; [discriminate|].
  destruct (BenchmarkCell.halve_first_pixel half _) as [e|image']; [discriminate|].
  intros H. injection H as <-. split; reflexivity.
Qed.

(** The cell returns exactly when the clock accepts the delay and the image
    has a first pixel. *)
Lemma BenchmarkCell_call_ok (parameters : BenchmarkParameters.t)
    (inputs : BenchmarkInputs.t px) :
  sleep (BenchmarkParameters.delay parameters) = ret tt ->
  BenchmarkCell.has_first_pixel (BenchmarkInputs.image_in inputs) = true ->
  exists outputs, BenchmarkCell.call half sleep parameters inputs = ret outputs.
Proof.
  intros Hs Hp. destruct (halve_first_pixel_ok _ Hp) as (image' & E & _).
  unfold BenchmarkCell.call. rewrite Hs, E. cbn. eauto.
Qed.

(** An exception of the cell comes from the clock, or is numpy's [IndexError]. *)
Lemma BenchmarkCell_call_raises (parameters : BenchmarkParameters.t)
    (inputs : BenchmarkInputs.t px) (e : PyError) :
  BenchmarkCell.call half sleep parameters inputs = raise e ->
  sleep (BenchmarkParameters.delay parameters) = raise e \/ e = IndexError.
Proof.
  unfold BenchmarkCell.call, bind, ret, raise.
  destruct (sleep _) as [e'|[]]; [intros H; left; congruence|].
  destruct (BenchmarkInputs.image_in inputs) as [rows|[|[|pixel row] rows]];
    cbn; intros H; right; congruence.
Qed.

Variable parameters : CellRef -> BenchmarkParameters.t.

(** How the inference task calls one benchmark cell. *)
Lemma Inference_BenchmarkCell (ref : CellRef) (image : Image px) (c : Integer) :
  Inference half sleep parameters ref BenchmarkCell
    [("image_in"%string, VImage image); ("counter_in"%string, VInteger c)]
  = (_ <- sleep (BenchmarkParameters.delay (parameters ref)) ;;
     image' <- BenchmarkCell.halve_first_pixel half image ;;
     ret [("image_out"%string, VImage image');
          ("counter_out"%string, VInteger (c + 1))]).
Proof.
  unfold Inference, BenchmarkCell.call, bind, ret.
  cbn [lookup String.eqb Ascii.eqb Bool.eqb BenchmarkInputs.image_in
       BenchmarkInputs.counter_in].
  destruct (sleep _) as [e|[]]; [reflexivity|].
  destruct (BenchmarkCell.halve_first_pixel half image); reflexivity.
Qed.

(** The engine is run one cell at a time: the request is fed, the ready
    cell is found by computation, its call is replaced by the equation
    above, and the outcome of the clock is examined. *)
Ltac feed_request :=
  unfold RayRuntime.predict, Pipeline.predict;
  cbv [feed feed_one lookup String.eqb Ascii.eqb Bool.eqb inputs
       SingleInputPipeline ChainedPipeline fst snd map app bind ret cells
       BenchmarkingPipelineCells List.length];
  cbn [run].

Ltac find_ready :=
  repeat match goal with
         | |- context [pick_ready ?w ?p] =>
             let v := eval cbv - [Z.add map] in (pick_ready w p) in
             change (pick_ready w p) with v
         end;
  cbv beta iota.

Ltac fire ref :=
  find_ready;
  rewrite !Inference_BenchmarkCell;
  destruct (sleep (BenchmarkParameters.delay (parameters ref)))
    as [?|[]] eqn:?;
  [first [reflexivity | congruence]|];
  cbn [bind ret raise BenchmarkCell.halve_first_pixel].

Ltac read_outputs :=
  find_ready; cbv - [Z.add map].

Hypothesis accepted : delays_accepted sleep parameters.

Lemma accepted_at (ref : CellRef) :
  In ref ["a"; "b"; "c"; "d"]%string ->
  sleep (BenchmarkParameters.delay (parameters ref)) = inr tt.
Proof. intros H. apply accepted. exact H. Qed.

Ltac clock_accepts :=
  pose proof (accepted_at "a"%string ltac:(cbn; tauto));
  pose proof (accepted_at "b"%string ltac:(cbn; tauto));
  pose proof (accepted_at "c"%string ltac:(cbn; tauto));
  pose proof (accepted_at "d"%string ltac:(cbn; tauto)).

Lemma SingleInputPipeline_counts (image : Image px) (c : Integer) :
  BenchmarkCell.has_first_pixel image = true ->
  RayRuntime.predict half sleep SingleInputPipeline parameters image c
  = ret [("counter"%string, VInteger (c + 4))].
Proof.
  destruct image as [rows|[|[|pixel row] rows]]; try discriminate.
  intros _. clock_accepts. feed_request.
  fire "a"%string. fire "b"%string. fire "c"%string. fire "d"%string.
  read_outputs.
  replace (c + 1 + 1 + 1 + 1) with (c + 4) by lia. reflexivity.
Qed.

Lemma ChainedPipeline_counts (image : Image px) (c : Integer) :
  BenchmarkCell.has_first_pixel image = true ->
  RayRuntime.predict half sleep ChainedPipeline parameters image c
  = ret [("counter"%string, VInteger (c + 4))].
Proof.
  destruct image as [rows|[|[|pixel row] rows]]; try discriminate.
  intros _. clock_accepts. feed_request.
  fire "a"%string. fire "b"%string. fire "c"%string. fire "d"%string.
  read_outputs.
  replace (c + 1 + 1 + 1 + 1) with (c + 4) by lia. reflexivity.
Qed.

(** The assertion of the warm-up loop holds at every index of the list. *)
Lemma warmup_passes (pipeline : Pipeline.t) (images : list (Image px))
    (indices : list nat) :
  (forall image, In image images ->
     RayRuntime.predict half sleep pipeline parameters image 0
     = ret [("counter"%string, VInteger 4)]) ->
  (forall i, In i indices -> (i < List.length images)%nat) ->
  warmup half sleep pipeline parameters images indices = ret tt.
Proof.
  intros Hpredict. induction indices as [|i indices IH]; intros Hin.
  - reflexivity.
  - cbn [warmup].
    destruct (nth_error images i) as [image|] eqn:E.
    + rewrite (getitem_nat _ _ _ E). cbn [bind ret].
      rewrite (Hpredict image (nth_error_In _ _ E)). cbn.
      apply IH. intros j Hj. apply Hin. now right.
    + apply nth_error_None in E. specialize (Hin i (or_introl eq_refl)). lia.
Qed.

End Benchmarks.

Section BenchmarkClaims.

Import RayRuntime Pipeline.

(** C9 (amended): for every image that has three axes and a pixel in row
    0, column 0, every counter [c], and delays that the clock accepts,
    SingleInputPipeline and ChainedPipeline both return the counter
    [c + 4]; so the assertion [int(out["counter"]) == 4] of the warm-up
    loop of [benchmark_task] holds on five or more such images, on both
    pipelines.  On an image of two axes, or of three axes without a pixel
    in row 0, column 0, BenchmarkCell.call returns no outputs, whatever its
    parameters: it raises [IndexError] once the clock has slept through the
    delay. *)
Theorem benchmark_pipelines_counter {px : Type} (half : px -> px)
    (sleep : Float -> result unit)
    (parameters : CellRef -> BenchmarkParameters.t)
    (image : Image px) (c : Integer) :
  (delays_accepted sleep parameters ->
   BenchmarkCell.has_first_pixel image = true ->
   RayRuntime.predict half sleep SingleInputPipeline parameters image c
   = ret [("counter"%string, VInteger (c + 4))]
   /\ RayRuntime.predict half sleep ChainedPipeline parameters image c
      = ret [("counter"%string, VInteger (c + 4))])
  /\ (delays_accepted sleep parameters ->
      forall benchmark_images,
        (5 <= List.length benchmark_images)%nat ->
        forallb BenchmarkCell.has_first_pixel benchmark_images = true ->
        benchmark_task_warmup half sleep SingleInputPipeline parameters
          benchmark_images = ret tt
        /\ benchmark_task_warmup half sleep ChainedPipeline parameters
             benchmark_images = ret tt)
  /\ (BenchmarkCell.has_first_pixel image = false ->
      forall ref,
        (forall outputs,
           BenchmarkCell.call half sleep (parameters ref)
             {| BenchmarkInputs.image_in := image;
                BenchmarkInputs.counter_in := c |} <> ret outputs)
        /\ (sleep (BenchmarkParameters.delay (parameters ref)) = ret tt ->
            BenchmarkCell.call half sleep (parameters ref)
              {| BenchmarkInputs.image_in := image;
                 BenchmarkInputs.counter_in := c |} = raise IndexError)).
Proof.
  split; [|split].
  - intros accepted Hpixel. split.
    + now apply SingleInputPipeline_counts.
    + now apply ChainedPipeline_counts.
  - intros accepted benchmark_images Hfive Hpixels.
    rewrite forallb_forall in Hpixels.
    assert (Hrange : forall i, In i (Py.range 5) ->
                       (i < List.length benchmark_images)%nat).
    { unfold Py.range. intros i Hi. apply in_seq in Hi. cbn in Hi. lia. }
    split; apply warmup_passes; try exact Hrange; intros image' Hin.
    + apply SingleInputPipeline_counts; [exact accepted|]. now apply Hpixels.
    + apply ChainedPipeline_counts; [exact accepted|]. now apply Hpixels.
  - intros Hpixel ref.
    pose proof (halve_first_pixel_fails half image Hpixel) as Hfail.
    unfold BenchmarkCell.call. cbn [BenchmarkInputs.image_in].
    rewrite Hfail. split.
    + intros outputs.
      destruct (sleep _) as [e|[]]; cbn; unfold ret; discriminate.
    + intros ->. reflexivity.
Qed.

(** The benchmark's own setting: a 1 x 1 image with three channels, cells
    of 20 frames per second with a bottleneck of 10, counter 0. *)
Lemma benchmark_pipelines_counter_witness :
  RayRuntime.predict (fun sample => Z.quot sample 2) sleep_up_to_one_second
    SingleInputPipeline (benchmark_parameters 20%float 10%float)
    (Image3D [[[200; 100; 50]]]) 0
  = ret [("counter"%string, VInteger 4)]
  /\ RayRuntime.predict (fun sample => Z.quot sample 2) sleep_up_to_one_second
       ChainedPipeline (benchmark_parameters 20%float 10%float)
       (Image3D [[[200; 100; 50]]]) 0
     = ret [("counter"%string, VInteger 4)].
Proof.
  apply (proj1 (benchmark_pipelines_counter (fun sample => Z.quot sample 2)
                  sleep_up_to_one_second
                  (benchmark_parameters 20%float 10%float)
                  (Image3D [[[200; 100; 50]]]) 0)).
  - intros ref Hin. cbn in Hin.
    destruct Hin as [<-|[<-|[<-|[<-|[]]]]]; vm_compute; reflexivity.
  - reflexivity.
Defined.

(** C9 as stated fails on an image of two axes, such as the 28 x 28 images
    of the FashionMNIST dataset: both pipelines hand the image of the
    request to cell a, a BenchmarkCell, and take their only output, the
    counter, from cell d at the end of the chain of counters that starts
    at cell a; on such an image the slice [[0, 0, :]] does not exist and
    BenchmarkCell.call raises [IndexError] instead of returning a counter,
    whatever the counter it is given. *)
Lemma benchmark_pipelines_grayscale_image :
  BenchmarkCell.call (fun sample => Z.quot sample 2) sleep_up_to_one_second
    BenchmarkParameters.default
    {| BenchmarkInputs.image_in := Image2D [[0]];
       BenchmarkInputs.counter_in := 0 |}
  = raise IndexError
  /\ (forall (half : Z -> Z) sleep parameters c outputs,
        BenchmarkCell.call half sleep parameters
          {| BenchmarkInputs.image_in := Image2D [[0]];
             BenchmarkInputs.counter_in := c |} <> ret outputs)
  /\ Forall
       (fun p =>
          lookup String.eqb "a"%string (cells p) = Some BenchmarkCell
          /\ (exists ports,
                lookup String.eqb "image"%string (inputs p) = Some ports
                /\ In ("a", "image_in")%string ports)
          /\ outputs p = [("counter", ("d", "counter_out"))]%string
          /\ incl [(("a", "counter_out"), ("b", "counter_in"));
                   (("b", "counter_out"), ("c", "counter_in"));
                   (("c", "counter_out"), ("d", "counter_in"))]%string
                (connections p))
       [SingleInputPipeline; ChainedPipeline].
Proof.
  split; [vm_compute; reflexivity|]. split.
  - intros half sleep parameters c outputs. unfold BenchmarkCell.call.
    destruct (sleep _) as [e|[]]; cbn; unfold ret; discriminate.
  - apply Forall_cons; [|apply Forall_cons; [|apply Forall_nil]];
      (split; [reflexivity|];
       split; [eexists; split; [reflexivity|]; cbn; tauto|];
       split; [reflexivity|];
       intros x Hx; cbn in Hx |- *; tauto).
Qed.

End BenchmarkClaims.

(** ** Connections between the cells of a pipeline *)

Section Connections.

Import Pipeline.
Local Open Scope string_scope.

(** C8 (amended): the pipelines of the getting-started, TensorRT,
    measurements and drivers notebooks connect no cell to another cell; the
    two benchmark pipelines do: SingleInputPipeline chains the counters of
    its cells a, b, c, d, and ChainedPipeline chains both the counters and
    the images (every one of its connections joins two different cells). *)
Theorem cell_to_cell_connections :
  map (fun p => (name p, List.length (cell_to_cell p))) Notebooks.pipelines
  = [("MyPipeline", 0%nat); ("MyPipeline", 0%nat);
     ("SingleInputPipeline", 3%nat); ("ChainedPipeline", 6%nat);
     ("ImageClassificationPipeline", 0%nat); ("from_cell", 0%nat);
     ("MyPipeline", 0%nat)]
  /\ cell_to_cell RayRuntime.SingleInputPipeline
     = [(("a", "counter_out"), ("b", "counter_in"));
        (("b", "counter_out"), ("c", "counter_in"));
        (("c", "counter_out"), ("d", "counter_in"))]
  /\ cell_to_cell RayRuntime.ChainedPipeline
     = connections RayRuntime.ChainedPipeline
  /\ Forall (fun c => snd c = BenchmarkCell)
       (cells RayRuntime.SingleInputPipeline
        ++ cells RayRuntime.ChainedPipeline).
Proof.
  repeat split; try reflexivity.
  repeat constructor.
Qed.

(** C8 as stated fails on ChainedPipeline: the counter output of cell a, a
    BenchmarkCell of the notebook, is connected to the counter input of
    cell b, another BenchmarkCell. *)
Lemma ChainedPipeline_connects_cells :
  In RayRuntime.ChainedPipeline Notebooks.pipelines
  /\ In (("a", "counter_out"), ("b", "counter_in"))
        (connections RayRuntime.ChainedPipeline)
  /\ lookup String.eqb "a" (cells RayRuntime.ChainedPipeline)
     = Some BenchmarkCell
  /\ lookup String.eqb "b" (cells RayRuntime.ChainedPipeline)
     = Some BenchmarkCell
  /\ "a" <> "b".
Proof.
  repeat split; try reflexivity.
  - cbn. tauto.
  - cbn. tauto.
  - discriminate.
Qed.

End Connections.

(** ** Records with rules of their own *)

Section Records.

Import Flows.

Lemma DummyDataset_lengths {px : Type} (random : nat -> Image px)
    (length : Z) :
  List.length (DummyDataset.images (DummyDataset.__init__ random length))
  = Z.to_nat length
  /\ List.length
       (DummyDataset.bounding_boxes (DummyDataset.__init__ random length))
     = Z.to_nat length.
Proof.
  unfold DummyDataset.__init__, Py.range. cbn.
  now rewrite !length_map, length_seq.
Qed.

(** C4 (amended): the records of the notebooks subclass SDK base types, and
    two of them carry a rule of the repository's own.  The constructor of
    DummyDataset builds as many bounding boxes as images, [max(0, length)]
    of each, so that [__len__] returns that number and [__getitem__]
    returns a pair for every index from [-len] to [len - 1] and raises
    [IndexError] for every other index.  MyState is updated by one rule on
    every call of its cell: the counter grows by one.  FashionMNISTDataset,
    by contrast, stores whatever sequences it is given. *)
Theorem records_with_own_rules :
  (forall (px : Type) (random : nat -> Image px) (length : Z),
      let d := DummyDataset.__init__ random length in
      List.length (DummyDataset.images d)
      = List.length (DummyDataset.bounding_boxes d)
      /\ DummyDataset.__len__ d = Z.max 0 length
      /\ (forall index,
             - DummyDataset.__len__ d <= index < DummyDataset.__len__ d ->
             exists samples annotations,
               DummyDataset.__getitem__ d index = ret (samples, annotations))
      /\ (forall index,
             ~ (- DummyDataset.__len__ d <= index < DummyDataset.__len__ d) ->
             DummyDataset.__getitem__ d index = raise IndexError))
  /\ (forall state parameters inputs,
         Drivers.MyState.counter
           (snd (Drivers.MyCell.call state parameters inputs))
         = Drivers.MyState.counter state + 1)
  /\ (forall (px : Type) images labels,
         Trtis.FashionMNISTDataset.images
           (@Trtis.FashionMNISTDataset.__init__ px images labels) = images
         /\ Trtis.FashionMNISTDataset.labels
              (@Trtis.FashionMNISTDataset.__init__ px images labels) = labels).
Proof.
  split; [|split; [reflexivity | split; reflexivity]].
  intros px random length d.
  destruct (DummyDataset_lengths random length) as [Hi Hb]. fold d in Hi, Hb.
  assert (Hlen : DummyDataset.__len__ d = Z.max 0 length)
    by (unfold DummyDataset.__len__; rewrite Hi; lia).
  split; [congruence|]. split; [exact Hlen|]. split.
  - intros index Hindex. unfold DummyDataset.__len__ in Hindex.
    unfold DummyDataset.__getitem__.
    destruct (getitem_in_range (DummyDataset.images d) index Hindex)
      as [image ->].
    destruct (getitem_in_range (DummyDataset.bounding_boxes d) index)
      as [bbox ->]; [rewrite Hb, <- Hi; exact Hindex|].
    cbn. eauto.
  - intros index Hindex. unfold DummyDataset.__len__ in Hindex.
    unfold DummyDataset.__getitem__.
    now rewrite (getitem_out_of_range _ _ Hindex).
Qed.

(** C4 as stated fails on DummyDataset: its constructor establishes a length
    relation, as many images as bounding boxes, that the record type alone
    does not impose. *)
Lemma DummyDataset_carries_length_invariant :
  establishes_invariant
    (@DummyDataset.__init__ Z (fun _ => Image3D []))
    (fun d => List.length (DummyDataset.images d)
              = List.length (DummyDataset.bounding_boxes d)).
Proof.
  split.
  - intros length.
    destruct (DummyDataset_lengths (fun _ : nat => @Image3D Z []) length).
    congruence.
  - exists {| DummyDataset.images := [Image3D []];
              DummyDataset.bounding_boxes := [] |}.
    discriminate.
Qed.

End Records.

(** ** CustomDriver *)

Section Driver.

Import Drivers.

Context {Prediction Ports : Type}.
Variable predict : nat -> Integer -> result Prediction.
Variable fake : nat -> Integer.
Variable stop_called : nat -> bool.

(** While nobody calls [stop], the loop makes one prediction per turn. *)
Lemma loop_runs (turns : list nat) :
  forall (self : CustomDriver.t) (results : list Prediction),
    CustomDriver._running self = true ->
    (forall i, In i turns -> stop_called i = false) ->
    (forall i, In i turns -> exists r, predict i (fake i) = ret r) ->
    exists rs,
      CustomDriver.loop (Ports := Ports) predict fake stop_called turns self results
      = ret (self, results ++ rs, [])
      /\ List.length rs = List.length turns.
Proof.
  induction turns as [|i turns IH]; intros self results Hrun Hstop Hpred.
  - exists []. now rewrite app_nil_r.
  - cbn [CustomDriver.loop].
    rewrite (Hstop i (or_introl eq_refl)), Hrun. cbn [negb].
    destruct (Hpred i (or_introl eq_refl)) as [r ->]. cbn [bind ret].
    destruct (IH self (results ++ [r]) Hrun) as (rs & -> & Hlen).
    + intros j Hj. apply Hstop. now right.
    + intros j Hj. apply Hpred. now right.
    + exists (r :: rs). rewrite <- app_assoc. split; [reflexivity|].
      cbn. now rewrite Hlen.
Qed.

(** A [stop] seen at a turn ends the loop before that turn's prediction. *)
Lemma loop_stopped (before : list nat) (k : nat) (after : list nat) :
  forall (self : CustomDriver.t) (results : list Prediction),
    CustomDriver._running self = true ->
    (forall i, In i before -> stop_called i = false) ->
    (forall i, In i before -> exists r, predict i (fake i) = ret r) ->
    stop_called k = true ->
    exists rs,
      CustomDriver.loop (Ports := Ports) predict fake stop_called (before ++ k :: after)
        self results
      = ret (CustomDriver.stop self, results ++ rs,
             [CustomDriver.Prematurely_stopping_test])
      /\ List.length rs = List.length before.
Proof.
  induction before as [|i before IH]; intros self results Hrun Hstop Hpred Hk.
  - exists []. cbn [app CustomDriver.loop]. rewrite Hk. cbn.
    now rewrite app_nil_r.
  - cbn [app CustomDriver.loop].
    rewrite (Hstop i (or_introl eq_refl)), Hrun. cbn [negb].
    destruct (Hpred i (or_introl eq_refl)) as [r ->]. cbn [bind ret].
    destruct (IH self (results ++ [r]) Hrun) as (rs & -> & Hlen); auto.
    + intros j Hj. apply Hstop. now right.
    + intros j Hj. apply Hpred. now right.
    + exists (r :: rs). rewrite <- app_assoc. split; [reflexivity|].
      cbn. now rewrite Hlen.
Qed.

(** An exception of [run] is one a prediction raised. *)
Lemma loop_raises (turns : list nat) :
  forall (self : CustomDriver.t) (results : list Prediction) (e : PyError),
    CustomDriver.loop (Ports := Ports) predict fake stop_called turns self results = raise e ->
    exists i, predict i (fake i) = raise e.
Proof.
  induction turns as [|i turns IH]; intros self results e; cbn [CustomDriver.loop].
  - discriminate.
  - destruct (negb _); [discriminate|].
    destruct (predict i (fake i)) as [e'|r] eqn:E; cbn [bind].
    + intros H. exists i. rewrite E. unfold raise in *. congruence.
    + apply IH.
Qed.

(** Left alone, [run] makes every prediction and stays running. *)
Lemma CustomDriver_run_unstopped (self : CustomDriver.t) (resources : Ports) :
  (forall i, stop_called i = false) ->
  (forall i v, exists r, predict i v = ret r) ->
  exists self' lines,
    CustomDriver.run predict fake stop_called self resources
    = ret (self', lines)
    /\ CustomDriver._running self' = true
    /\ last lines CustomDriver.Starting_custom_driver
       = CustomDriver.Average_time_over
           (Z.to_nat (CustomDriver._predictions self)).
Proof.
  intros Hstop Hpred. unfold CustomDriver.run.
  destruct (loop_runs
              (Py.range (CustomDriver._predictions self))
              {| CustomDriver._predictions := CustomDriver._predictions self;
                 CustomDriver._params := CustomDriver._params self;
                 CustomDriver._running := true |} [])
    as (rs & E & Hlen); auto.
  cbn [CustomDriver._predictions] in *. rewrite E. cbn [bind ret app].
  do 2 eexists. split; [reflexivity|]. split; [reflexivity|].
  rewrite !app_comm_cons, last_last.
  unfold Py.range in Hlen. rewrite length_seq in Hlen.
  cbn [app]. now rewrite Hlen.
Qed.

(** A [stop] first seen at turn [k] ends [run] after [k] predictions, with
    the flag cleared. *)
Lemma CustomDriver_run_stopped (self : CustomDriver.t) (resources : Ports)
    (k : nat) :
  (forall i, (i < k)%nat -> stop_called i = false) ->
  stop_called k = true ->
  (k < Z.to_nat (CustomDriver._predictions self))%nat ->
  (forall i v, exists r, predict i v = ret r) ->
  exists self' lines,
    CustomDriver.run predict fake stop_called self resources
    = ret (self', lines)
    /\ CustomDriver._running self' = false
    /\ In CustomDriver.Prematurely_stopping_test lines
    /\ last lines CustomDriver.Starting_custom_driver
       = CustomDriver.Average_time_over k.
Proof.
  intros Hbefore Hk Hlt Hpred.
  unfold CustomDriver.run. cbn [CustomDriver._predictions].
  assert (Hsplit : Py.range (CustomDriver._predictions self)
                   = (seq 0 k ++ k :: seq (S k)
                        (Z.to_nat (CustomDriver._predictions self) - S k))%list).
  { unfold Py.range.
    replace (Z.to_nat (CustomDriver._predictions self))
      with (k + S (Z.to_nat (CustomDriver._predictions self) - S k))%nat
      at 1 by lia.
    now rewrite seq_app. }
  rewrite Hsplit.
  destruct (loop_stopped (seq 0 k) k
              (seq (S k) (Z.to_nat (CustomDriver._predictions self) - S k))
              {| CustomDriver._predictions := CustomDriver._predictions self;
                 CustomDriver._params := CustomDriver._params self;
                 CustomDriver._running := true |} [])
    as (rs & E & Hlen); auto.
  { intros i Hi. apply Hbefore. apply in_seq in Hi. lia. }
  rewrite E. cbn [bind ret app].
  do 2 eexists. split; [reflexivity|]. split; [reflexivity|]. split.
  - cbn. tauto.
  - rewrite !app_comm_cons, last_last.
    rewrite length_seq in Hlen. cbn [app]. now rewrite Hlen.
Qed.

End Driver.

Section DriverClaims.

Import Drivers.
Local Open Scope string_scope.

(** C5 (amended): of the operations the specification lists, [add_driver],
    [start_inference], [start] and [updates] are defined by no class of the
    notebooks, but [predict] is a method of ImageClassificationCell and
    [set_parameters] a method of CustomDriver.  CustomDriver is a component
    of the repository with a state of its own: it is built not running,
    [set_parameters] replaces the parameters [get_parameters] returns and
    leaves the rest alone, [stop] clears the running flag, and [run] sets
    the flag and makes one prediction per turn of [range(predictions)]
    until a turn finds the flag cleared. *)
Theorem CustomDriver_and_operations :
  map (fun op => (op, Notebooks.classes_defining op))
    ["predict"; "set_parameters"; "add_driver"; "start_inference"; "start";
     "updates"]
  = [("predict", [("3_trtis_inference.ipynb", "ImageClassificationCell")]);
     ("set_parameters", [("7_flows.ipynb: Pipeline drivers", "CustomDriver")]);
     ("add_driver", []); ("start_inference", []); ("start", []);
     ("updates", [])]
  /\ (forall predictions params,
         CustomDriver._running (CustomDriver.__init__ predictions params)
         = false)
  /\ (forall self parameters,
         CustomDriver.get_parameters
           (CustomDriver.set_parameters self parameters) = parameters
         /\ CustomDriver._running (CustomDriver.set_parameters self parameters)
            = CustomDriver._running self
         /\ CustomDriver._predictions
              (CustomDriver.set_parameters self parameters)
            = CustomDriver._predictions self)
  /\ (forall self,
         CustomDriver._running (CustomDriver.stop self) = false
         /\ CustomDriver.get_parameters (CustomDriver.stop self)
            = CustomDriver.get_parameters self)
  /\ (forall (Prediction Ports : Type) predict fake stop_called self
             (resources : Ports),
         (forall i, stop_called i = false) ->
         (forall i v, exists r : Prediction, predict i v = ret r) ->
         exists self' lines,
           CustomDriver.run predict fake stop_called self resources
           = ret (self', lines)
           /\ CustomDriver._running self' = true
           /\ last lines CustomDriver.Starting_custom_driver
              = CustomDriver.Average_time_over
                  (Z.to_nat (CustomDriver._predictions self)))
  /\ (forall (Prediction Ports : Type) predict fake stop_called self
             (resources : Ports) (k : nat),
         (forall i, (i < k)%nat -> stop_called i = false) ->
         stop_called k = true ->
         (k < Z.to_nat (CustomDriver._predictions self))%nat ->
         (forall i v, exists r : Prediction, predict i v = ret r) ->
         exists self' lines,
           CustomDriver.run predict fake stop_called self resources
           = ret (self', lines)
           /\ CustomDriver._running self' = false
           /\ In CustomDriver.Prematurely_stopping_test lines
           /\ last lines CustomDriver.Starting_custom_driver
              = CustomDriver.Average_time_over k).
Proof.
  split; [reflexivity|].
  split; [reflexivity|].
  split; [intros; repeat split|].
  split; [intros; repeat split|].
  split.
  - intros Prediction Ports predict fake stop_called self resources.
    apply CustomDriver_run_unstopped.
  - intros Prediction Ports predict fake stop_called self resources k.
    apply CustomDriver_run_stopped.
Qed.

(** A driver told to make three predictions: left alone it makes three and
    stays running; stopped at its second turn it makes one. *)
Lemma CustomDriver_and_operations_witness :
  (exists self' lines,
      CustomDriver.run (fun i v => ret (v + Z.of_nat i)) (fun _ => 1)
        (fun _ => false) (CustomDriver.__init__ (Some 3) None) tt
      = ret (self', lines)
      /\ CustomDriver._running self' = true
      /\ last lines CustomDriver.Starting_custom_driver
         = CustomDriver.Average_time_over 3)
  /\ (exists self' lines,
      CustomDriver.run (fun i v => ret (v + Z.of_nat i)) (fun _ => 1)
        (fun i => Nat.eqb i 1) (CustomDriver.__init__ (Some 3) None) tt
      = ret (self', lines)
      /\ CustomDriver._running self' = false
      /\ In CustomDriver.Prematurely_stopping_test lines
      /\ last lines CustomDriver.Starting_custom_driver
         = CustomDriver.Average_time_over 1).
Proof.
  destruct CustomDriver_and_operations as (_ & _ & _ & _ & Hrun & Hstop).
  split.
  - apply (Hrun Z unit (fun i v => ret (v + Z.of_nat i)) (fun _ => 1)
             (fun _ => false) (CustomDriver.__init__ (Some 3) None) tt).
    + reflexivity.
    + intros i v. eexists. reflexivity.
  - apply (Hstop Z unit (fun i v => ret (v + Z.of_nat i)) (fun _ => 1)
             (fun i => Nat.eqb i 1) (CustomDriver.__init__ (Some 3) None) tt
             1%nat).
    + intros i Hi. destruct i; [reflexivity | lia].
    + reflexivity.
    + cbn. lia.
    + intros i v. eexists. reflexivity.
Defined.

(** C5 as stated fails on [set_parameters], one of the operations it lists:
    CustomDriver defines it in the drivers notebook, and its body changes
    what [get_parameters] returns, from the default parameter 0 to the
    parameter 7 it is given. *)
Lemma CustomDriver_implements_set_parameters :
  Notebooks.classes_defining "set_parameters"
  = [("7_flows.ipynb: Pipeline drivers", "CustomDriver")]
  /\ CustomDriver.get_parameters
       (CustomDriver.set_parameters (CustomDriver.__init__ None None)
          {| CustomDriverParameters.param := 7 |})
     = {| CustomDriverParameters.param := 7 |}
  /\ CustomDriver.get_parameters (CustomDriver.__init__ None None)
     = {| CustomDriverParameters.param := 0 |}.
Proof.
  repeat split; cbn; tauto.
Qed.

End DriverClaims.

(** ** The SDK's exceptions *)

Section Exceptions.

Import Drivers.

Context {Prediction : Type}.

Variable remove_driver : result unit.
Variable proc_predict : result Prediction.
Variable client_predict : result Prediction.
Variable client_wait : result unit.

Ltac outcome r := destruct r as [[]|]; cbn; try solve [intuition congruence].

(** An exception that leaves the cell was raised by one of its SDK calls. *)
Lemma RemoveDriverCell_uncaught (e : PyError) :
  snd (RemoveDriverCell.run remove_driver proc_predict client_predict
         client_wait) = raise e ->
  remove_driver = raise e \/ proc_predict = raise e
  \/ client_predict = raise e \/ client_wait = raise e.
Proof.
  unfold RemoveDriverCell.run, RemoveDriverCell.seq_run,
    RemoveDriverCell.try_except, RemoveDriverCell.print_prediction, raise, ret.
  outcome remove_driver; outcome proc_predict; outcome client_predict;
    outcome client_wait.
Qed.

Lemma except_DriverNotFoundError_cases (e : PyError) :
  (exists m, e = DriverNotFoundError m
             /\ RemoveDriverCell.except_DriverNotFoundError (Prediction := Prediction) e
                = Some [RemoveDriverCell.Could_not_remove_driver m])
  \/ ((forall m, e <> DriverNotFoundError m)
      /\ RemoveDriverCell.except_DriverNotFoundError (Prediction := Prediction) e = None).
Proof.
  destruct e; try (right; split; [discriminate | reflexivity]).
  left. eexists. split; reflexivity.
Qed.

Lemma except_FastAPIClientError_cases
    (print : string -> RemoveDriverCell.Line (Prediction := Prediction))
    (e : PyError) :
  (exists m, e = FastAPIClientError m
             /\ RemoveDriverCell.except_FastAPIClientError print e
                = Some [print m])
  \/ ((forall m, e <> FastAPIClientError m)
      /\ RemoveDriverCell.except_FastAPIClientError print e = None).
Proof.
  destruct e; try (right; split; [discriminate | reflexivity]).
  left. eexists. split; reflexivity.
Qed.

Ltac settle :=
  unfold raise, ret in *; cbn in *;
  repeat split; intros;
  repeat match goal with
         | H : _ /\ _ |- _ => destruct H
         | H : exists _, _ |- _ => destruct H
         | H : _ \/ _ |- _ => destruct H
         | H : False |- _ => destruct H
         | H : _ = _ |- _ => discriminate H
         | H : forall e, inl ?x = inl e -> _ |- _ => specialize (H x eq_refl)
         | H : ?f _ = ?f _ |- _ => injection H as H; subst
         | H : forall m, ?f ?x <> ?f m |- _ => destruct (H x eq_refl)
         end;
  try discriminate; try congruence; eauto 10.

(** A handler prints exactly when its [try] was reached and its SDK call
    raised the class it names. *)
Lemma RemoveDriverCell_prints (msg : string) :
  let lines := fst (RemoveDriverCell.run remove_driver proc_predict
                      client_predict client_wait) in
  let removed :=
    forall e, remove_driver = raise e -> exists m, e = DriverNotFoundError m in
  let predicted := exists r, proc_predict = ret r in
  let answered :=
    forall e, client_predict = raise e -> exists m, e = FastAPIClientError m in
  (In (RemoveDriverCell.Could_not_remove_driver msg) lines
   <-> remove_driver = raise (DriverNotFoundError msg))
  /\ (In (RemoveDriverCell.Client_error msg) lines
      <-> client_predict = raise (FastAPIClientError msg)
          /\ removed /\ predicted)
  /\ (In (RemoveDriverCell.Can_also_be_tested_via_wait msg) lines
      <-> client_wait = raise (FastAPIClientError msg)
          /\ removed /\ predicted /\ answered).
Proof.
  cbv zeta.
  unfold RemoveDriverCell.run, RemoveDriverCell.seq_run,
    RemoveDriverCell.try_except, RemoveDriverCell.print_prediction.
  destruct remove_driver as [e1|[]];
    [destruct (except_DriverNotFoundError_cases e1)
       as [(m1 & -> & ->)|[N1 ->]]|];
    (destruct proc_predict as [e|r]; [solve [settle]|]);
    (destruct client_predict as [e2|r2];
     [destruct (except_FastAPIClientError_cases
                  RemoveDriverCell.Client_error e2)
        as [(m2 & -> & ->)|[N2 ->]]|]);
    (destruct client_wait as [e3|[]];
     [destruct (except_FastAPIClientError_cases
                  RemoveDriverCell.Can_also_be_tested_via_wait e3)
        as [(m3 & -> & ->)|[N3 ->]]|]);
    settle.
Qed.
End Exceptions.

(** The warm-up loop raises what indexing, the assertion, reading the
    counter or a prediction raised. *)
Lemma warmup_raises {px : Type} (half : px -> px)
    (sleep : Float -> result unit) (pipeline : Pipeline.t)
    (parameters : Pipeline.CellRef -> RayRuntime.BenchmarkParameters.t)
    (images : list (Image px)) (indices : list nat) (e : PyError) :
  RayRuntime.warmup half sleep pipeline parameters images indices = raise e ->
  e = IndexError \/ e = AssertionError
  \/ e = OtherError "KeyError" "counter"
  \/ exists image,
       RayRuntime.predict half sleep pipeline parameters image 0 = raise e.
Proof.
  induction indices as [|i indices IH]; cbn [RayRuntime.warmup].
  - discriminate.
  - destruct (Py.getitem images (Z.of_nat i)) as [e1|image] eqn:E1;
      cbn [bind].
    { intros H. unfold raise in H. injection H as <-.
      left. apply (getitem_raises _ _ _ E1). }
    destruct (RayRuntime.predict half sleep pipeline parameters image 0)
      as [e2|out] eqn:E2; cbn [bind].
    { intros H. unfold raise in H. injection H as <-.
      right. right. right. now exists image. }
    destruct (RayRuntime.counter_of out) as [e3|counter] eqn:E3; cbn [bind].
    { intros H. unfold raise in H. injection H as <-.
      right. right. left. unfold RayRuntime.counter_of in E3.
      destruct (Pipeline.lookup _ _ _) as [[]|]; unfold raise, ret in E3;
        congruence. }
    destruct (counter =? 4); [exact IH|].
    intros H. unfold raise in H. injection H as <-. right. now left.
Qed.

Section ExceptionClaims.

Import Drivers.
Local Open Scope string_scope.

(** C7: in the code of the notebooks, DriverNotFoundError and
    FastAPIClientError stand on five lines, all of the drivers notebook:
    the two imports that bind them, from the SDK, and three [except]
    clauses; and the only [raise] of the code raises
    [NotImplementedError].  So no line raises or constructs either.  In
    the cell that catches them, a handler prints exactly when its [try]
    was reached and the SDK call in it raised that class, and an exception
    that leaves the cell was raised by one of its SDK calls.  Of the
    functions of the notebooks, indexing a dataset raises [IndexError]
    only, [test] raises [NotImplementedError], BenchmarkCell raises
    [IndexError] or what the clock raised, the warm-up of
    [benchmark_task] raises [IndexError], [AssertionError], [KeyError]
    or what a prediction raised, and CustomDriver.run raises what a
    prediction raised. *)
Theorem sdk_errors_only_caught :
  Source.lines_with "DriverNotFoundError"
  = [("7_flows.ipynb", (490, "from rvai.base.exc import DriverNotFoundError"));
     ("7_flows.ipynb", (496, "except DriverNotFoundError as e:"))]
  /\ Source.lines_with "FastAPIClientError"
     = [("7_flows.ipynb",
         (461, "from rvai.extensions.drivers.fast_api_driver import FastAPIClient, FastAPIClientError"));
        ("7_flows.ipynb", (504, "except FastAPIClientError as e:"));
        ("7_flows.ipynb", (509, "except FastAPIClientError as e:"))]
  /\ map (fun l => Source.statement_of (snd (snd l)))
       (Source.lines_with "DriverNotFoundError"
        ++ Source.lines_with "FastAPIClientError")
     = [Source.ImportStatement; Source.ExceptClause;
        Source.ImportStatement; Source.ExceptClause; Source.ExceptClause]
  /\ Source.lines_with "raise"
     = [("3_trtis_inference.ipynb", (316, "        raise NotImplementedError"))]
  /\ (forall (Prediction : Type) remove_driver
             (proc_predict client_predict : result Prediction) client_wait,
         let cell := RemoveDriverCell.run remove_driver proc_predict
                       client_predict client_wait in
         let removed :=
           forall e, remove_driver = raise e ->
                     exists m, e = DriverNotFoundError m in
         let predicted := exists r, proc_predict = ret r in
         let answered :=
           forall e, client_predict = raise e ->
                     exists m, e = FastAPIClientError m in
         (forall e, snd cell = raise e ->
                    remove_driver = raise e \/ proc_predict = raise e
                    \/ client_predict = raise e \/ client_wait = raise e)
         /\ (forall msg,
                (In (RemoveDriverCell.Could_not_remove_driver msg) (fst cell)
                 <-> remove_driver = raise (DriverNotFoundError msg))
                /\ (In (RemoveDriverCell.Client_error msg) (fst cell)
                    <-> client_predict = raise (FastAPIClientError msg)
                        /\ removed /\ predicted)
                /\ (In (RemoveDriverCell.Can_also_be_tested_via_wait msg)
                       (fst cell)
                    <-> client_wait = raise (FastAPIClientError msg)
                        /\ removed /\ predicted /\ answered)))
  /\ (forall (px : Type) (d : Flows.DummyDataset.t px) index e,
         Flows.DummyDataset.__getitem__ d index = raise e -> e = IndexError)
  /\ (forall (px : Type) (d : Trtis.FashionMNISTDataset.t px) index e,
         Trtis.FashionMNISTDataset.__getitem__ d index = raise e ->
         e = IndexError)
  /\ (forall (Metrics : Type) e,
         @Trtis.ImageClassificationCell.test Metrics = raise e ->
         e = NotImplementedError)
  /\ (forall (px : Type) (half : px -> px) sleep parameters inputs e,
         RayRuntime.BenchmarkCell.call half sleep parameters inputs = raise e ->
         sleep (RayRuntime.BenchmarkParameters.delay parameters) = raise e
         \/ e = IndexError)
  /\ (forall (px : Type) (half : px -> px) sleep pipeline parameters
             (benchmark_images : list (Image px)) e,
         RayRuntime.benchmark_task_warmup half sleep pipeline parameters
           benchmark_images = raise e ->
         e = IndexError \/ e = AssertionError
         \/ e = OtherError "KeyError" "counter"
         \/ exists image,
              RayRuntime.predict half sleep pipeline parameters image 0
              = raise e)
  /\ (forall (Prediction Ports : Type) predict fake stop_called self
             (resources : Ports) e,
         CustomDriver.run (Prediction := Prediction) predict fake stop_called
           self resources = raise e ->
         exists i, predict i (fake i) = raise e).
Proof.
  split; [vm_compute; reflexivity|].
  split; [vm_compute; reflexivity|].
  split; [vm_compute; reflexivity|].
  split; [vm_compute; reflexivity|].
  split.
  { intros Prediction remove_driver proc_predict client_predict client_wait
      cell removed predicted answered.
    split.
    - intros e. apply RemoveDriverCell_uncaught.
    - intros msg.
      apply (RemoveDriverCell_prints remove_driver proc_predict
               client_predict client_wait msg). }
  split.
  { intros px d index e. unfold Flows.DummyDataset.__getitem__.
    destruct (Py.getitem (Flows.DummyDataset.images d) index) eqn:E1; cbn.
    - intros H. unfold raise in H. injection H as <-.
      apply (getitem_raises _ _ _ E1).
    - destruct (Py.getitem (Flows.DummyDataset.bounding_boxes d) index) eqn:E2;
        cbn; [|discriminate].
      intros H. unfold raise in H. injection H as <-.
      apply (getitem_raises _ _ _ E2). }
  split.
  { intros px d index e. unfold Trtis.FashionMNISTDataset.__getitem__.
    destruct (Py.getitem (Trtis.FashionMNISTDataset.images d) index) eqn:E1; cbn.
    - intros H. unfold raise in H. injection H as <-.
      apply (getitem_raises _ _ _ E1).
    - destruct (Py.getitem (Trtis.FashionMNISTDataset.labels d) index) eqn:E2;
        cbn; [|discriminate].
      intros H. unfold raise in H. injection H as <-.
      apply (getitem_raises _ _ _ E2). }
  split.
  { intros Metrics e. unfold Trtis.ImageClassificationCell.test, raise.
    congruence. }
  split.
  { intros px half sleep parameters inputs e.
    apply BenchmarkCell_call_raises. }
  split.
  { intros px half sleep pipeline parameters benchmark_images e.
    apply warmup_raises. }
  intros Prediction Ports predict fake stop_called self resources e.
  unfold CustomDriver.run.
  destruct (CustomDriver.loop _ _ _ _ _ _) as [e'|[[self' results] lines]] eqn:E;
    cbn; [|discriminate].
  intros H. unfold raise in H. injection H as <-.
  apply (loop_raises (Ports := Ports) predict fake stop_called _ _ _ _ E).
Qed.

End ExceptionClaims.

(** ** Runtimes and drivers in the notebooks *)

Section RuntimeClaims.

Local Open Scope string_scope.

(** C10 (amended): every [init(...)] of the notebooks passes the literal
    ["debug"] or the literal ["ray"]; and in the drivers notebook the
    variable [proc] is bound once, by [rt.start_inference] (its statement
    3), and receives four [add_driver] calls, for the drivers "webapi"
    (twice), "dummy-stream" and "custom": more than one driver is added to
    the same inference process, and no other notebook adds a driver.  No
    class of the notebooks defines an operation of the runtime or of its
    processes; scheduling and locking are the SDK's.  Cancellation has a
    side the repository does show: CustomDriver defines [stop], and its
    [run] ends at the first turn that finds the flag cleared, after as many
    predictions as turns went before, with the line that says so. *)
Theorem runtimes_and_drivers :
  map Notebooks.init_literals Notebooks.notebooks
  = [[Some "ray"]; [Some "debug"; Some "ray"; Some "ray"]; [Some "debug"];
     [Some "debug"]; [Some "ray"]; [Some "debug"]]
  /\ Forall (fun literal => literal = Some "debug" \/ literal = Some "ray")
       (flat_map Notebooks.init_literals Notebooks.notebooks)
  /\ nth_error Notebooks.drivers 3
     = Some (Notebooks.call (Some "proc") "rt" "start_inference" []
               ["inference"])
  /\ Notebooks.add_driver_calls Notebooks.drivers
     = [(Some 3%nat, Some "webapi"); (Some 3%nat, Some "webapi");
        (Some 3%nat, Some "dummy-stream"); (Some 3%nat, Some "custom")]
  /\ map Notebooks.add_driver_calls
       [Notebooks.getting_started; Notebooks.ray_runtime;
        Notebooks.trtis_inference; Notebooks.measurements; Notebooks.flows]
     = [[]; []; []; []; []]
  /\ map (fun op => (op, Notebooks.classes_defining op))
       ["init"; "start_inference"; "start_training"; "set_replicas";
        "add_driver"; "remove_driver"; "get_driver"; "stop"]
     = [("init", []); ("start_inference", []); ("start_training", []);
        ("set_replicas", []); ("add_driver", []); ("remove_driver", []);
        ("get_driver", []);
        ("stop", [("7_flows.ipynb: Pipeline drivers", "CustomDriver")])]
  /\ (forall (Prediction Ports : Type) predict fake stop_called self
             (resources : Ports) (k : nat),
         (forall i, (i < k)%nat -> stop_called i = false) ->
         stop_called k = true ->
         (k < Z.to_nat (Drivers.CustomDriver._predictions self))%nat ->
         (forall i v, exists r : Prediction, predict i v = ret r) ->
         exists self' lines,
           Drivers.CustomDriver.run predict fake stop_called self resources
           = ret (self', lines)
           /\ Drivers.CustomDriver._running self' = false
           /\ In Drivers.CustomDriver.Prematurely_stopping_test lines
           /\ last lines Drivers.CustomDriver.Starting_custom_driver
              = Drivers.CustomDriver.Average_time_over k).
Proof.
  split; [reflexivity|].
  split; [cbn; repeat constructor; tauto|].
  do 4 (split; [reflexivity|]).
  intros Prediction Ports predict fake stop_called self resources k.
  apply CustomDriver_run_stopped.
Qed.

(** A driver told to make three predictions and stopped at its second
    turn. *)
Lemma runtimes_and_drivers_witness :
  exists self' lines,
    Drivers.CustomDriver.run (fun i v => ret (v + Z.of_nat i)) (fun _ => 1)
      (fun i => Nat.eqb i 1) (Drivers.CustomDriver.__init__ (Some 3) None) tt
    = ret (self', lines)
    /\ Drivers.CustomDriver._running self' = false
    /\ In Drivers.CustomDriver.Prematurely_stopping_test lines
    /\ last lines Drivers.CustomDriver.Starting_custom_driver
       = Drivers.CustomDriver.Average_time_over 1.
Proof.
  destruct runtimes_and_drivers as (_ & _ & _ & _ & _ & _ & Hstop).
  apply (Hstop Z unit (fun i v => ret (v + Z.of_nat i)) (fun _ => 1)
           (fun i => Nat.eqb i 1) (Drivers.CustomDriver.__init__ (Some 3) None)
           tt 1%nat).
  - intros i Hi. destruct i; [reflexivity | lia].
  - reflexivity.
  - cbn. lia.
  - intros i v. eexists. reflexivity.
Defined.

(** C10 as stated fails on CustomDriver: how a running driver is cancelled
    is shown in the drivers notebook.  Told to make three predictions and
    stopped when its second turn tests the flag, [run] makes one prediction,
    prints that it stops prematurely, and ends with the flag cleared. *)
Lemma CustomDriver_run_is_cancelled :
  Drivers.CustomDriver.run (Ports := unit)
    (fun i v => ret (v + Z.of_nat i)) (fun _ => 1) (fun i => Nat.eqb i 1)
    (Drivers.CustomDriver.__init__ (Some 3) None) tt
  = ret (Drivers.CustomDriver.stop
           (Drivers.CustomDriver.__init__ (Some 3) None),
         [Drivers.CustomDriver.Starting_custom_driver;
          Drivers.CustomDriver.Assigned_ports tt;
          Drivers.CustomDriver.Prematurely_stopping_test;
          Drivers.CustomDriver.Average_time_over 1])
  /\ Notebooks.classes_defining "stop"
     = [("7_flows.ipynb: Pipeline drivers", "CustomDriver")].
Proof. split; reflexivity. Qed.

End RuntimeClaims.

(** ** The measurements cell *)

Section MeasurementsCell.

Import Measurements.

Lemma append_to_sizes (zone : Zone) (d : DetectionDict)
    (detections : list (Zone * list DetectionDict)) :
  group_sizes (append_to zone d detections) = S (group_sizes detections).
Proof.
  induction detections as [|[z ds] detections IH]; cbn [append_to].
  - reflexivity.
  - destruct (Zone_eqb z zone); unfold group_sizes in *;
      cbn [fold_right snd] in *.
    + rewrite length_app. cbn. lia.
    + rewrite IH. lia.
Qed.

Lemma run_dummy_detector_sizes (draws : list Draw) :
  group_sizes (run_dummy_detector draws) = List.length draws.
Proof.
  unfold run_dummy_detector.
  enough (H : forall acc,
             group_sizes
               (fold_left
                  (fun detections dr =>
                     append_to (draw_zone dr)
                       {| speed := (draw_random dr * 100)%float;
                          type := draw_type dr |} detections)
                  draws acc)
             = (group_sizes acc + List.length draws)%nat)
    by (rewrite H; reflexivity).
  induction draws as [|dr draws IH]; intros acc;
    cbn [fold_left List.length].
  - lia.
  - rewrite IH, append_to_sizes. lia.
Qed.

Lemma total_detections_app (l1 l2 : list Measurement) :
  total_detections (l1 ++ l2) = total_detections l1 + total_detections l2.
Proof.
  unfold total_detections.
  induction l1 as [|[z v s|z n] l1 IH]; cbn [app fold_right];
    rewrite ?IH; lia.
Qed.

Lemma detections_of_zone (zone : Zone) (ds : list DetectionDict) :
  filter is_detection (map (fun d => Detection zone (type d) (speed d)) ds)
  = map (fun d => Detection zone (type d) (speed d)) ds
  /\ total_detections (map (fun d => Detection zone (type d) (speed d)) ds)
     = 0.
Proof.
  induction ds as [|d ds [IHf IHt]]; [split; reflexivity|].
  cbn [map filter is_detection]. rewrite IHf. split; [reflexivity|].
  exact IHt.
Qed.

Lemma log_zone_counts (entry : Zone * list DetectionDict) :
  filter is_detection (log_zone entry)
  = map (fun d => Detection (fst entry) (type d) (speed d)) (snd entry)
  /\ total_detections (log_zone entry) = Z.of_nat (List.length (snd entry)).
Proof.
  unfold log_zone.
  destruct (detections_of_zone (fst entry) (snd entry)) as [Hf Ht].
  rewrite filter_app, total_detections_app, Hf, Ht.
  cbn [filter is_detection]. rewrite app_nil_r. split; [reflexivity|].
  unfold total_detections. cbn [fold_right]. lia.
Qed.

(** The log holds one [Detection] per detection, and the [num_detections]
    of its [Detections] entries add up to the number of detections. *)
Lemma log_counts (detections : list (Zone * list DetectionDict)) :
  List.length (filter is_detection (flat_map log_zone detections))
  = group_sizes detections
  /\ total_detections (flat_map log_zone detections)
     = Z.of_nat (group_sizes detections).
Proof.
  induction detections as [|entry detections [IHf IHt]].
  - split; reflexivity.
  - destruct (log_zone_counts entry) as [Hf Ht].
    cbn [flat_map]. unfold group_sizes in *. cbn [fold_right].
    rewrite filter_app, length_app, Hf, length_map, IHf.
    rewrite total_detections_app, Ht, IHt. split; lia.
Qed.

End MeasurementsCell.

(** ** What the cells compute *)

Section Cells.

Import GettingStarted.









End Cells.

(** ** Properties a test can assert *)

Section Testable.

Import GettingStarted.

Lemma MyCell_added_and_counted :
  testable_property
    (fun request : Drivers.MyState.t * Drivers.MyParameters.t
                   * Drivers.MyInputs.t =>
       let '(state, parameters, inputs) := request in
       Drivers.MyCell.call state parameters inputs)
    added_and_counted.
Proof.
  split.
  - intros [[state parameters] inputs]. cbn. now rewrite !Z.eqb_refl.
  - exists (Drivers.MyState.default, Drivers.MyParameters.default,
            {| Drivers.MyInputs.integer := 1 |}),
      ({| Drivers.MyOutputs.integer := 1; Drivers.MyOutputs.counter := 0 |},
       Drivers.MyState.default).
    reflexivity.
Qed.

(** C3 (amended): properties of intended behaviour that a test can assert
    do follow from the notebooks.  Each [call] satisfies a relation between
    its inputs and outputs that a test can check and that an arbitrary
    output would not satisfy: the sum of SummatorCell never exceeds the
    threshold, the product of MultiplierCell is the product of its
    operands, BenchmarkCell adds one to the counter whenever it returns,
    and the stateful MyCell adds the adder and counts the call. *)
Theorem cells_have_testable_properties :
  testable_property
    (fun request => SummatorCell.call (fst request) (snd request))
    sum_within_threshold
  /\ testable_property
       (fun request => MultiplierCell.call (fst request) (snd request))
       product_of_operands
  /\ (forall (px : Type) (half : px -> px) sleep,
         testable_property
           (fun request =>
              RayRuntime.BenchmarkCell.call half sleep (fst request)
                (snd request))
           counter_incremented)
  /\ testable_property
       (fun request : Drivers.MyState.t * Drivers.MyParameters.t
                      * Drivers.MyInputs.t =>
          let '(state, parameters, inputs) := request in
          Drivers.MyCell.call state parameters inputs)
       added_and_counted.
Proof.
  split; [|split; [|split]].
  - split.
    + intros [parameters inputs]. unfold sum_within_threshold. cbn.
      now rewrite fmin_not_above.
    + exists ({| SummatorParameters.threshold := 1%float |},
              {| SummatorInputs.op_1 := 1%float;
                 SummatorInputs.op_2 := 1%float |}),
        {| SummatorOutputs.sum := 2%float |}.
      reflexivity.
  - split.
    + intros [parameters inputs]. unfold product_of_operands. cbn.
      now apply FloatAxioms.Leibniz.eqb_spec.
    + exists (MultiplierParameters.default,
              {| MultiplierInputs.op_1 := 2%float;
                 MultiplierInputs.op_2 := 3%float |}),
        {| MultiplierOutputs.product := 5%float |}.
      reflexivity.
  - intros px half sleep. split.
    + intros [parameters inputs]. cbn [fst snd].
      destruct (RayRuntime.BenchmarkCell.call half sleep parameters inputs)
        as [e|outputs] eqn:E; [reflexivity|].
      destruct (BenchmarkCell_call_returns half sleep _ _ _ E) as [Hc _].
      unfold counter_incremented. cbn [snd]. rewrite Hc. apply Z.eqb_refl.
    + exists (RayRuntime.BenchmarkParameters.default,
              {| RayRuntime.BenchmarkInputs.image_in := Image3D [];
                 RayRuntime.BenchmarkInputs.counter_in := 0 |}),
        (inr {| RayRuntime.BenchmarkOutputs.image_out := Image3D [];
                RayRuntime.BenchmarkOutputs.counter_out := 0 |}).
      reflexivity.
  - exact MyCell_added_and_counted.
Qed.

(** C3 as stated fails on the stateful MyCell: that its output is the input
    plus the adder and that its counter grows by one is a relation between
    inputs and outputs which every call satisfies, which a test can check,
    and which the output (1, 0) for the input 1 does not satisfy. *)
Lemma MyCell_call_is_testable :
  testable_property
    (fun request : Drivers.MyState.t * Drivers.MyParameters.t
                   * Drivers.MyInputs.t =>
       let '(state, parameters, inputs) := request in
       Drivers.MyCell.call state parameters inputs)
    added_and_counted
  /\ added_and_counted
       (Drivers.MyState.default, Drivers.MyParameters.default,
        {| Drivers.MyInputs.integer := 1 |})
       (Drivers.MyCell.call Drivers.MyState.default
          Drivers.MyParameters.default {| Drivers.MyInputs.integer := 1 |})
     = true
  /\ Drivers.MyCell.call Drivers.MyState.default Drivers.MyParameters.default
       {| Drivers.MyInputs.integer := 1 |}
     = ({| Drivers.MyOutputs.integer := 2; Drivers.MyOutputs.counter := 1 |},
        {| Drivers.MyState.counter := 1 |}).
Proof.
  split; [exact MyCell_added_and_counted|]. split; reflexivity.
Qed.

End Testable.

(** * Further properties of the notebooks' code *)

(** ** Indexing the datasets *)

Section DatasetItems.

(** Within range, indexing returns the element that a non-negative index, or
    an index counted from the end, designates. *)
Lemma getitem_value {A : Type} (l : list A) (index : Z) (d : A) :
  - Z.of_nat (List.length l) <= index < Z.of_nat (List.length l) ->
  Py.getitem l index
  = ret (nth (Z.to_nat (index mod Z.of_nat (List.length l))) l d).
Proof.
  intros H. unfold Py.getitem. cbv zeta.
  set (n := Z.of_nat (List.length l)) in *.
  set (i := if index <? 0 then index + n else index).
  assert (Hi : 0 <= i < n).
  { subst i. destruct (Z.ltb_spec index 0); lia. }
  assert (Hmod : index mod n = i).
  { subst i. destruct (Z.ltb_spec index 0).
    - rewrite <- (Z_mod_plus_full index 1 n). rewrite Z.mul_1_l.
      apply Z.mod_small. lia.
    - apply Z.mod_small. lia. }
  replace ((0 <=? i) && (i <? n)) with true
    by (symmetry; apply andb_true_iff; split;
        [apply Z.leb_le | apply Z.ltb_lt]; lia).
  rewrite Hmod.
  rewrite (nth_error_nth' l d) by lia. reflexivity.
Qed.

Lemma range_length (n : Z) : Z.of_nat (List.length (Py.range n)) = Z.max 0 n.
Proof. unfold Py.range. rewrite length_seq. lia. Qed.

Context {px : Type}.

Import Flows.

(** X1: item [index] of [DummyDataset(length)], for an index between
    [-length] and [length - 1], holds the image the constructor drew at
    position [index mod length] and the bounding box (0,0)-(1,1); every
    other index raises [IndexError], so a dataset of length zero or less
    has no item at all. *)
Theorem DummyDataset_getitem (random : nat -> Image px) (length index : Z) :
  (- length <= index < length ->
   DummyDataset.__getitem__ (DummyDataset.__init__ random length) index
   = ret ({| DummySamples.image := random (Z.to_nat (index mod length)) |},
          {| DummyAnnotations.bbox := unit_box |}))
  /\ (~ - length <= index < length ->
      DummyDataset.__getitem__ (DummyDataset.__init__ random length) index
      = raise IndexError).
Proof.
  unfold DummyDataset.__getitem__, DummyDataset.__init__.
  cbn [DummyDataset.images DummyDataset.bounding_boxes].
  split; intros H.
  - assert (Hlen : Z.of_nat (List.length (Py.range length)) = length)
      by (rewrite range_length; lia).
    rewrite (getitem_value _ _ (random O)),
            (getitem_value _ _ unit_box);
      rewrite ?length_map, ?Hlen; try lia.
    cbn [bind ret].
    assert (Hk : (Z.to_nat (index mod length) < Z.to_nat length)%nat).
    { pose proof (Z.mod_pos_bound index length). lia. }
    unfold Py.range.
    rewrite (map_nth random (seq 0 (Z.to_nat length)) O).
    rewrite seq_nth by exact Hk.
    replace (nth _ (map _ _) unit_box) with unit_box; [reflexivity|].
    symmetry.
    generalize (seq 0 (Z.to_nat length)) (Z.to_nat (index mod length)).
    intros l. induction l as [|a l IH]; intros [|k]; cbn; auto.
  - rewrite getitem_out_of_range; [reflexivity|].
    rewrite length_map, range_length. lia.
Qed.

Import Trtis.

(** X2: with as many labels as images, item [index] of a
    [FashionMNISTDataset], for an index between [-len] and [len - 1], is
    the two-axis image at position [index mod len] with the label at the
    same position. *)
Theorem FashionMNISTDataset_getitem_aligned
    (images : list (list (list px))) (labels : list Integer) (index : Z) :
  List.length images = List.length labels ->
  - Z.of_nat (List.length images) <= index < Z.of_nat (List.length images) ->
  FashionMNISTDataset.__getitem__
    (FashionMNISTDataset.__init__ images labels) index
  = ret ({| ImageClassificationInputs.image :=
              Image2D (nth (Z.to_nat (index mod Z.of_nat (List.length images)))
                         images []) |},
         {| ImageClassificationOutputs.label :=
              nth (Z.to_nat (index mod Z.of_nat (List.length images)))
                labels 0 |}).
Proof.
  intros Hlen H.
  unfold FashionMNISTDataset.__getitem__, FashionMNISTDataset.__init__.
  cbn [FashionMNISTDataset.images FashionMNISTDataset.labels].
  rewrite (getitem_value images index []) by exact H.
  rewrite (getitem_value labels index 0) by (rewrite <- Hlen; exact H).
  rewrite <- Hlen. reflexivity.
Qed.

End DatasetItems.

Lemma FashionMNISTDataset_getitem_aligned_witness :
  Trtis.FashionMNISTDataset.__getitem__
    (Trtis.FashionMNISTDataset.__init__ [[[1; 2]]; [[3; 4]]; [[5; 6]]] [7; 8; 9])
    (-1)
  = ret ({| Trtis.ImageClassificationInputs.image := Image2D [[5; 6]] |},
         {| Trtis.ImageClassificationOutputs.label := 9 |}).
Proof.
  apply (FashionMNISTDataset_getitem_aligned
           [[[1; 2]]; [[3; 4]]; [[5; 6]]] [7; 8; 9] (-1)).
  - reflexivity.
  - cbn. lia.
Defined.


Section DatasetEdges.

Context {px : Type}.

Import Trtis.

Lemma last_nth {A : Type} (l : list A) (d : A) :
  nth (List.length l - 1) l d = last l d.
Proof.
  induction l as [|a [|b l] IH]; try reflexivity.
  cbn [List.length last] in *. rewrite <- IH.
  replace (S (S (List.length l)) - 1)%nat with (S (S (List.length l) - 1))
    by lia.
  reflexivity.
Qed.

(** X3: a [FashionMNISTDataset] built with fewer labels than images
    reports the number of images as its length, raises [IndexError] at
    the first index that has no label, which is below that length, and
    pairs, at index [-1], the last image with the last label, which is
    the label of an earlier image. *)
Theorem FashionMNISTDataset_short_labels
    (images : list (list (list px))) (labels : list Integer) :
  (0 < List.length labels < List.length images)%nat ->
  let self := FashionMNISTDataset.__init__ images labels in
  FashionMNISTDataset.__len__ self = Z.of_nat (List.length images)
  /\ FashionMNISTDataset.__getitem__ self (Z.of_nat (List.length labels))
     = raise IndexError
  /\ FashionMNISTDataset.__getitem__ self (-1)
     = ret ({| ImageClassificationInputs.image := Image2D (last images []) |},
            {| ImageClassificationOutputs.label :=
                 nth (List.length labels - 1) labels 0 |}).
Proof.
  intros H self. subst self.
  unfold FashionMNISTDataset.__getitem__, FashionMNISTDataset.__len__,
    FashionMNISTDataset.__init__.
  cbn [FashionMNISTDataset.images FashionMNISTDataset.labels].
  split; [reflexivity|]. split.
  - destruct (getitem_in_range images (Z.of_nat (List.length labels)))
      as [image ->]; [lia|].
    cbn [bind ret]. rewrite getitem_out_of_range by lia. reflexivity.
  - rewrite (getitem_value images (-1) []) by lia.
    rewrite (getitem_value labels (-1) 0) by lia.
    cbn [bind ret].
    replace (-1 mod Z.of_nat (List.length images))
      with (Z.of_nat (List.length images) - 1).
    2:{ apply (Z.mod_unique_pos (-1) _ (-1)); lia. }
    replace (-1 mod Z.of_nat (List.length labels))
      with (Z.of_nat (List.length labels) - 1).
    2:{ apply (Z.mod_unique_pos (-1) _ (-1)); lia. }
    replace (Z.to_nat (Z.of_nat (List.length images) - 1))
      with (List.length images - 1)%nat by lia.
    replace (Z.to_nat (Z.of_nat (List.length labels) - 1))
      with (List.length labels - 1)%nat by lia.
    rewrite <- (last_nth images []). reflexivity.
Qed.

Lemma concat_singletons (row : list px) :
  List.concat (map (fun sample => [sample]) row) = row.
Proof. induction row as [|s row IH]; cbn; congruence. Qed.

(** X4: [_unpack_example] returns an image of three axes with the samples
    of the example's image in the same order and the example's label; an
    image of two axes keeps its rows and columns and gets one channel per
    pixel, an image of three axes is returned as it is. *)
Theorem unpack_example_three_axes
    (example : ImageClassificationSamples px * ImageClassificationAnnotations) :
  let image := fst (ImageClassificationCell._unpack_example example) in
  let label := snd (ImageClassificationCell._unpack_example example) in
  axes image = 3%nat
  /\ samples_of image
     = samples_of (ImageClassificationInputs.image (fst example))
  /\ label = ImageClassificationOutputs.label (snd example)
  /\ ImageClassificationCell.atleast_3d image = image
  /\ (forall rows,
        ImageClassificationInputs.image (fst example) = Image2D rows ->
        exists rows3,
          image = Image3D rows3
          /\ map (map (@List.length px)) rows3
             = map (map (fun _ => 1%nat)) rows)
  /\ (forall rows,
        ImageClassificationInputs.image (fst example) = Image3D rows ->
        image = Image3D rows).
Proof.
  destruct example as [[image] [label]].
  unfold ImageClassificationCell._unpack_example.
  cbn [fst snd ImageClassificationInputs.image
       ImageClassificationOutputs.label].
  destruct image as [rows|rows]; cbn [ImageClassificationCell.atleast_3d axes
                                       samples_of].
  - repeat split; try discriminate.
    + induction rows as [|row rows IH]; [reflexivity|].
      cbn [map List.concat]. rewrite concat_app, IH, concat_singletons.
      reflexivity.
    + intros rows' E. injection E as <-. eexists. split; [reflexivity|].
      rewrite map_map. apply map_ext. intros row.
      rewrite map_map. reflexivity.
  - repeat split; try discriminate. intros rows' E. exact E.
Qed.

(** X15: what training reads from a dataset: with as many labels as
    images, unpacking item [index] of a [FashionMNISTDataset], for an
    index within range, gives the image at position [index mod len] with
    each of its samples in a channel of its own, and the label at that
    position. *)
Theorem FashionMNISTDataset_item_unpacked
    (images : list (list (list px))) (labels : list Integer) (index : Z) :
  List.length images = List.length labels ->
  - Z.of_nat (List.length images) <= index < Z.of_nat (List.length images) ->
  exists item,
    FashionMNISTDataset.__getitem__
      (FashionMNISTDataset.__init__ images labels) index = ret item
    /\ ImageClassificationCell._unpack_example item
       = (Image3D
            (map (map (fun sample => [sample]))
               (nth (Z.to_nat (index mod Z.of_nat (List.length images)))
                  images [])),
          nth (Z.to_nat (index mod Z.of_nat (List.length images))) labels 0).
Proof.
  intros Hlen H.
  unfold FashionMNISTDataset.__getitem__, FashionMNISTDataset.__init__.
  cbn [FashionMNISTDataset.images FashionMNISTDataset.labels].
  rewrite (getitem_value images index []) by exact H.
  rewrite (getitem_value labels index 0) by (rewrite <- Hlen; exact H).
  rewrite <- Hlen. cbn [bind ret].
  eexists. split; reflexivity.
Qed.

End DatasetEdges.

Lemma FashionMNISTDataset_item_unpacked_witness :
  exists item,
    Trtis.FashionMNISTDataset.__getitem__
      (Trtis.FashionMNISTDataset.__init__ [[[1; 2]]; [[3; 4]]; [[5; 6]]]
         [7; 8; 9]) 1
    = ret item
    /\ Trtis.ImageClassificationCell._unpack_example item
       = (Image3D [[[3]; [4]]], 8).
Proof.
  apply (FashionMNISTDataset_item_unpacked
           [[[1; 2]]; [[3; 4]]; [[5; 6]]] [7; 8; 9] 1).
  - reflexivity.
  - cbn. lia.
Defined.

Lemma FashionMNISTDataset_short_labels_witness :
  let self := Trtis.FashionMNISTDataset.__init__
                [[[1; 2]]; [[3; 4]]; [[5; 6]]] [7; 8] in
  Trtis.FashionMNISTDataset.__len__ self = 3
  /\ Trtis.FashionMNISTDataset.__getitem__ self 2 = raise IndexError
  /\ Trtis.FashionMNISTDataset.__getitem__ self (-1)
     = ret ({| Trtis.ImageClassificationInputs.image := Image2D [[5; 6]] |},
            {| Trtis.ImageClassificationOutputs.label := 8 |}).
Proof.
  apply (FashionMNISTDataset_short_labels
           [[[1; 2]]; [[3; 4]]; [[5; 6]]] [7; 8]).
  cbn. lia.
Defined.

(** ** SummatorCell on numbers that do not compare *)

Section SummatorEdges.

Import GettingStarted.

Lemma SFcompare_refl (x : spec_float) :
  x <> S754_nan -> SFcompare x x = Some Eq.
Proof.
  destruct x as [s|s| |s m e]; cbn; try congruence.
  - destruct s; reflexivity.
  - intros _. destruct s; rewrite Z.compare_refl;
      fold (Pos.compare m m); rewrite Pos.compare_refl; reflexivity.
Qed.

Lemma is_nan_Prim2SF (x : float) : is_nan x = true -> Prim2SF x = S754_nan.
Proof.
  unfold is_nan. rewrite eqb_spec. unfold SFeqb. intros H.
  destruct (Prim2SF x) as [s|s| |s m e] eqn:E; try reflexivity;
    rewrite SFcompare_refl in H by discriminate; discriminate.
Qed.

(** A NaN is not below any number, and no number is below a NaN. *)
Lemma ltb_nan (x y : float) :
  is_nan x = true -> (x <? y)%float = false /\ (y <? x)%float = false.
Proof.
  intros H. apply is_nan_Prim2SF in H. rewrite !ltb_spec. unfold SFltb.
  rewrite H. split; [reflexivity|].
  destruct (Prim2SF y) as [s|s| |s m e]; reflexivity.
Qed.

Lemma ltb_infinity (y : float) : (infinity <? y)%float = false.
Proof.
  rewrite ltb_spec. unfold SFltb.
  replace (Prim2SF infinity) with (S754_infinity false) by reflexivity.
  destruct (Prim2SF y) as [s|s| |s m e]; try reflexivity.
  destruct s; reflexivity.
Qed.

(** X5: SummatorCell.call caps nothing when the numbers do not compare:
    with a NaN threshold, or with the threshold [inf], the sum output is
    [op_1 + op_2]; and when [op_1 + op_2] is a NaN the sum output is that
    NaN whatever the threshold, which happens for operands that are not
    NaN themselves, such as [inf] and [-inf] under the default
    threshold. *)
Theorem SummatorCell_call_uncapped (parameters : SummatorParameters.t)
    (inputs : SummatorInputs.t) :
  let a := SummatorInputs.op_1 inputs in
  let b := SummatorInputs.op_2 inputs in
  let t := SummatorParameters.threshold parameters in
  let s := SummatorOutputs.sum (SummatorCell.call parameters inputs) in
  (is_nan t = true -> s = (a + b)%float)
  /\ (t = infinity -> s = (a + b)%float)
  /\ (is_nan (a + b)%float = true -> s = (a + b)%float /\ is_nan s = true)
  /\ is_nan
       (SummatorOutputs.sum
          (SummatorCell.call SummatorParameters.default
             {| SummatorInputs.op_1 := infinity;
                SummatorInputs.op_2 := neg_infinity |})) = true.
Proof.
  cbv zeta. unfold SummatorCell.call at 1 2 3 4.
  cbn [SummatorOutputs.sum]. unfold Py.fmin, Py.min2.
  split; [|split; [|split]].
  - intros H. destruct (ltb_nan _ (SummatorInputs.op_1 inputs
                                   + SummatorInputs.op_2 inputs)%float H)
      as [-> _].
    reflexivity.
  - intros ->. rewrite ltb_infinity. reflexivity.
  - intros H.
    destruct (ltb_nan _ (SummatorParameters.threshold parameters) H)
      as [_ ->].
    split; [reflexivity | exact H].
  - reflexivity.
Qed.

End SummatorEdges.

(** ** The log of the measurements cell, zone by zone *)

Section MeasurementsLog.

Import Measurements.

Lemma Zone_eqb_eq (a b : Zone) : Zone_eqb a b = true <-> a = b.
Proof. destruct a, b; cbn; split; congruence. Qed.

Lemma Zone_eqb_neq (a b : Zone) : Zone_eqb a b = false <-> a <> b.
Proof. destruct a, b; cbn; split; congruence. Qed.

Lemma not_key (zone : Zone) (keys : list Zone) :
  existsb (Zone_eqb zone) keys = false <-> ~ In zone keys.
Proof.
  split.
  - intros H Hin. assert (E : existsb (Zone_eqb zone) keys = true).
    { apply existsb_exists. exists zone. split; [exact Hin|].
      now apply Zone_eqb_eq. }
    congruence.
  - intros H. destruct (existsb (Zone_eqb zone) keys) eqn:E; [|reflexivity].
    apply existsb_exists in E. destruct E as (z & Hin & E).
    apply Zone_eqb_eq in E. subst z. contradiction.
Qed.

Lemma run_dummy_detector_snoc (draws : list Draw) (dr : Draw) :
  run_dummy_detector (draws ++ [dr])
  = append_to (draw_zone dr) (detected dr) (run_dummy_detector draws).
Proof. unfold run_dummy_detector. now rewrite fold_left_app. Qed.

Lemma zone_draws_snoc (zone : Zone) (draws : list Draw) (dr : Draw) :
  zone_draws zone (draws ++ [dr])
  = (zone_draws zone draws
     ++ (if Zone_eqb (draw_zone dr) zone then [dr] else []))%list.
Proof.
  unfold zone_draws. rewrite filter_app. cbn [filter].
  destruct (Zone_eqb (draw_zone dr) zone); reflexivity.
Qed.

(** Appending to the dictionary keeps the zones in it and adds the new zone
    after them. *)
Lemma append_to_keys (zone : Zone) (d : DetectionDict)
    (detections : list (Zone * list DetectionDict)) :
  map fst (append_to zone d detections)
  = if existsb (Zone_eqb zone) (map fst detections)
    then map fst detections
    else (map fst detections ++ [zone])%list.
Proof.
  induction detections as [|[z ds] detections IH]; [reflexivity|].
  cbn [append_to map fst existsb].
  destruct (Zone_eqb z zone) eqn:E.
  - apply Zone_eqb_eq in E. subst z.
    replace (Zone_eqb zone zone) with true
      by (symmetry; now apply Zone_eqb_eq).
    reflexivity.
  - replace (Zone_eqb zone z) with false.
    2:{ symmetry. apply Zone_eqb_neq. apply Zone_eqb_neq in E. congruence. }
    cbn [orb map fst]. rewrite IH.
    destruct (existsb _ _); reflexivity.
Qed.

Lemma append_to_NoDup (zone : Zone) (d : DetectionDict)
    (detections : list (Zone * list DetectionDict)) :
  NoDup (map fst detections) ->
  NoDup (map fst (append_to zone d detections)).
Proof.
  intros H. rewrite append_to_keys.
  destruct (existsb _ _) eqn:E; [exact H|].
  apply not_key in E. apply NoDup_app; [exact H | repeat constructor; tauto|].
  intros a Ha [<-|[]]. contradiction.
Qed.

Lemma append_to_Forall (Q : Zone * list DetectionDict -> Prop) (zone : Zone)
    (d : DetectionDict) (detections : list (Zone * list DetectionDict)) :
  NoDup (map fst detections) ->
  (forall ds, In (zone, ds) detections -> Q (zone, (ds ++ [d])%list)) ->
  (forall e, In e detections -> fst e <> zone -> Q e) ->
  (~ In zone (map fst detections) -> Q (zone, [d])) ->
  Forall Q (append_to zone d detections).
Proof.
  induction detections as [|[z ds] detections IH];
    intros Hnd Hsame Hother Hnew.
  - repeat constructor. apply Hnew. tauto.
  - cbn [append_to]. cbn [map fst] in Hnd. inversion Hnd as [|? ? Hz Hnd'].
    subst. destruct (Zone_eqb z zone) eqn:E.
    + apply Zone_eqb_eq in E. subst z. constructor.
      * apply Hsame. now left.
      * apply Forall_forall. intros e He. apply Hother; [now right|].
        intros <-. apply Hz. now apply in_map.
    + apply Zone_eqb_neq in E. constructor.
      * apply Hother; [now left | exact E].
      * apply IH; auto.
        -- intros ds' H'. apply Hsame. now right.
        -- intros e He. apply Hother. now right.
        -- intros H'. apply Hnew. cbn [map fst]. intros [<-|H'']; tauto.
Qed.

(** What the detector loop keeps true of its dictionary: a zone has one
    entry at most, an entry holds the detections of its zone in the order
    drawn and is not empty, and a zone without entry had no draw. *)
Lemma run_dummy_detector_groups (draws : list Draw) :
  NoDup (map fst (run_dummy_detector draws))
  /\ Forall (fun e => snd e = map detected (zone_draws (fst e) draws)
                      /\ snd e <> [])
       (run_dummy_detector draws)
  /\ (forall zone, ~ In zone (map fst (run_dummy_detector draws)) ->
                   zone_draws zone draws = []).
Proof.
  induction draws as [|dr draws (Hnd & Hall & Hnone)] using rev_ind.
  - repeat split; [constructor | constructor].
  - rewrite run_dummy_detector_snoc.
    pose proof (proj1 (Forall_forall _ _) Hall) as Hin.
    split; [now apply append_to_NoDup|]. split.
    + apply append_to_Forall; [exact Hnd| | |].
      * intros ds H. destruct (Hin _ H) as [E _]. cbn [fst snd] in *.
        rewrite zone_draws_snoc.
        replace (Zone_eqb (draw_zone dr) (draw_zone dr)) with true
          by (symmetry; now apply Zone_eqb_eq).
        rewrite map_app, <- E. split; [reflexivity|].
        intros H'. now apply app_eq_nil in H'.
      * intros e He Hne. destruct (Hin _ He) as [E Hnil].
        rewrite zone_draws_snoc.
        replace (Zone_eqb (draw_zone dr) (fst e)) with false
          by (symmetry; apply Zone_eqb_neq; congruence).
        rewrite app_nil_r. tauto.
      * intros H. cbn [fst snd]. rewrite zone_draws_snoc, (Hnone _ H).
        replace (Zone_eqb (draw_zone dr) (draw_zone dr)) with true
          by (symmetry; now apply Zone_eqb_eq).
        split; [reflexivity | discriminate].
    + intros zone H. rewrite append_to_keys in H. rewrite zone_draws_snoc.
      destruct (existsb _ _) eqn:E.
      * rewrite (Hnone _ H).
        destruct (Zone_eqb (draw_zone dr) zone) eqn:E'; [|reflexivity].
        apply Zone_eqb_eq in E'. subst zone.
        apply existsb_exists in E. destruct E as (z & Hz & E).
        apply Zone_eqb_eq in E. subst z. contradiction.
      * rewrite in_app_iff in H. cbn [In] in H.
        rewrite Hnone by tauto.
        replace (Zone_eqb (draw_zone dr) zone) with false; [reflexivity|].
        symmetry. apply Zone_eqb_neq. intros <-. tauto.
Qed.

Lemma log_zone_in_zone (zone : Zone) (entry : Zone * list DetectionDict) :
  filter (in_zone zone) (log_zone entry)
  = if Zone_eqb (fst entry) zone then log_zone entry else [].
Proof.
  unfold log_zone. rewrite filter_app.
  assert (H : filter (in_zone zone)
                (map (fun d => Detection (fst entry) (type d) (speed d))
                   (snd entry))
              = if Zone_eqb (fst entry) zone
                then map (fun d => Detection (fst entry) (type d) (speed d))
                       (snd entry)
                else []).
  { induction (snd entry) as [|d ds IH].
    - now destruct (Zone_eqb (fst entry) zone).
    - cbn [map filter]. unfold in_zone at 1. cbn [zone_of]. rewrite IH.
      now destruct (Zone_eqb (fst entry) zone). }
  rewrite H. cbn [filter]. unfold in_zone. cbn [zone_of].
  now destruct (Zone_eqb (fst entry) zone).
Qed.

Lemma logged_detections_of (zone : Zone) (draws : list Draw) :
  map (fun d => Detection zone (type d) (speed d))
    (map detected (zone_draws zone draws))
  = map logged_detection (zone_draws zone draws).
Proof.
  rewrite map_map. apply map_ext_in. intros dr H.
  apply filter_In in H. destruct H as [_ H]. apply Zone_eqb_eq in H.
  unfold logged_detection. rewrite H. reflexivity.
Qed.

(** X6: for each zone, the measurements MyCell.call logs for it are, when
    no draw of the detector fell into the zone, none, and else one
    [Detection] per draw of the zone, in the order drawn, with the drawn
    vehicle type and the speed [random * 100], followed by one
    [Detections] whose [num_detections] is the number of those draws. *)
Theorem MyCell_call_log_by_zone (draws : list Draw)
    (parameters : MyParameters.t) (inputs : MyInputs.t) (zone : Zone) :
  filter (in_zone zone) (fst (MyCell.call draws parameters inputs))
  = zone_log zone draws.
Proof.
  unfold MyCell.call. cbn [fst].
  destruct (run_dummy_detector_groups draws) as (Hnd & Hall & Hnone).
  revert Hnd Hall Hnone.
  generalize (run_dummy_detector draws) as detections.
  intros detections Hnd Hall Hnone.
  assert (H : filter (in_zone zone) (flat_map log_zone detections)
              = if existsb (Zone_eqb zone) (map fst detections)
                then zone_log zone draws else []).
  { clear Hnone.
    induction detections as [|[z ds] detections IH]; [reflexivity|].
    cbn [flat_map map fst existsb]. rewrite filter_app, log_zone_in_zone.
    cbn [map fst] in Hnd. inversion Hnd as [|? ? Hz Hnd']. subst.
    inversion Hall as [|? ? [E Hnil] Hall']. subst. cbn [fst snd] in *.
    rewrite IH by assumption.
    destruct (Zone_eqb z zone) eqn:Ez.
    - apply Zone_eqb_eq in Ez. subst z.
      replace (Zone_eqb zone zone) with true
        by (symmetry; now apply Zone_eqb_eq).
      cbn [orb]. apply not_key in Hz. rewrite Hz, app_nil_r.
      unfold log_zone, zone_log. cbn [fst snd].
      rewrite E in Hnil |- *. rewrite logged_detections_of, length_map.
      destruct (zone_draws zone draws); [contradiction | reflexivity].
    - replace (Zone_eqb zone z) with false.
      2:{ symmetry. apply Zone_eqb_neq. apply Zone_eqb_neq in Ez.
          congruence. }
      reflexivity. }
  rewrite H. destruct (existsb _ _) eqn:E; [reflexivity|].
  apply not_key in E. unfold zone_log. now rewrite (Hnone _ E).
Qed.

Lemma summaries_of_log (detections : list (Zone * list DetectionDict)) :
  summaries (flat_map log_zone detections)
  = map (fun e => Detections (fst e) (Z.of_nat (List.length (snd e))))
      detections.
Proof.
  unfold summaries.
  induction detections as [|e detections IH]; [reflexivity|].
  cbn [flat_map map]. rewrite filter_app, IH. unfold log_zone at 1.
  rewrite filter_app. cbn [filter is_detection negb].
  replace (filter _ (map _ (snd e))) with (@nil Measurement); [reflexivity|].
  induction (snd e) as [|d ds IHd]; [reflexivity | exact IHd].
Qed.

Lemma zones_at_most_two (zones : list Zone) :
  NoDup zones -> (List.length zones <= 2)%nat.
Proof.
  intros H. apply (NoDup_incl_length (l' := [zone1; zone2]) H).
  intros [] _; cbn; tauto.
Qed.

(** X7: for the two to four draws of the detector, the log of MyCell.call
    holds one [Detections] summary per zone that had a draw: one or two
    of them, for different zones, each counting at least one detection;
    the log holds as many measurements as there were draws plus those
    summaries, that is between three and six, and it ends with a
    summary. *)
Theorem MyCell_call_log_shape (draws : list Draw)
    (parameters : MyParameters.t) (inputs : MyInputs.t) :
  (2 <= List.length draws <= 4)%nat ->
  let log := fst (MyCell.call draws parameters inputs) in
  (1 <= List.length (summaries log) <= 2)%nat
  /\ NoDup (map zone_of (summaries log))
  /\ Forall (fun m => match m with
                      | Detections _ n => 1 <= n
                      | Detection _ _ _ => True
                      end) log
  /\ List.length log
     = (List.length draws + List.length (summaries log))%nat
  /\ (3 <= List.length log <= 6)%nat
  /\ exists zone n, last log (Detections zone1 0) = Detections zone n.
Proof.
  intros Hdraws log. subst log. unfold MyCell.call. cbn [fst].
  destruct (run_dummy_detector_groups draws) as (Hnd & Hall & _).
  pose proof (run_dummy_detector_sizes draws) as Hsizes.
  pose proof (log_counts (run_dummy_detector draws)) as [Hdet _].
  pose proof (filter_length is_detection
                (flat_map log_zone (run_dummy_detector draws))) as Hsplit.
  fold (summaries (flat_map log_zone (run_dummy_detector draws))) in Hsplit.
  rewrite Hdet, Hsizes in Hsplit.
  rewrite summaries_of_log in *. rewrite length_map in *.
  revert Hnd Hall Hsizes Hsplit.
  generalize (run_dummy_detector draws) as detections.
  intros detections Hnd Hall Hsizes Hsplit.
  assert (Hlen : (1 <= List.length detections <= 2)%nat).
  { split.
    - destruct detections; [cbn in Hsizes; lia | cbn; lia].
    - rewrite <- (length_map fst). now apply zones_at_most_two. }
  split; [exact Hlen|]. split.
  { rewrite map_map. cbn [zone_of]. exact Hnd. }
  split.
  { apply Forall_forall. intros [z v s|z n] Hin; [exact I|].
    assert (Hs : In (Detections z n)
                   (summaries (flat_map log_zone detections))).
    { apply filter_In. split; [exact Hin | reflexivity]. }
    rewrite summaries_of_log in Hs. apply in_map_iff in Hs.
    destruct Hs as (e & E & He). injection E as _ <-.
    destruct (proj1 (Forall_forall _ _) Hall e He) as [_ Hnil].
    destruct (snd e); [contradiction | cbn; lia]. }
  split; [lia|]. split; [lia|].
  destruct (exists_last (l := detections)) as (detections' & e & ->).
  { intros ->. cbn in Hlen. lia. }
  rewrite flat_map_app. cbn [flat_map]. rewrite app_nil_r.
  unfold log_zone at 2. rewrite app_assoc, last_last. eauto.
Qed.

End MeasurementsLog.

Lemma MyCell_call_log_by_zone_witness :
  filter (in_zone Measurements.zone2)
    (fst (Measurements.MyCell.call
            [ {| Measurements.draw_zone := Measurements.zone2;
                 Measurements.draw_random := 0.5%float;
                 Measurements.draw_type := Measurements.car |};
              {| Measurements.draw_zone := Measurements.zone1;
                 Measurements.draw_random := 0.25%float;
                 Measurements.draw_type := Measurements.truck |};
              {| Measurements.draw_zone := Measurements.zone2;
                 Measurements.draw_random := 0.75%float;
                 Measurements.draw_type := Measurements.motorbike |} ]
            (Measurements.MyParameters.Build_t)
            {| Measurements.MyInputs.dummy := 0 |}))
  = [Measurements.Detection Measurements.zone2 Measurements.car 50%float;
     Measurements.Detection Measurements.zone2 Measurements.motorbike
       75%float;
     Measurements.Detections Measurements.zone2 2].
Proof.
  apply (MyCell_call_log_by_zone
           [ {| Measurements.draw_zone := Measurements.zone2;
                Measurements.draw_random := 0.5%float;
                Measurements.draw_type := Measurements.car |};
             {| Measurements.draw_zone := Measurements.zone1;
                Measurements.draw_random := 0.25%float;
                Measurements.draw_type := Measurements.truck |};
             {| Measurements.draw_zone := Measurements.zone2;
                Measurements.draw_random := 0.75%float;
                Measurements.draw_type := Measurements.motorbike |} ]
           (Measurements.MyParameters.Build_t)
           {| Measurements.MyInputs.dummy := 0 |} Measurements.zone2).
Defined.

Lemma MyCell_call_log_shape_witness :
  let log :=
    fst (Measurements.MyCell.call
           [ {| Measurements.draw_zone := Measurements.zone2;
                Measurements.draw_random := 0.5%float;
                Measurements.draw_type := Measurements.car |};
             {| Measurements.draw_zone := Measurements.zone1;
                Measurements.draw_random := 0.25%float;
                Measurements.draw_type := Measurements.truck |};
             {| Measurements.draw_zone := Measurements.zone2;
                Measurements.draw_random := 0.75%float;
                Measurements.draw_type := Measurements.motorbike |} ]
           (Measurements.MyParameters.Build_t)
           {| Measurements.MyInputs.dummy := 0 |}) in
  (1 <= List.length (summaries log) <= 2)%nat
  /\ NoDup (map zone_of (summaries log))
  /\ Forall (fun m => match m with
                      | Measurements.Detections _ n => 1 <= n
                      | Measurements.Detection _ _ _ => True
                      end) log
  /\ List.length log = (3 + List.length (summaries log))%nat
  /\ (3 <= List.length log <= 6)%nat
  /\ exists zone n,
       last log (Measurements.Detections Measurements.zone1 0)
       = Measurements.Detections zone n.
Proof.
  apply (MyCell_call_log_shape
           [ {| Measurements.draw_zone := Measurements.zone2;
                Measurements.draw_random := 0.5%float;
                Measurements.draw_type := Measurements.car |};
             {| Measurements.draw_zone := Measurements.zone1;
                Measurements.draw_random := 0.25%float;
                Measurements.draw_type := Measurements.truck |};
             {| Measurements.draw_zone := Measurements.zone2;
                Measurements.draw_random := 0.75%float;
                Measurements.draw_type := Measurements.motorbike |} ]).
  cbn. lia.
Defined.

(** ** The cell that removes a driver: what its handlers let through *)

Section RemoveDriver.

Import Drivers.

Context {Prediction : Type}.

Variable remove_driver : result unit.
Variable proc_predict : result Prediction.
Variable client_predict : result Prediction.
Variable client_wait : result unit.

(** X8: when the three guarded SDK calls raise nothing but the class
    their handler names, the cell ends as [proc.predict] ends: normally
    when it returns, having printed its result and the line that
    follows, and with its exception when it raises, having printed
    nothing but the line of the first handler. *)
Theorem RemoveDriverCell_ends_as_predict :
  (forall e, remove_driver = raise e -> exists msg, e = DriverNotFoundError msg) ->
  (forall e, client_predict = raise e -> exists msg, e = FastAPIClientError msg) ->
  (forall e, client_wait = raise e -> exists msg, e = FastAPIClientError msg) ->
  let cell := RemoveDriverCell.run remove_driver proc_predict client_predict
                client_wait in
  snd cell = (_ <- proc_predict ;; ret tt)
  /\ (forall r, proc_predict = ret r ->
        In (RemoveDriverCell.Manual_inference_still_possible r) (fst cell)
        /\ In RemoveDriverCell.Client_not_responding (fst cell))
  /\ (forall e, proc_predict = raise e ->
        forall line, In line (fst cell) ->
          exists msg, line = RemoveDriverCell.Could_not_remove_driver msg).
Proof.
  intros Hremove Hpredict Hwait cell. subst cell.
  assert (H1 : remove_driver = ret tt
               \/ exists msg, remove_driver = raise (DriverNotFoundError msg)).
  { destruct remove_driver as [e|[]]; [right | now left].
    destruct (Hremove e eq_refl) as [msg ->]. now exists msg. }
  assert (H2 : (exists r, client_predict = ret r)
               \/ exists msg, client_predict = raise (FastAPIClientError msg)).
  { destruct client_predict as [e|r]; [right | left; now exists r].
    destruct (Hpredict e eq_refl) as [msg ->]. now exists msg. }
  assert (H3 : client_wait = ret tt
               \/ exists msg, client_wait = raise (FastAPIClientError msg)).
  { destruct client_wait as [e|[]]; [right | now left].
    destruct (Hwait e eq_refl) as [msg ->]. now exists msg. }
  clear Hremove Hpredict Hwait.
  unfold RemoveDriverCell.run, RemoveDriverCell.seq_run,
    RemoveDriverCell.try_except, RemoveDriverCell.print_prediction.
  destruct H1 as [->|[m1 ->]], H2 as [[r2 ->]|[m2 ->]], H3 as [->|[m3 ->]];
    destruct proc_predict as [e|r]; cbn;
    (split; [reflexivity|]);
    (split;
     [intros r' E; try discriminate; injection E as <-; tauto
     |intros e' E line Hin; try discriminate;
      first [destruct Hin as [<-|[]]; eauto | destruct Hin]]).
Qed.

End RemoveDriver.

Lemma RemoveDriverCell_ends_as_predict_witness :
  let cell :=
    Drivers.RemoveDriverCell.run
      (raise (DriverNotFoundError "pid")) (ret 2)
      (raise (FastAPIClientError "no client")) (ret tt) in
  snd cell = (_ <- @ret Z 2 ;; ret tt)
  /\ (forall r, ret 2 = ret r ->
        In (Drivers.RemoveDriverCell.Manual_inference_still_possible r)
          (fst cell)
        /\ In Drivers.RemoveDriverCell.Client_not_responding (fst cell))
  /\ (forall e, @ret Z 2 = raise e ->
        forall line, In line (fst cell) ->
          exists msg,
            line = Drivers.RemoveDriverCell.Could_not_remove_driver msg).
Proof.
  apply (RemoveDriverCell_ends_as_predict
           (raise (DriverNotFoundError "pid")) (@ret Z 2)
           (raise (FastAPIClientError "no client")) (ret tt)).
  - intros e E. injection E as <-. now exists "pid"%string.
  - intros e E. injection E as <-. now exists "no client"%string.
  - intros e E. discriminate E.
Defined.

(** ** CustomDriver.run: what it predicts, prints and lets through *)

Section DriverRuns.

Import Drivers.

Context {Prediction Ports : Type}.
Variable predict : nat -> Integer -> result Prediction.
Variable fake : nat -> Integer.
Variable stop_called : nat -> bool.

(** The results of an undisturbed loop are the predictions of its turns,
    each on the fake input of its turn, in the order of the turns. *)
Lemma loop_results (turns : list nat) :
  forall (self : CustomDriver.t) (results rs : list Prediction),
    CustomDriver._running self = true ->
    (forall i, In i turns -> stop_called i = false) ->
    Forall2 (fun i r => predict i (fake i) = ret r) turns rs ->
    CustomDriver.loop (Ports := Ports) predict fake stop_called turns self
      results
    = ret (self, (results ++ rs)%list, []).
Proof.
  induction turns as [|i turns IH]; intros self results rs Hrun Hstop Hrs;
    inversion Hrs as [|? r ? rs' Hr Hrs']; subst.
  - cbn. now rewrite app_nil_r.
  - cbn [CustomDriver.loop].
    rewrite (Hstop i (or_introl eq_refl)), Hrun, Hr. cbn [negb bind ret].
    rewrite (IH self (results ++ [r])%list rs' Hrun); auto.
    + now rewrite <- app_assoc.
    + intros j Hj. apply Hstop. now right.
Qed.

(** The first prediction that raises ends the loop with its exception. *)
Lemma loop_fails (before : list nat) (k : nat) (after : list nat) :
  forall (self : CustomDriver.t) (results : list Prediction) (e : PyError),
    CustomDriver._running self = true ->
    (forall i, In i (before ++ [k]) -> stop_called i = false) ->
    (forall i, In i before -> exists r, predict i (fake i) = ret r) ->
    predict k (fake k) = raise e ->
    CustomDriver.loop (Ports := Ports) predict fake stop_called
      (before ++ k :: after) self results
    = raise e.
Proof.
  induction before as [|i before IH]; intros self results e Hrun Hstop Hpred Hk.
  - cbn [app CustomDriver.loop].
    rewrite (Hstop k (or_introl eq_refl)), Hrun, Hk. reflexivity.
  - cbn [app CustomDriver.loop].
    rewrite (Hstop i (or_introl eq_refl)), Hrun. cbn [negb].
    destruct (Hpred i (or_introl eq_refl)) as [r ->]. cbn [bind ret].
    apply IH; auto.
    + intros j Hj. apply Hstop. now right.
    + intros j Hj. apply Hpred. now right.
Qed.

(** X9: left alone, CustomDriver.run feeds the i-th fake integer to its
    i-th prediction, for each [i] below the number of predictions it was
    built with, and prints, between the two opening lines and the line of
    the average, the results of the first two predictions when there are
    two; with a number of predictions of zero or less it predicts nothing
    and prints the opening lines and the average over no prediction.  It
    is left running. *)
Theorem CustomDriver_run_results (self : CustomDriver.t) (resources : Ports)
    (results : list Prediction) :
  (forall i, stop_called i = false) ->
  Forall2 (fun i r => predict i (fake i) = ret r)
    (Py.range (CustomDriver._predictions self)) results ->
  CustomDriver.run predict fake stop_called self resources
  = ret ({| CustomDriver._predictions := CustomDriver._predictions self;
            CustomDriver._params := CustomDriver._params self;
            CustomDriver._running := true |},
         [CustomDriver.Starting_custom_driver;
          CustomDriver.Assigned_ports resources]
         ++ CustomDriver.first_two results
         ++ [CustomDriver.Average_time_over
               (Z.to_nat (CustomDriver._predictions self))])%list
  /\ (CustomDriver._predictions self <= 0 -> results = [])
  /\ (2 <= CustomDriver._predictions self ->
      exists r0 r1 rest,
        results = r0 :: r1 :: rest
        /\ predict 0%nat (fake 0%nat) = ret r0
        /\ predict 1%nat (fake 1%nat) = ret r1).
Proof.
  intros Hstop Hrs. split; [|split].
  - unfold CustomDriver.run. cbn [CustomDriver._predictions].
    rewrite (loop_results _ _ [] results); auto.
    cbn [bind ret app].
    apply Forall2_length in Hrs. unfold Py.range in Hrs.
    rewrite length_seq in Hrs. now rewrite Hrs.
  - intros H. unfold Py.range in Hrs.
    replace (Z.to_nat (CustomDriver._predictions self)) with O in Hrs by lia.
    now inversion Hrs.
  - intros H. unfold Py.range in Hrs.
    replace (Z.to_nat (CustomDriver._predictions self))
      with (S (S (Z.to_nat (CustomDriver._predictions self) - 2))) in Hrs
      by lia.
    cbn [seq] in Hrs.
    inversion Hrs as [|? r0 ? rs0 H0 Hrs0]; subst.
    inversion Hrs0 as [|? r1 ? rs1 H1 Hrs1]; subst.
    now exists r0, r1, rs1.
Qed.

(** X10: CustomDriver.run catches nothing: when, with no [stop] so far,
    the predictions before turn [k] return and the one of turn [k]
    raises, [run] ends with that exception. *)
Theorem CustomDriver_run_propagates (self : CustomDriver.t)
    (resources : Ports) (k : nat) (e : PyError) :
  (k < Z.to_nat (CustomDriver._predictions self))%nat ->
  (forall i, (i <= k)%nat -> stop_called i = false) ->
  (forall i, (i < k)%nat -> exists r, predict i (fake i) = ret r) ->
  predict k (fake k) = raise e ->
  CustomDriver.run predict fake stop_called self resources = raise e.
Proof.
  intros Hlt Hstop Hpred Hk.
  unfold CustomDriver.run. cbn [CustomDriver._predictions].
  assert (Hsplit : Py.range (CustomDriver._predictions self)
                   = (seq 0 k ++ k :: seq (S k)
                        (Z.to_nat (CustomDriver._predictions self) - S k))%list).
  { unfold Py.range.
    replace (Z.to_nat (CustomDriver._predictions self))
      with (k + S (Z.to_nat (CustomDriver._predictions self) - S k))%nat
      at 1 by lia.
    now rewrite seq_app. }
  rewrite Hsplit.
  rewrite (loop_fails (seq 0 k) k _ _ [] e); auto.
  - intros i Hi. apply Hstop. apply in_app_iff in Hi.
    destruct Hi as [Hi|[<-|[]]]; [apply in_seq in Hi|]; lia.
  - intros i Hi. apply Hpred. apply in_seq in Hi. lia.
Qed.

End DriverRuns.

Lemma CustomDriver_run_results_witness :
  Drivers.CustomDriver.run (fun i v => ret (v + 1)) (fun i => Z.of_nat i)
    (fun _ => false) (Drivers.CustomDriver.__init__ (Some 3) None) tt
  = ret ({| Drivers.CustomDriver._predictions := 3;
            Drivers.CustomDriver._params :=
              Drivers.CustomDriverParameters.default;
            Drivers.CustomDriver._running := true |},
         [Drivers.CustomDriver.Starting_custom_driver;
          Drivers.CustomDriver.Assigned_ports tt;
          Drivers.CustomDriver.First_result 1;
          Drivers.CustomDriver.Second_result 2;
          Drivers.CustomDriver.Average_time_over 3]).
Proof.
  apply (CustomDriver_run_results (fun i v => ret (v + 1))
           (fun i => Z.of_nat i) (fun _ => false)
           (Drivers.CustomDriver.__init__ (Some 3) None) tt [1; 2; 3]).
  - reflexivity.
  - repeat constructor.
Defined.

Lemma CustomDriver_run_propagates_witness :
  Drivers.CustomDriver.run (Ports := unit)
    (fun i v => if Nat.eqb i 2 then raise ValueError else ret v)
    (fun i => Z.of_nat i) (fun _ => false)
    (Drivers.CustomDriver.__init__ None None) tt
  = raise ValueError.
Proof.
  apply (CustomDriver_run_propagates
           (fun i v => if Nat.eqb i 2 then raise ValueError else ret v)
           (fun i => Z.of_nat i) (fun _ => false)
           (Drivers.CustomDriver.__init__ None None) tt 2%nat ValueError).
  - cbn. lia.
  - reflexivity.
  - intros i Hi. exists (Z.of_nat i).
    destruct i as [|[|i]]; [reflexivity | reflexivity | lia].
  - reflexivity.
Defined.

(** ** The warm-up loop of benchmark_task: how it fails *)

Section WarmupFailures.

Import RayRuntime Pipeline.

Context {px : Type} (half : px -> px).
Variable sleep : Float -> result unit.
Variable parameters : CellRef -> BenchmarkParameters.t.
Variable pipeline : Pipeline.t.

Lemma warmup_app (images : list (Image px)) (indices indices' : list nat) :
  warmup half sleep pipeline parameters images (indices ++ indices')
  = (_ <- warmup half sleep pipeline parameters images indices ;;
     warmup half sleep pipeline parameters images indices').
Proof.
  induction indices as [|i indices IH]; [reflexivity|].
  cbn [app warmup].
  destruct (Py.getitem images (Z.of_nat i)) as [e|image]; [reflexivity|].
  cbn [bind].
  destruct (RayRuntime.predict half sleep pipeline parameters image 0)
    as [e|out]; [reflexivity|].
  cbn [bind].
  destruct (counter_of out) as [e|counter]; [reflexivity|].
  cbn [bind].
  destruct (counter =? 4); [exact IH | reflexivity].
Qed.

(** The loop passes the indices whose image exists and whose prediction
    returns the counter 4. *)
Lemma warmup_passes_at (images : list (Image px)) (indices : list nat) :
  (forall i, In i indices ->
     exists image,
       nth_error images i = Some image
       /\ RayRuntime.predict half sleep pipeline parameters image 0
          = ret [("counter"%string, VInteger 4)]) ->
  warmup half sleep pipeline parameters images indices = ret tt.
Proof.
  induction indices as [|i indices IH]; intros H; [reflexivity|].
  cbn [warmup].
  destruct (H i (or_introl eq_refl)) as (image & E & Hp).
  rewrite (getitem_nat _ _ _ E). cbn [bind ret]. rewrite Hp. cbn.
  apply IH. intros j Hj. apply H. now right.
Qed.

Lemma range_split (k : nat) :
  (k < 5)%nat -> Py.range 5 = (seq 0 k ++ k :: seq (S k) (4 - k))%list.
Proof.
  intros H. unfold Py.range.
  replace (Z.to_nat 5) with (k + S (4 - k))%nat by lia.
  now rewrite seq_app.
Qed.

(** X11: the warm-up loop of [benchmark_task] reads five images: on a
    list of fewer than five images, each of which the pipeline answers
    with the counter 4, and so on an empty list, it raises
    [IndexError]. *)
Theorem warmup_needs_five_images (benchmark_images : list (Image px)) :
  (List.length benchmark_images < 5)%nat ->
  (forall image, In image benchmark_images ->
     RayRuntime.predict half sleep pipeline parameters image 0
     = ret [("counter"%string, VInteger 4)]) ->
  benchmark_task_warmup half sleep pipeline parameters benchmark_images
  = raise IndexError.
Proof.
  intros Hlen Hpredict. unfold benchmark_task_warmup.
  rewrite (range_split (List.length benchmark_images) Hlen), warmup_app.
  rewrite warmup_passes_at.
  - cbn [bind ret warmup].
    rewrite getitem_out_of_range by lia. reflexivity.
  - intros i Hi. apply in_seq in Hi.
    destruct (nth_error benchmark_images i) as [image|] eqn:E.
    + exists image. split; [reflexivity|].
      apply Hpredict. now apply (nth_error_In _ i).
    + apply nth_error_None in E. lia.
Qed.

(** X12: when the first [k] images, [k < 5], pass the warm-up, the loop
    ends at image [k] with the exception of its prediction when that
    raises, and with [AssertionError] when that returns a counter other
    than 4. *)
Theorem warmup_stops_at_first_failure (benchmark_images : list (Image px))
    (k : nat) (image : Image px) :
  (k < 5)%nat ->
  nth_error benchmark_images k = Some image ->
  (forall i image', (i < k)%nat -> nth_error benchmark_images i = Some image' ->
     RayRuntime.predict half sleep pipeline parameters image' 0
     = ret [("counter"%string, VInteger 4)]) ->
  (forall e,
     RayRuntime.predict half sleep pipeline parameters image 0 = raise e ->
     benchmark_task_warmup half sleep pipeline parameters benchmark_images
     = raise e)
  /\ (forall out counter,
        RayRuntime.predict half sleep pipeline parameters image 0 = ret out ->
        counter_of out = ret counter -> counter <> 4 ->
        benchmark_task_warmup half sleep pipeline parameters benchmark_images
        = raise AssertionError).
Proof.
  intros Hk E Hbefore.
  assert (Hlen : (k < List.length benchmark_images)%nat)
    by (apply nth_error_Some; congruence).
  assert (Hpass : warmup half sleep pipeline parameters benchmark_images
                    (seq 0 k) = ret tt).
  { apply warmup_passes_at. intros i Hi. apply in_seq in Hi.
    destruct (nth_error benchmark_images i) as [image'|] eqn:E'.
    - exists image'. split; [reflexivity|]. apply (Hbefore i); [lia | exact E'].
    - apply nth_error_None in E'. lia. }
  unfold benchmark_task_warmup.
  rewrite (range_split k Hk), warmup_app, Hpass. cbn [bind ret warmup].
  rewrite (getitem_nat _ _ _ E). cbn [bind ret].
  split.
  - intros e ->. reflexivity.
  - intros out counter -> Hc Hne. cbn [bind ret]. rewrite Hc. cbn [bind ret].
    destruct (Z.eqb_spec counter 4); [contradiction | reflexivity].
Qed.

End WarmupFailures.

Lemma warmup_needs_five_images_witness :
  RayRuntime.benchmark_task_warmup (fun sample => Z.quot sample 2)
    sleep_up_to_one_second RayRuntime.ChainedPipeline
    (RayRuntime.benchmark_parameters 20%float 10%float)
    [Image3D [[[200; 100; 50]]]; Image3D [[[2; 4; 6]]]]
  = raise IndexError.
Proof.
  apply (warmup_needs_five_images (fun sample => Z.quot sample 2)
           sleep_up_to_one_second
           (RayRuntime.benchmark_parameters 20%float 10%float)
           RayRuntime.ChainedPipeline
           [Image3D [[[200; 100; 50]]]; Image3D [[[2; 4; 6]]]]).
  - cbn. lia.
  - intros image [<-|[<-|[]]]; vm_compute; reflexivity.
Defined.

(** An image of two axes makes the first prediction raise [IndexError];
    a pipeline of three benchmark cells returns the counter 3. *)
Lemma warmup_stops_at_first_failure_witness :
  RayRuntime.benchmark_task_warmup (fun sample => Z.quot sample 2)
    sleep_up_to_one_second RayRuntime.SingleInputPipeline
    (fun _ => RayRuntime.BenchmarkParameters.default)
    [Image2D [[0]]]
  = raise IndexError
  /\ RayRuntime.benchmark_task_warmup (fun sample => Z.quot sample 2)
       sleep_up_to_one_second
       {| Pipeline.name := "three cells";
          Pipeline.cells := [("a", Pipeline.BenchmarkCell);
                             ("b", Pipeline.BenchmarkCell);
                             ("c", Pipeline.BenchmarkCell)];
          Pipeline.inputs := [("image", [("a", "image_in"); ("b", "image_in");
                                         ("c", "image_in")]);
                              ("counter", [("a", "counter_in")])];
          Pipeline.outputs := [("counter", ("c", "counter_out"))];
          Pipeline.connections :=
            [(("a", "counter_out"), ("b", "counter_in"));
             (("b", "counter_out"), ("c", "counter_in"))] |}%string
       (fun _ => RayRuntime.BenchmarkParameters.default)
       [Image3D [[[200; 100; 50]]]]
     = raise AssertionError.
Proof.
  split.
  - refine (proj1 (warmup_stops_at_first_failure
                     (fun sample => Z.quot sample 2) sleep_up_to_one_second
                     (fun _ => RayRuntime.BenchmarkParameters.default)
                     RayRuntime.SingleInputPipeline
                     [Image2D [[0]]] 0%nat (Image2D [[0]]) _ _ _)
              IndexError _).
    + lia.
    + reflexivity.
    + intros i image' Hi. lia.
    + vm_compute. reflexivity.
  - refine (proj2 (warmup_stops_at_first_failure
                     (fun sample => Z.quot sample 2) sleep_up_to_one_second
                     (fun _ => RayRuntime.BenchmarkParameters.default) _
                     [Image3D [[[200; 100; 50]]]] 0%nat
                     (Image3D [[[200; 100; 50]]]) _ _ _)
              [("counter"%string, VInteger 3)] 3 _ _ _).
    + lia.
    + reflexivity.
    + intros i image' Hi. lia.
    + vm_compute. reflexivity.
    + reflexivity.
    + discriminate.
Defined.

(** ** The declared pipelines as graphs *)

Section DeclaredPipelines.

Import Pipeline.
Local Open Scope string_scope.


(** X14: the imperative [generate_pipeline()] and the declarative
    [MyPipeline] of the getting-started notebook declare the same
    pipeline except for the reference of the multiplier cell, ["mul"] in
    the first and ["mult"] in the second. *)
Theorem generate_pipeline_is_MyPipeline_renamed :
  rename_cell "mul" "mult" GettingStarted.generate_pipeline
  = GettingStarted.MyPipeline
  /\ GettingStarted.generate_pipeline <> GettingStarted.MyPipeline
  /\ lookup String.eqb "mult" (cells GettingStarted.generate_pipeline) = None
  /\ lookup String.eqb "mul" (cells GettingStarted.MyPipeline) = None.
Proof.
  repeat split. discriminate.
Qed.

End DeclaredPipelines.
